(** * managed-timer: the SuperTimer / SuperCountdown engine

    A shallow embedding of [SuperTimerBase], [SuperTimer] and
    [SuperCountdown] (the pausable, speed-adjustable clock with its
    callback scheduler), followed by the properties of the engine.

    Modelling conventions.
    - JavaScript numbers are exact rationals ([Q]); [NaN] and the
      infinities are outside the model.  The division by a tick's
      interval in [nextExecutionTime] has its zero case written out; a
      speed multiplier of zero, which the source divides delays by, is
      outside the model and no property below relies on it.
      [Math.round] rounds half-way cases up, [Math.floor] is [Qfloor].
    - Truthiness is kept: [!this.unpausedAt] holds for [undefined] and
      for the number [0].
    - A method is a computation over the [World]: the timer object, the
      host behind the shims ([this.lib]), and the log of user functions
      called so far.  A [throw] keeps the mutations made before it.
    - Host registrations are data: a pending timeout, interval or frame
      request is stored with a description of the closure it would run.
      The three [Map]s of the timer hold handles, insertion ordered.
    - Callback objects are shared by reference in the source.  Their only
      mutable field is [lastExecutionMs], and it is read back only from
      objects held by the registry, so the registry holds that field and
      writes go through the object's identity ([uid]).
    - A user supplied function is opaque: calling it is recorded in
      [calls] and it does not call back into the timer.  The one function
      of the library that does, the completion handler of a countdown,
      is modelled in full.
    - Within one synchronous call the host clocks do not advance. *)

From Stdlib Require Import ZArith QArith Qround Qabs Lqa Sorted Permutation.
From stdpp Require Import base gmap strings list pretty.

(** ** Numbers *)

Definition Math_round (x : Q) : Z := Qfloor (x + (1 # 2)).
Definition Math_floor (x : Q) : Z := Qfloor x.

(** [x > y] and [x <= y] on numbers, as booleans. *)
Definition Qltb (x y : Q) : bool := negb (Qle_bool y x).
Definition Qleb (x y : Q) : bool := Qle_bool x y.

(** Truthiness of a [number | undefined]. *)
Definition truthy (x : option Q) : bool :=
  match x with
  | Some v => negb (Qeq_bool v 0)
  | None => false
  end.

(** ** Data model *)

Inductive CallbackType := Checkpoint | CheckpointOnce | Tick | TickReset.

Definition type_str (ty : CallbackType) : string :=
  match ty with
  | Checkpoint => "checkpoint"
  | CheckpointOnce => "checkpoint-once"
  | Tick => "tick"
  | TickReset => "tick-reset"
  end.

Definition CallbackType_eqb (a b : CallbackType) : bool :=
  match a, b with
  | Checkpoint, Checkpoint | CheckpointOnce, CheckpointOnce
  | Tick, Tick | TickReset, TickReset => true
  | _, _ => false
  end.

Inductive TimerEventType :=
  | EvCreate | EvPause | EvUnpause | EvStart | EvCheckpoint | EvTick
  | EvSetTime | EvAddTime | EvReset | EvSetSpeed.

(** The [data] payload of an event.  The two template strings are kept
    as their variable part. *)
Inductive EventData :=
  | DataName (callbackName : string)
  | DataWillAdd (ms : Q)        (* `${ms}ms will be added to elapsedMs.` *)
  | DataWillSet (ms : Q)        (* `elapsedMs will be set to ${ms}.` *)
  | DataNumber (x : Q).

Record TimerEvent := {
  ev_date : Q;
  ev_elapsedMs : Q;
  ev_event : TimerEventType;
  ev_data : option EventData;
}.

(** What [getState] hands out as [history]: the timer's own history
    object, or a structured clone of it. *)
Inductive HistoryRef :=
  | InternalHistory
  | ClonedHistory (events : list TimerEvent).

Record TimerState := {
  st_timerId : nat;
  st_elapsedMs : Z;
  st_isPaused : bool;
  st_history : HistoryRef;
}.

Inductive TimerError :=
  | DisposedError (timerName : string)
  | NameConflictError (type : CallbackType) (interpolatedName : option string)
  | OutOfFuel.

(** Insertion ordered [Map<string, handle>]. *)
Definition NameMap := list (string * nat).

Fixpoint nm_get (k : string) (m : NameMap) : option nat :=
  match m with
  | [] => None
  | (k', v) :: m' => if String.eqb k k' then Some v else nm_get k m'
  end.

Fixpoint nm_set (k : string) (v : nat) (m : NameMap) : NameMap :=
  match m with
  | [] => [(k, v)]
  | (k', v') :: m' =>
      if String.eqb k k' then (k', v) :: m' else (k', v') :: nm_set k v m'
  end.

Fixpoint nm_delete (k : string) (m : NameMap) : NameMap :=
  match m with
  | [] => []
  | (k', v') :: m' =>
      if String.eqb k k' then nm_delete k m' else (k', v') :: nm_delete k m'
  end.

Fixpoint remove_handle {A} (h : nat) (l : list (nat * A)) : list (nat * A) :=
  match l with
  | [] => []
  | (h', a) :: l' =>
      if Nat.eqb h h' then remove_handle h l' else (h', a) :: remove_handle h l'
  end.

Fixpoint find_handle {A} (h : nat) (l : list (nat * A)) : option A :=
  match l with
  | [] => None
  | (h', a) :: l' => if Nat.eqb h h' then Some a else find_handle h l'
  end.

(** ** The engine, generic in the timer type

    [Act] stands for [TimerCallback<TTimerType>], the functions a user may
    register; [Ext] for the fields a subclass adds to the object. *)

Section Engine.
Context {Act Ext : Type}.

(** An entry of the [callbacks] argument of [registerCallbacks]. *)
Record SuperTimerCallbackBase := {
  type : CallbackType;
  timeMs : Q;
  callback : Act;
  requireAnimationFrame : option bool;
  executeOnUpdate : option bool;
  name : option string;
  logExecutions : option bool;
  disableTickDriftCompensation : option bool;
}.

Record InternalCallback := {
  cb_uid : nat;                       (* identity of the object *)
  cb_name : string;
  cb_callback : Act;
  cb_timeMs : Q;
  cb_type : CallbackType;
  cb_requireAnimationFrame : bool;
  cb_executeOnUpdate : bool;
  cb_logExecutions : bool;
  cb_lastExecutionMs : Z;
  cb_registeredAt : Z;
  cb_disableTickDriftCompensation : bool;
}.

(** The object handed to [handleCheckpointCallback] and
    [createEventAndInvokeCallback]: a registered callback, or the copy
    [{...callback, callback: wrapper, timeMs: nextExecutionTime}] that
    [handleTickCallback] builds for the first firing of a tick. *)
Inductive Fired :=
  | Registered (cb : InternalCallback)
  | TickOneShot (orig : InternalCallback) (nextExecutionTime : Q).

Definition fired_name (f : Fired) : string :=
  match f with Registered cb | TickOneShot cb _ => cb_name cb end.
Definition fired_type (f : Fired) : CallbackType :=
  match f with Registered cb | TickOneShot cb _ => cb_type cb end.
Definition fired_requireAnimationFrame (f : Fired) : bool :=
  match f with
  | Registered cb | TickOneShot cb _ => cb_requireAnimationFrame cb
  end.
Definition fired_timeMs (f : Fired) : Q :=
  match f with
  | Registered cb => cb_timeMs cb
  | TickOneShot _ t => t
  end.
Definition fired_uid (f : Fired) : option nat :=
  match f with
  | Registered cb => Some (cb_uid cb)
  | TickOneShot _ _ => None           (* the copy is a fresh object *)
  end.

(** Closures given to the host. *)
Inductive OnceTask :=
  | CheckpointTimeout (callback : Fired) (eventType : TimerEventType)
                      (sourceCallback : option InternalCallback).
Inductive RepeatTask :=
  | TickInterval (callback : InternalCallback).
Inductive FrameTask :=
  | InvokeFrame (callback : Fired) (sourceCallback : option InternalCallback)
                (elapsedMs : Z)
  | LoopFrame (callback : InternalCallback).

(** The host behind [this.lib]: [performance.now()], [new Date()], and the
    registrations it still holds (a timeout with its due time, an interval
    with its next due time and period). *)
Record Host := {
  now : Q;
  wall : Q;
  nextHandle : nat;
  pendingOnce : list (nat * (Q * OnceTask));
  pendingRepeating : list (nat * (Q * Q * RepeatTask));
  pendingFrame : list (nat * FrameTask);
  hasStructuredClone : bool;
}.

Record SuperTimerBase := {
  timer_id : nat;
  callbacks : list InternalCallback;
  history : list TimerEvent;          (* history.events *)
  unpausedAt : option Q;
  pausedAt : Q;
  elapsedMs : Q;
  timeouts : NameMap;
  intervals : NameMap;
  rafs : NameMap;
  callbackIdSeeds : gmap string nat;
  callbackNames : gmap string (gset string);
  disposed : bool;
  speed : Q;
  timer_name : string;
}.

Record World := {
  timer : SuperTimerBase;
  host : Host;
  ext : Ext;
  allocated : nat;                    (* objects created so far *)
  calls : list Act;                   (* user functions called so far *)
}.

(** *** Field updates *)

Definition set_callbacks v (t : SuperTimerBase) : SuperTimerBase :=
  {| timer_id := timer_id t; callbacks := v; history := history t;
     unpausedAt := unpausedAt t; pausedAt := pausedAt t;
     elapsedMs := elapsedMs t; timeouts := timeouts t;
     intervals := intervals t; rafs := rafs t;
     callbackIdSeeds := callbackIdSeeds t; callbackNames := callbackNames t;
     disposed := disposed t; speed := speed t; timer_name := timer_name t |}.
Definition set_history v (t : SuperTimerBase) : SuperTimerBase :=
  {| timer_id := timer_id t; callbacks := callbacks t; history := v;
     unpausedAt := unpausedAt t; pausedAt := pausedAt t;
     elapsedMs := elapsedMs t; timeouts := timeouts t;
     intervals := intervals t; rafs := rafs t;
     callbackIdSeeds := callbackIdSeeds t; callbackNames := callbackNames t;
     disposed := disposed t; speed := speed t; timer_name := timer_name t |}.
Definition set_unpausedAt v (t : SuperTimerBase) : SuperTimerBase :=
  {| timer_id := timer_id t; callbacks := callbacks t; history := history t;
     unpausedAt := v; pausedAt := pausedAt t;
     elapsedMs := elapsedMs t; timeouts := timeouts t;
     intervals := intervals t; rafs := rafs t;
     callbackIdSeeds := callbackIdSeeds t; callbackNames := callbackNames t;
     disposed := disposed t; speed := speed t; timer_name := timer_name t |}.
Definition set_pausedAt v (t : SuperTimerBase) : SuperTimerBase :=
  {| timer_id := timer_id t; callbacks := callbacks t; history := history t;
     unpausedAt := unpausedAt t; pausedAt := v;
     elapsedMs := elapsedMs t; timeouts := timeouts t;
     intervals := intervals t; rafs := rafs t;
     callbackIdSeeds := callbackIdSeeds t; callbackNames := callbackNames t;
     disposed := disposed t; speed := speed t; timer_name := timer_name t |}.
Definition set_elapsedMs v (t : SuperTimerBase) : SuperTimerBase :=
  {| timer_id := timer_id t; callbacks := callbacks t; history := history t;
     unpausedAt := unpausedAt t; pausedAt := pausedAt t;
     elapsedMs := v; timeouts := timeouts t;
     intervals := intervals t; rafs := rafs t;
     callbackIdSeeds := callbackIdSeeds t; callbackNames := callbackNames t;
     disposed := disposed t; speed := speed t; timer_name := timer_name t |}.
Definition set_timeouts v (t : SuperTimerBase) : SuperTimerBase :=
  {| timer_id := timer_id t; callbacks := callbacks t; history := history t;
     unpausedAt := unpausedAt t; pausedAt := pausedAt t;
     elapsedMs := elapsedMs t; timeouts := v;
     intervals := intervals t; rafs := rafs t;
     callbackIdSeeds := callbackIdSeeds t; callbackNames := callbackNames t;
     disposed := disposed t; speed := speed t; timer_name := timer_name t |}.
Definition set_intervals v (t : SuperTimerBase) : SuperTimerBase :=
  {| timer_id := timer_id t; callbacks := callbacks t; history := history t;
     unpausedAt := unpausedAt t; pausedAt := pausedAt t;
     elapsedMs := elapsedMs t; timeouts := timeouts t;
     intervals := v; rafs := rafs t;
     callbackIdSeeds := callbackIdSeeds t; callbackNames := callbackNames t;
     disposed := disposed t; speed := speed t; timer_name := timer_name t |}.
Definition set_rafs v (t : SuperTimerBase) : SuperTimerBase :=
  {| timer_id := timer_id t; callbacks := callbacks t; history := history t;
     unpausedAt := unpausedAt t; pausedAt := pausedAt t;
     elapsedMs := elapsedMs t; timeouts := timeouts t;
     intervals := intervals t; rafs := v;
     callbackIdSeeds := callbackIdSeeds t; callbackNames := callbackNames t;
     disposed := disposed t; speed := speed t; timer_name := timer_name t |}.
Definition set_names seeds names (t : SuperTimerBase) : SuperTimerBase :=
  {| timer_id := timer_id t; callbacks := callbacks t; history := history t;
     unpausedAt := unpausedAt t; pausedAt := pausedAt t;
     elapsedMs := elapsedMs t; timeouts := timeouts t;
     intervals := intervals t; rafs := rafs t;
     callbackIdSeeds := seeds; callbackNames := names;
     disposed := disposed t; speed := speed t; timer_name := timer_name t |}.
Definition set_disposed v (t : SuperTimerBase) : SuperTimerBase :=
  {| timer_id := timer_id t; callbacks := callbacks t; history := history t;
     unpausedAt := unpausedAt t; pausedAt := pausedAt t;
     elapsedMs := elapsedMs t; timeouts := timeouts t;
     intervals := intervals t; rafs := rafs t;
     callbackIdSeeds := callbackIdSeeds t; callbackNames := callbackNames t;
     disposed := v; speed := speed t; timer_name := timer_name t |}.
Definition set_speed v (t : SuperTimerBase) : SuperTimerBase :=
  {| timer_id := timer_id t; callbacks := callbacks t; history := history t;
     unpausedAt := unpausedAt t; pausedAt := pausedAt t;
     elapsedMs := elapsedMs t; timeouts := timeouts t;
     intervals := intervals t; rafs := rafs t;
     callbackIdSeeds := callbackIdSeeds t; callbackNames := callbackNames t;
     disposed := disposed t; speed := v; timer_name := timer_name t |}.

Definition with_timer (f : SuperTimerBase -> SuperTimerBase) (w : World) : World :=
  {| timer := f (timer w); host := host w; ext := ext w;
     allocated := allocated w; calls := calls w |}.
Definition with_host (f : Host -> Host) (w : World) : World :=
  {| timer := timer w; host := f (host w); ext := ext w;
     allocated := allocated w; calls := calls w |}.
Definition with_ext (f : Ext -> Ext) (w : World) : World :=
  {| timer := timer w; host := host w; ext := f (ext w);
     allocated := allocated w; calls := calls w |}.
Definition with_calls (f : list Act -> list Act) (w : World) : World :=
  {| timer := timer w; host := host w; ext := ext w;
     allocated := allocated w; calls := f (calls w) |}.
Definition with_allocated (n : nat) (w : World) : World :=
  {| timer := timer w; host := host w; ext := ext w;
     allocated := n; calls := calls w |}.

Definition set_pendingOnce v (h : Host) : Host :=
  {| now := now h; wall := wall h; nextHandle := nextHandle h;
     pendingOnce := v; pendingRepeating := pendingRepeating h;
     pendingFrame := pendingFrame h;
     hasStructuredClone := hasStructuredClone h |}.
Definition set_pendingRepeating v (h : Host) : Host :=
  {| now := now h; wall := wall h; nextHandle := nextHandle h;
     pendingOnce := pendingOnce h; pendingRepeating := v;
     pendingFrame := pendingFrame h;
     hasStructuredClone := hasStructuredClone h |}.
Definition set_pendingFrame v (h : Host) : Host :=
  {| now := now h; wall := wall h; nextHandle := nextHandle h;
     pendingOnce := pendingOnce h; pendingRepeating := pendingRepeating h;
     pendingFrame := v;
     hasStructuredClone := hasStructuredClone h |}.
Definition set_nextHandle v (h : Host) : Host :=
  {| now := now h; wall := wall h; nextHandle := v;
     pendingOnce := pendingOnce h; pendingRepeating := pendingRepeating h;
     pendingFrame := pendingFrame h;
     hasStructuredClone := hasStructuredClone h |}.
Definition set_clocks n d (h : Host) : Host :=
  {| now := n; wall := d; nextHandle := nextHandle h;
     pendingOnce := pendingOnce h; pendingRepeating := pendingRepeating h;
     pendingFrame := pendingFrame h;
     hasStructuredClone := hasStructuredClone h |}.

(** *** Computations: state with exceptions that keep the state *)

Inductive Outcome (A : Type) :=
  | Returned (a : A) (w : World)
  | Thrown (e : TimerError) (w : World).
Arguments Returned {A} a w.
Arguments Thrown {A} e w.

Definition M (A : Type) : Type := World -> Outcome A.

Definition ret {A} (a : A) : M A := fun w => Returned a w.
Definition bind {A B} (m : M A) (k : A -> M B) : M B :=
  fun w =>
    match m w with
    | Returned a w' => k a w'
    | Thrown e w' => Thrown e w'
    end.
Definition throw {A} (e : TimerError) : M A := fun w => Thrown e w.
Definition gets {A} (f : World -> A) : M A := fun w => Returned (f w) w.
Definition modify (f : World -> World) : M unit := fun w => Returned tt (f w).
Definition modify_timer (f : SuperTimerBase -> SuperTimerBase) : M unit :=
  modify (with_timer f).

Notation "'let*' x ':=' m 'in' k" := (bind m (fun x => k))
  (at level 10, x name, m at level 100, k at level 200,
   format "'[v' 'let*'  x  ':='  m  'in' '/' k ']'").
Notation "m >> k" := (bind m (fun _ => k))
  (at level 90, right associativity).

Fixpoint forM_ {A} (l : list A) (f : A -> M unit) : M unit :=
  match l with
  | [] => ret tt
  | x :: l' => f x >> forM_ l' f
  end.

Fixpoint mapM {A B} (f : A -> M B) (l : list A) : M (list B) :=
  match l with
  | [] => ret []
  | x :: l' =>
      let* y := f x in
      let* ys := mapM f l' in
      ret (y :: ys)
  end.

Definition when (b : bool) (m : M unit) : M unit := if b then m else ret tt.

(** *** The shims *)

Definition lib_setTimeout (task : OnceTask) (delay : Q) : M nat := fun w =>
  let h := nextHandle (host w) in
  Returned h
    (with_host (fun hs =>
       set_nextHandle (S h)
         (set_pendingOnce
            (pendingOnce hs ++ [(h, ((now hs + delay)%Q, task))]) hs)) w).

Definition lib_clearTimeout (h : nat) : M unit :=
  modify (with_host (fun hs =>
    set_pendingOnce (remove_handle h (pendingOnce hs)) hs)).

Definition lib_setInterval (task : RepeatTask) (period : Q) : M nat := fun w =>
  let h := nextHandle (host w) in
  Returned h
    (with_host (fun hs =>
       set_nextHandle (S h)
         (set_pendingRepeating
            (pendingRepeating hs ++ [(h, ((now hs + period)%Q, period, task))])
            hs)) w).

Definition lib_clearInterval (h : nat) : M unit :=
  modify (with_host (fun hs =>
    set_pendingRepeating (remove_handle h (pendingRepeating hs)) hs)).

Definition lib_requestAnimationFrame (task : FrameTask) : M nat := fun w =>
  let h := nextHandle (host w) in
  Returned h
    (with_host (fun hs =>
       set_nextHandle (S h)
         (set_pendingFrame (pendingFrame hs ++ [(h, task)]) hs)) w).

Definition lib_cancelAnimationFrame (h : nat) : M unit :=
  modify (with_host (fun hs =>
    set_pendingFrame (remove_handle h (pendingFrame hs)) hs)).

(** *** SuperTimerBase *)

(** What calling a [TimerCallback<TTimerType>] with the timer does. *)
Variable applyAction : Act -> M unit.

Definition checkDisposed : M unit := fun w =>
  if disposed (timer w)
  then Thrown (DisposedError (timer_name (timer w))) w
  else Returned tt w.

Definition running (t : SuperTimerBase) : bool := truthy (unpausedAt t).

(** The value [getElapsedMs] computes on a timer that is not disposed. *)
Definition elapsedAt (t : SuperTimerBase) (hostNow : Q) : Z :=
  if negb (running t) then Math_round (elapsedMs t)
  else
    let elapsedSinceLastPause :=
      ((hostNow - default 0 (unpausedAt t)) * speed t)%Q in
    Math_round (elapsedMs t + elapsedSinceLastPause).

Definition getElapsedMs : M Z :=
  checkDisposed >> gets (fun w => elapsedAt (timer w) (now (host w))).

Definition pushEvent (ty : TimerEventType) (elapsed : Q)
    (data : option EventData) : M unit :=
  modify (fun w =>
    with_timer (fun t =>
      set_history
        (history t ++
           [{| ev_date := wall (host w); ev_elapsedMs := elapsed;
               ev_event := ty; ev_data := data |}]) t) w).

(** [obj.lastExecutionMs = v] for the callback object [uid]. *)
Definition setLastExecution (uid : option nat) (v : Z) : M unit :=
  match uid with
  | None => ret tt
  | Some u =>
      modify_timer (fun t =>
        set_callbacks
          (map (fun cb =>
                  if Nat.eqb (cb_uid cb) u
                  then {| cb_uid := cb_uid cb; cb_name := cb_name cb;
                          cb_callback := cb_callback cb;
                          cb_timeMs := cb_timeMs cb; cb_type := cb_type cb;
                          cb_requireAnimationFrame := cb_requireAnimationFrame cb;
                          cb_executeOnUpdate := cb_executeOnUpdate cb;
                          cb_logExecutions := cb_logExecutions cb;
                          cb_lastExecutionMs := v;
                          cb_registeredAt := cb_registeredAt cb;
                          cb_disableTickDriftCompensation :=
                            cb_disableTickDriftCompensation cb |}
                  else cb)
               (callbacks t)) t)
  end.

(** [(sourceCallback ?? callback)] as an object identity. *)
Definition executionTarget (sourceCallback : option InternalCallback)
    (callback : Fired) : option nat :=
  match sourceCallback with
  | Some src => Some (cb_uid src)
  | None => fired_uid callback
  end.

Definition handleTickResetCallback (callback : InternalCallback) : M unit :=
  if Qeq_bool (cb_timeMs callback) 0 && cb_requireAnimationFrame callback then
    let* rafId := lib_requestAnimationFrame (LoopFrame callback) in
    modify_timer (fun t => set_rafs (nm_set (cb_name callback) rafId (rafs t)) t)
  else
    let* sp := gets (fun w => speed (timer w)) in
    let* interval :=
      lib_setInterval (TickInterval callback) (cb_timeMs callback / sp)%Q in
    modify_timer (fun t =>
      set_intervals (nm_set (cb_name callback) interval (intervals t)) t).

(** [executeCallback] is [callback.callback(this)] in both subclasses.  The
    function of the one-shot copy is the wrapper of [handleTickCallback]. *)
Definition executeCallback (callback : Fired) : M unit :=
  match callback with
  | Registered cb =>
      modify (with_calls (fun l => l ++ [cb_callback cb])) >>
      applyAction (cb_callback cb)
  | TickOneShot orig _ =>
      handleTickResetCallback orig >>
      modify (with_calls (fun l => l ++ [cb_callback orig])) >>
      applyAction (cb_callback orig)
  end.

Definition createEventAndInvokeCallback (callback : Fired)
    (eventType : option TimerEventType)
    (sourceCallback : option InternalCallback) : M unit :=
  let* elapsed := getElapsedMs in
  match eventType with
  | Some ty =>
      pushEvent ty (inject_Z elapsed) (Some (DataName (fired_name callback)))
  | None => ret tt
  end >>
  if fired_requireAnimationFrame callback then
    let* rafId :=
      lib_requestAnimationFrame (InvokeFrame callback sourceCallback elapsed) in
    modify_timer (fun t =>
      set_rafs (nm_set (fired_name callback) rafId (rafs t)) t)
  else
    setLastExecution (executionTarget sourceCallback callback) elapsed >>
    executeCallback callback.

Definition handleRafCallback (callback : InternalCallback) : M unit :=
  let* elapsed := getElapsedMs in
  let* isRunning := gets (fun w => running (timer w)) in
  when isRunning
    (setLastExecution (Some (cb_uid callback)) elapsed >>
     pushEvent EvTick (inject_Z elapsed) (Some (DataName (cb_name callback))) >>
     executeCallback (Registered callback) >>
     let* rafId := lib_requestAnimationFrame (LoopFrame callback) in
     modify_timer (fun t =>
       set_rafs (nm_set (cb_name callback) rafId (rafs t)) t)).

Definition handleCheckpointCallback (callback : Fired)
    (eventType : TimerEventType)
    (sourceCallback : option InternalCallback) : M unit :=
  let* elapsed := getElapsedMs in
  let* sp := gets (fun w => speed (timer w)) in
  let msUntilCheckpoint := ((fired_timeMs callback - inject_Z elapsed) / sp)%Q in
  if Qleb msUntilCheckpoint 0 then ret tt
  else
    let* timeout :=
      lib_setTimeout (CheckpointTimeout callback eventType sourceCallback)
        msUntilCheckpoint in
    modify_timer (fun t =>
      set_timeouts (nm_set (fired_name callback) timeout (timeouts t)) t).

(** The target [handleTickCallback] computes.  With [timeMs = 0] the
    quotient is infinite or [NaN], [idealNextExecutionTime] is not finite,
    and the comparison [nextExecutionTime - ideal > 0] is false. *)
Definition idealNextExecutionTime (callback : InternalCallback)
    (elapsed : Z) : Q :=
  let fullIntervals :=
    Math_floor ((inject_Z elapsed - inject_Z (cb_registeredAt callback))
                / cb_timeMs callback) in
  (inject_Z (cb_registeredAt callback)
   + (inject_Z fullIntervals + 1) * cb_timeMs callback)%Q.

Definition nextExecutionTime (callback : InternalCallback) (elapsed : Z) : Q :=
  let naive := (inject_Z (cb_lastExecutionMs callback) + cb_timeMs callback)%Q in
  if negb (cb_disableTickDriftCompensation callback)
     && negb (Qeq_bool (cb_timeMs callback) 0)
     && Qltb 0 (naive - idealNextExecutionTime callback elapsed)
  then idealNextExecutionTime callback elapsed
  else naive.

Definition handleTickCallback (callback : InternalCallback) : M unit :=
  let* elapsed := getElapsedMs in
  let next := nextExecutionTime callback elapsed in
  if Qltb (inject_Z elapsed) next
     && Qltb next (inject_Z elapsed + cb_timeMs callback)
  then handleCheckpointCallback (TickOneShot callback next) EvTick (Some callback)
  else handleTickResetCallback callback.

Definition startCallbacks (cbs : list InternalCallback) : M unit :=
  let* isRunning := gets (fun w => running (timer w)) in
  when isRunning
    (forM_ cbs (fun callback =>
       match cb_type callback with
       | Checkpoint | CheckpointOnce =>
           handleCheckpointCallback (Registered callback) EvCheckpoint None
       | TickReset => handleTickResetCallback callback
       | Tick => handleTickCallback callback
       end)).

(** [clearTimeouts].  The loop over [this.intervals.values()] clears the
    map in its body, which ends the iteration after the first entry. *)
Definition clearTimeouts (excludeIntervals : bool) : M unit :=
  let* ts := gets (fun w => timeouts (timer w)) in
  forM_ ts (fun e => lib_clearTimeout (snd e)) >>
  modify_timer (set_timeouts []) >>
  when (negb excludeIntervals)
    (let* ivs := gets (fun w => intervals (timer w)) in
     match ivs with
     | [] => ret tt
     | e :: _ => lib_clearInterval (snd e) >> modify_timer (set_intervals [])
     end >>
     let* rs := gets (fun w => rafs (timer w)) in
     forM_ rs (fun e => lib_cancelAnimationFrame (snd e)) >>
     modify_timer (set_rafs [])).

Definition updateEventType (callback : InternalCallback) : TimerEventType :=
  match cb_type callback with
  | Checkpoint => EvCheckpoint
  | _ => EvTick
  end.

Definition executeUpdateCallbacks : M unit :=
  let* cbs := gets (fun w => callbacks (timer w)) in
  forM_ cbs (fun callback =>
    when (cb_executeOnUpdate callback)
      (createEventAndInvokeCallback (Registered callback)
         (Some (updateEventType callback)) None)).

(** One turn of the loop of [registerCallbacks]. *)
Definition registerOne (cb : SuperTimerCallbackBase) : M InternalCallback :=
  let key := type_str (type cb) in
  modify_timer (fun t =>
    match callbackIdSeeds t !! key with
    | Some (S _) => t
    | _ => set_names (<[key := 1%nat]> (callbackIdSeeds t))
                     (<[key := ∅]> (callbackNames t)) t
    end) >>
  let* callbackIdSeed :=
    gets (fun w => default 0%nat (callbackIdSeeds (timer w) !! key)) in
  let* callbackNamesForType :=
    gets (fun w => default ∅ (callbackNames (timer w) !! key)) in
  let callbackName :=
    match name cb with
    | Some n => n
    | None => key +:+ "-" +:+ pretty callbackIdSeed
    end in
  if bool_decide (callbackName ∈ callbackNamesForType) then
    throw (NameConflictError (type cb) (name cb))
  else
    let* elapsed := getElapsedMs in
    let* uid := gets allocated in
    modify (with_allocated (S uid)) >>
    let internalCallback :=
      {| cb_uid := uid; cb_name := callbackName; cb_callback := callback cb;
         cb_timeMs := timeMs cb; cb_type := type cb;
         cb_requireAnimationFrame := default false (requireAnimationFrame cb);
         cb_executeOnUpdate := default false (executeOnUpdate cb);
         cb_logExecutions := default false (logExecutions cb);
         cb_lastExecutionMs := elapsed; cb_registeredAt := elapsed;
         cb_disableTickDriftCompensation :=
           default false (disableTickDriftCompensation cb) |} in
    modify_timer (fun t =>
      set_names
        (<[key := S (default 0%nat (callbackIdSeeds t !! key))]>
           (callbackIdSeeds t))
        (<[key := default ∅ (callbackNames t !! key) ∪ {[callbackName]}]>
           (callbackNames t))
        (set_callbacks (callbacks t ++ [internalCallback]) t)) >>
    ret internalCallback.

Definition registerCallbacks (cbs : list SuperTimerCallbackBase) : M unit :=
  checkDisposed >>
  let* callbacksToStart := mapM registerOne cbs in
  startCallbacks callbacksToStart.

(** [this.callbacks.splice(index, 1)] at the first entry named [n]. *)
Fixpoint removeFirstNamed (n : string) (l : list InternalCallback)
    : list InternalCallback :=
  match l with
  | [] => []
  | cb :: l' =>
      if String.eqb (cb_name cb) n then l' else cb :: removeFirstNamed n l'
  end.

Definition removeName (n : string) (names : gmap string (gset string))
    : gmap string (gset string) :=
  foldr (fun ty acc =>
           match acc !! type_str ty with
           | Some s => <[type_str ty := s ∖ {[n]}]> acc
           | None => acc
           end)
        names [Checkpoint; CheckpointOnce; Tick; TickReset].

Definition removeCallbacks (callbackNames_ : list string) : M unit :=
  checkDisposed >>
  forM_ callbackNames_ (fun n =>
    let* t := gets timer in
    match nm_get n (timeouts t) with
    | Some timeout =>
        lib_clearTimeout timeout >>
        modify_timer (fun t => set_timeouts (nm_delete n (timeouts t)) t)
    | None => ret tt
    end >>
    match nm_get n (intervals t) with
    | Some interval =>
        lib_clearInterval interval >>
        modify_timer (fun t => set_intervals (nm_delete n (intervals t)) t)
    | None => ret tt
    end >>
    match nm_get n (rafs t) with
    | Some raf =>
        lib_cancelAnimationFrame raf >>
        modify_timer (fun t => set_rafs (nm_delete n (rafs t)) t)
    | None => ret tt
    end >>
    modify_timer (fun t =>
      set_names (callbackIdSeeds t) (removeName n (callbackNames t))
        (set_callbacks (removeFirstNamed n (callbacks t)) t))).

Definition removeAllCallbacks : M unit :=
  checkDisposed >>
  let* cbs := gets (fun w => callbacks (timer w)) in
  let callbacksToRemove :=
    List.filter (fun c => negb (String.prefix "!" (cb_name c))) cbs in
  removeCallbacks (map cb_name callbacksToRemove).

(** The parameter of [unpause] is not used by its body. *)
Definition unpause (suppressUpdateCallbacks : bool) : M unit :=
  checkDisposed >>
  let* isRunning := gets (fun w => running (timer w)) in
  if isRunning then ret tt
  else
    modify (fun w => with_timer (set_unpausedAt (Some (now (host w)))) w) >>
    let* elapsed := getElapsedMs in
    pushEvent EvUnpause (inject_Z elapsed) None >>
    let* cbs := gets (fun w => callbacks (timer w)) in
    startCallbacks cbs >>
    executeUpdateCallbacks.

Definition pause (suppressUpdateCallbacks : bool) : M bool :=
  checkDisposed >>
  let* isRunning := gets (fun w => running (timer w)) in
  if negb isRunning then ret false
  else
    modify (fun w => with_timer (set_pausedAt (now (host w))) w) >>
    modify_timer (fun t =>
      let elapsedSinceLastPause :=
        ((pausedAt t - default 0 (unpausedAt t)) * speed t)%Q in
      set_unpausedAt None
        (set_elapsedMs (elapsedMs t + elapsedSinceLastPause)%Q t)) >>
    let* e := gets (fun w => elapsedMs (timer w)) in
    pushEvent EvPause e None >>
    clearTimeouts false >>
    when (negb suppressUpdateCallbacks) executeUpdateCallbacks >>
    ret true.

Definition dispose : M unit :=
  clearTimeouts false >> modify_timer (set_disposed true).

Definition getState : M TimerState :=
  checkDisposed >>
  let* w := gets (fun w => w) in
  let history_ :=
    if hasStructuredClone (host w)
    then ClonedHistory (history (timer w))
    else InternalHistory in
  let* elapsed := getElapsedMs in
  ret {| st_timerId := timer_id (timer w); st_elapsedMs := elapsed;
         st_isPaused := negb (running (timer w)); st_history := history_ |}.

(** *** Methods that call [this.unpause], which a subclass overrides *)

Section Virtual.
Variable this_unpause : bool -> M unit.

Definition start : M unit := this_unpause false.

Definition isCheckpoint (c : InternalCallback) : bool :=
  CallbackType_eqb (cb_type c) Checkpoint.

(** [Array.prototype.sort] with [(a, b) => a.timeMs - b.timeMs]; the sort
    is stable. *)
Fixpoint insertByTimeMs (x : InternalCallback) (l : list InternalCallback)
    : list InternalCallback :=
  match l with
  | [] => [x]
  | y :: l' =>
      if Qleb (cb_timeMs x) (cb_timeMs y) then x :: y :: l'
      else y :: insertByTimeMs x l'
  end.

Definition sortByTimeMs (l : list InternalCallback) : list InternalCallback :=
  foldr insertByTimeMs [] l.

Definition crossedBy (oldElapsed : Z) (ms : Q) (callback : InternalCallback)
    : bool :=
  Qltb (inject_Z oldElapsed) (cb_timeMs callback)
  && Qleb (cb_timeMs callback) (inject_Z oldElapsed + ms).

Definition _addTime (ms : Q) (suppressCallbacks : bool) : M unit :=
  clearTimeouts true >>
  let* wasPaused := pause true in
  let* oldElapsed := getElapsedMs in
  modify_timer (fun t => set_elapsedMs (elapsedMs t + ms)%Q t) >>
  let* cbs := gets (fun w => callbacks (timer w)) in
  let sortedCallbacks := sortByTimeMs (List.filter isCheckpoint cbs) in
  when (negb suppressCallbacks)
    (forM_ sortedCallbacks (fun callback =>
       when (crossedBy oldElapsed ms callback)
         (createEventAndInvokeCallback (Registered callback)
            (Some EvCheckpoint) None))) >>
  executeUpdateCallbacks >>
  let* isRunning := gets (fun w => running (timer w)) in
  when (negb isRunning && wasPaused) (this_unpause true).

Definition addTime (ms : Q) (suppressCallbacks : bool) : M unit :=
  checkDisposed >>
  let* elapsed := getElapsedMs in
  pushEvent EvAddTime (inject_Z elapsed) (Some (DataWillAdd ms)) >>
  _addTime ms suppressCallbacks.

Definition setTime (ms : Q) (suppressCallbacks : bool) : M unit :=
  checkDisposed >>
  let* elapsed := getElapsedMs in
  pushEvent EvSetTime (inject_Z elapsed) (Some (DataWillSet ms)) >>
  let timeToAdd := (ms - inject_Z elapsed)%Q in
  _addTime timeToAdd suppressCallbacks.

Definition setSpeedMultiplier (speedMultiplier : Q) : M unit :=
  let* t := gets timer in
  when (negb (Qeq_bool speedMultiplier (speed t)))
    (let* shouldUnpause :=
       if running t then pause false >> ret true else ret false in
     modify_timer (set_speed speedMultiplier) >>
     let* e := gets (fun w => elapsedMs (timer w)) in
     pushEvent EvSetSpeed e (Some (DataNumber speedMultiplier)) >>
     when shouldUnpause (this_unpause false)).

End Virtual.

(** *** The host runs a registration *)

Definition runOnce (task : OnceTask) : M unit :=
  match task with
  | CheckpointTimeout callback eventType sourceCallback =>
      when (CallbackType_eqb (fired_type callback) CheckpointOnce)
        (removeCallbacks [fired_name callback]) >>
      createEventAndInvokeCallback callback (Some eventType) sourceCallback
  end.

Definition runRepeating (task : RepeatTask) : M unit :=
  match task with
  | TickInterval callback =>
      createEventAndInvokeCallback (Registered callback) (Some EvTick) None
  end.

Definition runFrame (task : FrameTask) : M unit :=
  match task with
  | InvokeFrame callback sourceCallback elapsed =>
      setLastExecution (executionTarget sourceCallback callback) elapsed >>
      executeCallback callback
  | LoopFrame callback => handleRafCallback callback
  end.

(** Time passes on the host. *)
Definition hostAdvance (dt : Q) (w : World) : World :=
  with_host (fun hs => set_clocks (now hs + dt)%Q (wall hs + dt)%Q hs) w.

(** A due timeout fires: the host forgets it and runs its closure. *)
Definition hostFireTimeout (h : nat) (w : World) : option (Outcome unit) :=
  match find_handle h (pendingOnce (host w)) with
  | Some (due, task) =>
      if Qleb due (now (host w)) then
        Some (runOnce task
                (with_host (fun hs =>
                   set_pendingOnce (remove_handle h (pendingOnce hs)) hs) w))
      else None
  | None => None
  end.

(** A due interval fires and is re-armed one period later. *)
Definition hostFireInterval (h : nat) (w : World) : option (Outcome unit) :=
  match find_handle h (pendingRepeating (host w)) with
  | Some (due, period, task) =>
      if Qleb due (now (host w)) then
        Some (runRepeating task
                (with_host (fun hs =>
                   set_pendingRepeating
                     (map (fun e =>
                             if Nat.eqb (fst e) h
                             then (h, ((due + period)%Q, period, task))
                             else e)
                          (pendingRepeating hs)) hs) w))
      else None
  | None => None
  end.

(** The next frame arrives for a frame request. *)
Definition hostFireFrame (h : nat) (w : World) : option (Outcome unit) :=
  match find_handle h (pendingFrame (host w)) with
  | Some task =>
      Some (runFrame task
              (with_host (fun hs =>
                 set_pendingFrame (remove_handle h (pendingFrame hs)) hs) w))
  | None => None
  end.

(** *** Construction

    The module-level counter [timerId] is an argument.  The constructor
    registers the callbacks of the options before it assigns [lib],
    [pausedAt], [speed] and [name]; a paused timer reads none of them. *)

Record SuperTimerOptions := {
  opt_name : option string;
  opt_callbacks : list SuperTimerCallbackBase;
  opt_timerSpeedMultiplier : option Q;
}.

Definition newObject (timerId : nat) (hs : Host) (e : Ext) : World :=
  {| timer :=
       {| timer_id := timerId; callbacks := []; history := [];
          unpausedAt := None; pausedAt := 0; elapsedMs := 0;
          timeouts := []; intervals := []; rafs := [];
          callbackIdSeeds := ∅; callbackNames := ∅;
          disposed := false; speed := 1; timer_name := "" |};
     host := hs; ext := e; allocated := 0; calls := [] |}.

Definition constructBase (options : SuperTimerOptions) : M unit :=
  registerCallbacks (opt_callbacks options) >>
  modify (fun w =>
    with_timer (fun t =>
      {| timer_id := timer_id t; callbacks := callbacks t;
         history := history t; unpausedAt := unpausedAt t;
         pausedAt := now (host w); elapsedMs := elapsedMs t;
         timeouts := timeouts t; intervals := intervals t; rafs := rafs t;
         callbackIdSeeds := callbackIdSeeds t;
         callbackNames := callbackNames t; disposed := disposed t;
         speed :=
           match opt_timerSpeedMultiplier options with
           | Some x => if Qeq_bool x 0 then 1 else x
           | None => 1
           end;
         timer_name :=
           default ("timer-" +:+ pretty (timer_id t)) (opt_name options) |})
      w).

End Engine.

Arguments SuperTimerCallbackBase : clear implicits.
Arguments InternalCallback : clear implicits.
Arguments Fired : clear implicits.
Arguments OnceTask : clear implicits.
Arguments RepeatTask : clear implicits.
Arguments FrameTask : clear implicits.
Arguments Host : clear implicits.
Arguments SuperTimerBase : clear implicits.
Arguments SuperTimerOptions : clear implicits.
Arguments World : clear implicits.
Arguments Outcome : clear implicits.
Arguments M : clear implicits.
Arguments Returned {Act Ext A} a w.
Arguments Thrown {Act Ext A} e w.

Notation "'let*' x ':=' m 'in' k" := (bind m (fun x => k))
  (at level 10, x name, m at level 100, k at level 200,
   format "'[v' 'let*'  x  ':='  m  'in' '/' k ']'").
Notation "m >> k" := (bind m (fun _ => k))
  (at level 90, right associativity).

(** A host that holds no registration yet. *)
Definition freshHost {Act : Type} (hostNow date : Q) (clone : bool) : Host Act :=
  {| now := hostNow; wall := date; nextHandle := 1;
     pendingOnce := []; pendingRepeating := []; pendingFrame := [];
     hasStructuredClone := clone |}.

(** A caller edits the [history.events] of a snapshot it was given: the
    edit lands in the timer when the snapshot shares the timer's object. *)
Definition snapshotEvents {Act Ext} (s : TimerState) (w : World Act Ext)
    : list TimerEvent :=
  match st_history s with
  | InternalHistory => history (timer w)
  | ClonedHistory evs => evs
  end.

Definition snapshotEdit {Act Ext}
    (f : list TimerEvent -> list TimerEvent) (s : TimerState)
    (w : World Act Ext) : TimerState * World Act Ext :=
  match st_history s with
  | InternalHistory => (s, with_timer (fun t => set_history (f (history t)) t) w)
  | ClonedHistory evs =>
      ({| st_timerId := st_timerId s; st_elapsedMs := st_elapsedMs s;
          st_isPaused := st_isPaused s;
          st_history := ClonedHistory (f evs) |}, w)
  end.

(** ** SuperTimer *)

Module SuperTimer.

(** A [TimerCallback<SuperTimer>] is a user function, named by a number. *)
Definition Act := nat.
Definition applyAction (a : Act) : M Act unit unit := ret tt.

Definition new (timerId : nat) (hs : Host Act)
    (options : SuperTimerOptions Act) : Outcome Act unit unit :=
  constructBase options (newObject timerId hs tt).

Definition unpause := unpause applyAction.
Definition pause := pause applyAction.
Definition start := start unpause.
Definition addTime := addTime applyAction unpause.
Definition setTime := setTime applyAction unpause.
Definition setSpeedMultiplier := setSpeedMultiplier applyAction unpause.
Definition hostFireTimeout := hostFireTimeout applyAction.
Definition hostFireInterval := hostFireInterval applyAction.
Definition hostFireFrame := hostFireFrame applyAction.

End SuperTimer.

(** ** SuperCountdown *)

Module SuperCountdown.

(** A [TimerCallback<SuperCountdown>]: a user function, or the function
    the constructor registers as [!countdown-complete-internal]. *)
Inductive Act := UserFn (f : nat) | CompleteInternal.

Record CompleteCallback := {
  cc_id : nat;                      (* identity of the set element *)
  cc_callback : nat;
  cc_once : bool;
}.

Record Fields := {
  completeTime : Q;
  completeCallbacks : list CompleteCallback;
}.

Definition getTimeRemaining : M Act Fields Q :=
  let* elapsed := getElapsedMs in
  gets (fun w => (completeTime (ext w) - inject_Z elapsed)%Q).

Definition isDone : M Act Fields bool :=
  let* remaining := getTimeRemaining in
  ret (Qleb remaining 0).

Section Dispatch.
Variable applyAction : Act -> M Act Fields unit.

(** [unpause()] takes no argument; the one [_addTime] passes is dropped. *)
Definition unpause_ (_ : bool) : M Act Fields unit :=
  let* done := isDone in
  if done then ret tt else unpause applyAction false.

Definition addTime_ (ms : Q) (suppressCallbacks : bool) : M Act Fields unit :=
  addTime applyAction unpause_ (- ms)%Q suppressCallbacks.

Definition setTimeRemaining_ (ms : Q) (suppressCallbacks : bool)
    : M Act Fields unit :=
  let* total := gets (fun w => completeTime (ext w)) in
  setTime applyAction unpause_ (total - ms)%Q suppressCallbacks.

End Dispatch.

Definition deleteCompleteCallback (i : nat) (l : list CompleteCallback)
    : list CompleteCallback :=
  List.filter (fun c => negb (Nat.eqb (cc_id c) i)) l.

(** Calling a registered function.  The completion handler calls back
    into the countdown, so its nesting is bounded by [fuel]. *)
Fixpoint applyAction (fuel : nat) (a : Act) : M Act Fields unit :=
  match a with
  | UserFn _ => ret tt
  | CompleteInternal =>
      match fuel with
      | O => throw OutOfFuel
      | S n =>
          pause (applyAction n) false >>
          setTimeRemaining_ (applyAction n) 0 true >>
          let* completeCallbacksSnapshot :=
            gets (fun w => completeCallbacks (ext w)) in
          forM_ completeCallbacksSnapshot (fun completeCallback =>
            modify (with_calls (fun l =>
              l ++ [UserFn (cc_callback completeCallback)])) >>
            when (cc_once completeCallback)
              (modify (with_ext (fun e =>
                 {| completeTime := completeTime e;
                    completeCallbacks :=
                      deleteCompleteCallback (cc_id completeCallback)
                        (completeCallbacks e) |}))))
      end
  end.

Definition unpause (fuel : nat) : M Act Fields unit :=
  unpause_ (applyAction fuel) false.
Definition pause (fuel : nat) := pause (applyAction fuel).
Definition addTime (fuel : nat) := addTime_ (applyAction fuel).
Definition setTimeRemaining (fuel : nat) :=
  setTimeRemaining_ (applyAction fuel).
Definition hostFireTimeout (fuel : nat) := hostFireTimeout (applyAction fuel).
Definition hostFireInterval (fuel : nat) :=
  hostFireInterval (applyAction fuel).
Definition hostFireFrame (fuel : nat) := hostFireFrame (applyAction fuel).

Definition registerCompleteCallback (f : nat) (once : bool)
    : M Act Fields unit :=
  checkDisposed >>
  let* i := gets allocated in
  modify (with_allocated (S i)) >>
  modify (with_ext (fun e =>
    {| completeTime := completeTime e;
       completeCallbacks :=
         completeCallbacks e
         ++ [{| cc_id := i; cc_callback := f; cc_once := once |}] |})).

Definition completeInternalCallback (timeMs_ : Q)
    : SuperTimerCallbackBase Act :=
  {| type := Checkpoint; timeMs := timeMs_; callback := CompleteInternal;
     requireAnimationFrame := None; executeOnUpdate := None;
     name := Some "!countdown-complete-internal";
     logExecutions := None; disableTickDriftCompensation := None |}.

Definition new (timerId : nat) (hs : Host Act) (timeMs_ : Q)
    (onComplete : option nat) (timerOptions : SuperTimerOptions Act)
    : Outcome Act Fields unit :=
  (constructBase timerOptions >>
   modify (with_ext (fun e =>
     {| completeTime := timeMs_;
        completeCallbacks := completeCallbacks e |})) >>
   registerCallbacks [completeInternalCallback timeMs_] >>
   match onComplete with
   | Some f => registerCompleteCallback f false
   | None => ret tt
   end)
    (newObject timerId hs
       {| completeTime := timeMs_; completeCallbacks := [] |}).

End SuperCountdown.

(** * Worlds used in the statements *)

Definition outcomeWorld {Act Ext A} (o : Outcome Act Ext A) : World Act Ext :=
  match o with
  | Returned _ w => w
  | Thrown _ w => w
  end.

(** The world a method leaves behind, whether it returned or threw. *)
Definition exec {Act Ext A} (m : M Act Ext A) (w : World Act Ext)
    : World Act Ext :=
  outcomeWorld (m w).

(** The world after a host event, unchanged when the event cannot happen. *)
Definition execHost {Act Ext A}
    (step : World Act Ext -> option (Outcome Act Ext A)) (w : World Act Ext)
    : World Act Ext :=
  match step w with
  | Some o => outcomeWorld o
  | None => w
  end.

Definition plainCallback {Act} (ty : CallbackType) (t : Q) (f : Act)
    (n : option string) : SuperTimerCallbackBase Act :=
  {| type := ty; timeMs := t; callback := f;
     requireAnimationFrame := None; executeOnUpdate := None; name := n;
     logExecutions := None; disableTickDriftCompensation := None |}.

Definition noOptions {Act} : SuperTimerOptions Act :=
  {| opt_name := None; opt_callbacks := [];
     opt_timerSpeedMultiplier := None |}.

(** ** Views of a world *)

Section Views.
Context {Act Ext : Type}.

(** A callback object without its mutable field. *)
Definition stripLast (cb : InternalCallback Act) : InternalCallback Act :=
  {| cb_uid := cb_uid cb; cb_name := cb_name cb;
     cb_callback := cb_callback cb; cb_timeMs := cb_timeMs cb;
     cb_type := cb_type cb;
     cb_requireAnimationFrame := cb_requireAnimationFrame cb;
     cb_executeOnUpdate := cb_executeOnUpdate cb;
     cb_logExecutions := cb_logExecutions cb;
     cb_lastExecutionMs := 0;
     cb_registeredAt := cb_registeredAt cb;
     cb_disableTickDriftCompensation := cb_disableTickDriftCompensation cb |}.

(** The clock, the registry up to [lastExecutionMs], and the subclass
    fields: what a dispatch of inert callbacks leaves alone. *)
Record Core := {
  c_disposed : bool;
  c_unpausedAt : option Q;
  c_pausedAt : Q;
  c_elapsedMs : Q;
  c_speed : Q;
  c_timer_name : string;
  c_timer_id : nat;
  c_callbackIdSeeds : gmap string nat;
  c_callbackNames : gmap string (gset string);
  c_registry : list (InternalCallback Act);
  c_now : Q;
  c_wall : Q;
  c_hasStructuredClone : bool;
  c_ext : Ext;
}.

Definition core (w : World Act Ext) : Core :=
  {| c_disposed := disposed (timer w);
     c_unpausedAt := unpausedAt (timer w);
     c_pausedAt := pausedAt (timer w);
     c_elapsedMs := elapsedMs (timer w);
     c_speed := speed (timer w);
     c_timer_name := timer_name (timer w);
     c_timer_id := timer_id (timer w);
     c_callbackIdSeeds := callbackIdSeeds (timer w);
     c_callbackNames := callbackNames (timer w);
     c_registry := map stripLast (callbacks (timer w));
     c_now := now (host w);
     c_wall := wall (host w);
     c_hasStructuredClone := hasStructuredClone (host w);
     c_ext := ext w |}.

(** Everything but the three maps and what the host holds: what
    (re)scheduling leaves alone. *)
Record Unscheduled := {
  u_timer : SuperTimerBase Act;
  u_now : Q;
  u_wall : Q;
  u_hasStructuredClone : bool;
  u_ext : Ext;
  u_allocated : nat;
  u_calls : list Act;
}.

Definition unscheduled (w : World Act Ext) : Unscheduled :=
  {| u_timer := set_timeouts [] (set_intervals [] (set_rafs [] (timer w)));
     u_now := now (host w); u_wall := wall (host w);
     u_hasStructuredClone := hasStructuredClone (host w);
     u_ext := ext w; u_allocated := allocated w; u_calls := calls w |}.

(** What the history tells of an event: its type and the callback it
    names. *)
Definition eventTag (e : TimerEvent) : TimerEventType * option string :=
  (ev_event e,
   match ev_data e with
   | Some (DataName n) => Some n
   | _ => None
   end).

Definition tags (l : list TimerEvent) : list (TimerEventType * option string) :=
  map eventTag l.

(** The sequence counter of a kind as [registerCallbacks] will read it. *)
Definition seedOf (t : SuperTimerBase Act) (ty : CallbackType) : nat :=
  match callbackIdSeeds t !! type_str ty with
  | Some (S n) => S n
  | _ => 1%nat
  end.

(** The name names of a kind are checked against. *)
Definition namesOf (t : SuperTimerBase Act) (ty : CallbackType)
    : gset string :=
  match callbackIdSeeds t !! type_str ty with
  | Some (S _) => default ∅ (callbackNames t !! type_str ty)
  | _ => ∅
  end.

(** The name given to an entry that omits it, when the counter of its
    kind reads [seed]. *)
Definition generatedName (ty : CallbackType) (seed : nat) : string :=
  type_str ty +:+ "-" +:+ pretty seed.

(** The name an entry is registered under. *)
Definition resolvedName (cb : SuperTimerCallbackBase Act)
    (t : SuperTimerBase Act) : string :=
  match name cb with
  | Some n => n
  | None => type_str (type cb) +:+ "-" +:+ pretty (seedOf t (type cb))
  end.

Definition countType (ty : CallbackType)
    (l : list (SuperTimerCallbackBase Act)) : nat :=
  length (List.filter (fun cb => CallbackType_eqb (type cb) ty) l).

(** [m] returns from [w] and the view [V] of the world is kept. *)
Definition keeps {X A} (V : World Act Ext -> X) (m : M Act Ext A)
    (w : World Act Ext) : Prop :=
  exists a w', m w = Returned a w' /\ V w' = V w.

(** Calling [a] does nothing to the world. *)
Definition inert (applyAction : Act -> M Act Ext unit) (a : Act) : Prop :=
  forall w, applyAction a w = Returned tt w.

(** [m] returns from [w], keeps the core, appends events with the tags
    [ts] to the history and calls the user functions [cs]. *)
Definition emits (m : M Act Ext unit) (w : World Act Ext)
    (ts : list (TimerEventType * option string)) (cs : list Act) : Prop :=
  exists w',
    m w = Returned tt w' /\ core w' = core w /\
    tags (history (timer w')) = tags (history (timer w)) ++ ts /\
    calls w' = calls w ++ cs.

(** The tags and calls of the dispatch of the callbacks [l] as events of
    type [ty]. *)
Definition dispatchTags (ty : InternalCallback Act -> TimerEventType)
    (l : list (InternalCallback Act))
    : list (TimerEventType * option string) :=
  map (fun cb => (ty cb, Some (cb_name cb))) l.

Definition dispatchCalls (l : list (InternalCallback Act)) : list Act :=
  map cb_callback
    (List.filter (fun cb => negb (cb_requireAnimationFrame cb)) l).

(** [m] returns from [w] with a value and a world that satisfy [Q]. *)
Definition wp {A} (m : M Act Ext A) (w : World Act Ext)
    (Q : A -> World Act Ext -> Prop) : Prop :=
  match m w with
  | Returned a w' => Q a w'
  | Thrown _ _ => False
  end.

(** The tags and calls of the dispatch of the callbacks flagged
    [executeOnUpdate]. *)
Definition updateTags (l : list (InternalCallback Act))
    : list (TimerEventType * option string) :=
  dispatchTags updateEventType (List.filter cb_executeOnUpdate l).

Definition updateCalls (l : list (InternalCallback Act)) : list Act :=
  dispatchCalls (List.filter cb_executeOnUpdate l).

(** The callbacks flagged [executeOnUpdate] have inert functions. *)
Definition updatesInert (applyAction : Act -> M Act Ext unit)
    (l : list (InternalCallback Act)) : Prop :=
  forall cb, In cb l -> cb_executeOnUpdate cb = true ->
    inert applyAction (cb_callback cb).

(** The world [pause] builds before it clears the registrations. *)
Definition pausedWorld (w : World Act Ext) : World Act Ext :=
  with_timer (fun t =>
    let e := (elapsedMs t
              + (now (host w) - default 0 (unpausedAt t)) * speed t)%Q in
    set_history
      (history t ++
         [{| ev_date := wall (host w); ev_elapsedMs := e;
             ev_event := EvPause; ev_data := None |}])
      (set_unpausedAt None
         (set_elapsedMs e (set_pausedAt (now (host w)) t)))) w.

(** The callbacks the walk of [_addTime] dispatches. *)
Definition crossedCallbacks (w : World Act Ext) (ms : Q)
    : list (InternalCallback Act) :=
  List.filter (crossedBy (elapsedAt (timer w) (now (host w))) ms)
    (sortByTimeMs (List.filter isCheckpoint (callbacks (timer w)))).

Definition crossedInert (applyAction : Act -> M Act Ext unit)
    (w : World Act Ext) (ms : Q) : Prop :=
  forall cb, In cb (crossedCallbacks w ms) ->
    inert applyAction (cb_callback cb).

(** Ascending order of targets. *)
Definition timeMs_le (a b : InternalCallback Act) : Prop :=
  (cb_timeMs a <= cb_timeMs b)%Q.

End Views.

Arguments Core : clear implicits.
Arguments Unscheduled : clear implicits.

(** ** Example timers *)

(** A timer built on a host whose clock reads 5, paused, with the given
    callbacks. *)
Definition freshTimer (clone : bool)
    (cbs : list (SuperTimerCallbackBase SuperTimer.Act))
    : World SuperTimer.Act unit :=
  outcomeWorld
    (SuperTimer.new 1 (freshHost 5 100 clone)
       {| opt_name := None; opt_callbacks := cbs;
          opt_timerSpeedMultiplier := None |}).

(** A checkpoint at 500 that is also flagged [executeOnUpdate]. *)
Definition updatingCheckpoint : SuperTimerCallbackBase SuperTimer.Act :=
  {| type := Checkpoint; timeMs := 500; callback := 7%nat;
     requireAnimationFrame := None; executeOnUpdate := Some true;
     name := None; logExecutions := None;
     disableTickDriftCompensation := None |}.

(** The timer, moved forward to an elapsed time of 1000. *)
Definition timerAt1000 : World SuperTimer.Act unit :=
  exec (SuperTimer.addTime 1000 false) (freshTimer true [updatingCheckpoint]).

(** A paused timer with checkpoints at 300, 200 and 5000, and a
    [checkpoint-once] at 250. *)
Definition sampleTimer : World SuperTimer.Act unit :=
  freshTimer true
    [plainCallback Checkpoint 300 1%nat None;
     plainCallback Checkpoint 200 2%nat None;
     plainCallback CheckpointOnce 250 3%nat None;
     plainCallback Checkpoint 5000 4%nat None].

(** The host times at which the pending timeouts and intervals are due. *)
Definition dueTimes {Act Ext} (w : World Act Ext) : list Q :=
  map (fun e => fst (snd e)) (pendingOnce (host w))
  ++ map (fun e => fst (fst (snd e))) (pendingRepeating (host w)).

(** A tick every 1000 on a timer started at an elapsed time of 0: the
    interval fires at 1000, the timer is paused at 1400 and resumed at
    once. *)
Definition tickEvery1000 (disable update : bool)
    : SuperTimerCallbackBase SuperTimer.Act :=
  {| type := Tick; timeMs := 1000; callback := 7%nat;
     requireAnimationFrame := None; executeOnUpdate := Some update;
     name := None; logExecutions := None;
     disableTickDriftCompensation := Some disable |}.

Definition tickFiredAt1000 (disable update : bool)
    : World SuperTimer.Act unit :=
  execHost (SuperTimer.hostFireInterval 1)
    (hostAdvance 1000
       (exec (SuperTimer.unpause false)
          (freshTimer true [tickEvery1000 disable update]))).

Definition tickResumedAt1400 (disable update : bool)
    : World SuperTimer.Act unit :=
  exec (SuperTimer.unpause false)
    (exec (SuperTimer.pause false)
       (hostAdvance 400 (tickFiredAt1000 disable update))).

(** Type and elapsed time of the latest event of the history. *)
Definition lastEvent {Act Ext} (w : World Act Ext)
    : option (TimerEventType * Q) :=
  option_map (fun e => (ev_event e, ev_elapsedMs e))
    (last (history (timer w))).

(** The timer of the scenario, 600 later, once the host has run the
    timeout with handle 2. *)
Definition tickFiredAgain (disable update : bool)
    : World SuperTimer.Act unit :=
  execHost (SuperTimer.hostFireTimeout 2)
    (hostAdvance 600 (tickResumedAt1400 disable update)).

(** A timer that has been running for 1234.5 on the host clock. *)
Definition runningTimer : World SuperTimer.Act unit :=
  hostAdvance (2469 # 2)
    (exec (SuperTimer.unpause false) (freshTimer true [])).

(** A timer built while the host clock reads 0; and that timer resumed
    at once, one second later on the host clock. *)
Definition timerAtClockZero : World SuperTimer.Act unit :=
  outcomeWorld (SuperTimer.new 1 (freshHost 0 100 true) noOptions).

Definition startedAtClockZero : World SuperTimer.Act unit :=
  hostAdvance 1000 (exec (SuperTimer.unpause false) timerAtClockZero).

(** A timer on a host without [structuredClone], resumed once. *)
Definition legacyHostTimer : World SuperTimer.Act unit :=
  exec (SuperTimer.unpause false) (freshTimer false []).

(** A paused timer that has been disposed. *)
Definition disposedTimer : World SuperTimer.Act unit :=
  exec dispose (freshTimer true []).

(** A tick registered under the explicit name [tick-2]; the counter of
    the kind has then reached 2. *)
Definition timerWithTick2 : World SuperTimer.Act unit :=
  exec (registerCallbacks [plainCallback Tick 1000 1%nat (Some "tick-2")])
    (freshTimer true []).

(** A countdown of 10000: created, started, and run to completion by the
    host firing its completion timeout. *)
Definition freshCountdown
    : World SuperCountdown.Act SuperCountdown.Fields :=
  outcomeWorld
    (SuperCountdown.new 1 (freshHost 5 100 true) 10000 (Some 42%nat)
       noOptions).

Definition completedCountdown
    : World SuperCountdown.Act SuperCountdown.Fields :=
  execHost (SuperCountdown.hostFireTimeout 1 1)
    (hostAdvance 10000 (exec (SuperCountdown.unpause 1) freshCountdown)).

(** A countdown of 10000.5, and a paused countdown of 10000 that has
    counted 3000. *)
Definition fractionalCountdown
    : World SuperCountdown.Act SuperCountdown.Fields :=
  outcomeWorld
    (SuperCountdown.new 1 (freshHost 5 100 true) (20001 # 2) None noOptions).

Definition countdownAt3000
    : World SuperCountdown.Act SuperCountdown.Fields :=
  exec (SuperCountdown.setTimeRemaining 1 7000 false) freshCountdown.

(** The remaining time and [isDone], read off a countdown. *)
Definition remainingOf (w : World SuperCountdown.Act SuperCountdown.Fields)
    : option Q :=
  match SuperCountdown.getTimeRemaining w with
  | Returned r _ => Some r
  | Thrown _ _ => None
  end.

Definition doneOf (w : World SuperCountdown.Act SuperCountdown.Fields)
    : option bool :=
  match SuperCountdown.isDone w with
  | Returned b _ => Some b
  | Thrown _ _ => None
  end.

(** The completion handler is registered as the constructor registers
    it: at the total, and not flagged [executeOnUpdate]. *)
Definition countdownOk (w : World SuperCountdown.Act SuperCountdown.Fields)
    : Prop :=
  forall cb, In cb (callbacks (timer w)) ->
    cb_callback cb = SuperCountdown.CompleteInternal ->
    cb_executeOnUpdate cb = false /\
    (cb_timeMs cb == SuperCountdown.completeTime (ext w))%Q.

(** ** The three maps *)

Definition heldBy {A} (h : option nat) (l : list (nat * A)) : bool :=
  match h with
  | Some h' => match find_handle h' l with Some _ => true | None => false end
  | None => false
  end.

(** In how many of the three maps the name has an entry whose
    registration the host still holds. *)
Definition liveEntries {Act Ext} (w : World Act Ext) (n : string) : nat :=
  ((if heldBy (nm_get n (timeouts (timer w))) (pendingOnce (host w))
    then 1 else 0)
   + (if heldBy (nm_get n (intervals (timer w))) (pendingRepeating (host w))
      then 1 else 0)
   + (if heldBy (nm_get n (rafs (timer w))) (pendingFrame (host w))
      then 1 else 0))%nat.

(** The name has no entry in any of the three maps. *)
Definition cleared {Act Ext} (w : World Act Ext) (n : string) : Prop :=
  nm_get n (timeouts (timer w)) = None /\
  nm_get n (intervals (timer w)) = None /\
  nm_get n (rafs (timer w)) = None.

(** A tick every 1000 that requires an animation frame, on a running
    timer, when its interval has fired once. *)
Definition frameSyncedTick : World SuperTimer.Act unit :=
  execHost (SuperTimer.hostFireInterval 1)
    (hostAdvance 1000
       (exec (SuperTimer.unpause false)
          (freshTimer true
             [{| type := TickReset; timeMs := 1000; callback := 7%nat;
                 requireAnimationFrame := Some true; executeOnUpdate := None;
                 name := Some "t"; logExecutions := None;
                 disableTickDriftCompensation := None |}]))).

(** A checkpoint that is dispatched on every update and requires an
    animation frame, on a timer that was started and then paused. *)
Definition pausedWithFrameUpdate : World SuperTimer.Act unit :=
  exec (SuperTimer.pause false)
    (hostAdvance 100
       (exec (SuperTimer.unpause false)
          (freshTimer true
             [{| type := Checkpoint; timeMs := 5000; callback := 7%nat;
                 requireAnimationFrame := Some true;
                 executeOnUpdate := Some true;
                 name := Some "u"; logExecutions := None;
                 disableTickDriftCompensation := None |}]))).

(** The frame map of a paused timer holds only requests of callbacks
    that are dispatched on update and require an animation frame. *)
Definition framesOfUpdates {Act Ext} (w : World Act Ext) : Prop :=
  forall n, nm_get n (rafs (timer w)) <> None ->
    exists cb,
      In cb (callbacks (timer w)) /\ cb_name cb = n /\
      cb_executeOnUpdate cb = true /\ cb_requireAnimationFrame cb = true.

(** The equations between the fields that an equation between cores
    amounts to. *)
Ltac core_facts H :=
  let E := fresh "E" in
  pose proof (f_equal c_disposed H) as E; cbn [c_disposed core] in E;
  let E := fresh "E" in
  pose proof (f_equal c_unpausedAt H) as E; cbn [c_unpausedAt core] in E;
  let E := fresh "E" in
  pose proof (f_equal c_pausedAt H) as E; cbn [c_pausedAt core] in E;
  let E := fresh "E" in
  pose proof (f_equal c_elapsedMs H) as E; cbn [c_elapsedMs core] in E;
  let E := fresh "E" in
  pose proof (f_equal c_speed H) as E; cbn [c_speed core] in E;
  let E := fresh "E" in
  pose proof (f_equal c_timer_name H) as E; cbn [c_timer_name core] in E;
  let E := fresh "E" in
  pose proof (f_equal c_timer_id H) as E; cbn [c_timer_id core] in E;
  let E := fresh "E" in
  pose proof (f_equal c_callbackIdSeeds H) as E;
  cbn [c_callbackIdSeeds core] in E;
  let E := fresh "E" in
  pose proof (f_equal c_callbackNames H) as E;
  cbn [c_callbackNames core] in E;
  let E := fresh "E" in
  pose proof (f_equal c_registry H) as E; cbn [c_registry core] in E;
  let E := fresh "E" in
  pose proof (f_equal c_now H) as E; cbn [c_now core] in E;
  let E := fresh "E" in
  pose proof (f_equal c_wall H) as E; cbn [c_wall core] in E;
  let E := fresh "E" in
  pose proof (f_equal c_hasStructuredClone H) as E;
  cbn [c_hasStructuredClone core] in E;
  let E := fresh "E" in
  pose proof (f_equal c_ext H) as E; cbn [c_ext core] in E.

(** A checkpoint and a tick that share the name [a], after
    [removeCallbacks(["a"])]. *)
Definition afterRemovingSharedName : World SuperTimer.Act unit :=
  exec (removeCallbacks ["a"])
    (freshTimer true
       [plainCallback Checkpoint 100 1%nat (Some "a");
        plainCallback Tick 1000 2%nat (Some "a")]).

(** ** Further views and example timers *)

(** The quantity [getElapsedMs] rounds. *)
Definition exactElapsed {Act} (t : SuperTimerBase Act) (hostNow : Q) : Q :=
  if running t
  then (elapsedMs t + (hostNow - default 0 (unpausedAt t)) * speed t)%Q
  else elapsedMs t.

(** What the host holds for timeouts and intervals, and the two maps
    that name them. *)
Definition armed {Act Ext} (w : World Act Ext) :=
  (pendingOnce (host w), pendingRepeating (host w),
   timeouts (timer w), intervals (timer w)).

(** What [removeCallbacks] and [registerCallbacks] on a paused timer leave
    alone: the history, the clock, and the calls made so far. *)
Definition clockAndHistory {Act Ext} (w : World Act Ext) :=
  (history (timer w), unpausedAt (timer w), pausedAt (timer w),
   elapsedMs (timer w), speed (timer w), disposed (timer w),
   now (host w), wall (host w), calls w, ext w).

(** The callbacks whose name is reserved by a leading [!]. *)
Definition isReserved {Act} (c : InternalCallback Act) : bool :=
  String.prefix "!" (cb_name c).

(** One turn of the loop of [removeCallbacks]. *)
Definition removeStep {Act Ext} (n : string) : M Act Ext unit :=
  let* t := gets timer in
  match nm_get n (timeouts t) with
  | Some timeout =>
      lib_clearTimeout timeout >>
      modify_timer (fun t => set_timeouts (nm_delete n (timeouts t)) t)
  | None => ret tt
  end >>
  match nm_get n (intervals t) with
  | Some interval =>
      lib_clearInterval interval >>
      modify_timer (fun t => set_intervals (nm_delete n (intervals t)) t)
  | None => ret tt
  end >>
  match nm_get n (rafs t) with
  | Some raf =>
      lib_cancelAnimationFrame raf >>
      modify_timer (fun t => set_rafs (nm_delete n (rafs t)) t)
  | None => ret tt
  end >>
  modify_timer (fun t =>
    set_names (callbackIdSeeds t) (removeName n (callbackNames t))
      (set_callbacks (removeFirstNamed n (callbacks t)) t)).

(** A countdown on which a tick and a checkpoint were registered. *)
Definition countdownWithCallbacks
    : World SuperCountdown.Act SuperCountdown.Fields :=
  exec (registerCallbacks
          [plainCallback Tick 1000 (SuperCountdown.UserFn 1) None;
           plainCallback Checkpoint 2000 (SuperCountdown.UserFn 2)
             (Some "half")])
    freshCountdown.

(** The three maps and everything the host holds. *)
Definition scheduled {Act Ext} (w : World Act Ext) :=
  (host w, timeouts (timer w), intervals (timer w), rafs (timer w)).

(** Every name in a name set was generated from a counter value the
    counter of its kind has passed. *)
Definition autoNamed {Act} (t : SuperTimerBase Act) : Prop :=
  forall ty n, n ∈ namesOf t ty ->
    exists k, n = generatedName ty k /\ (k < seedOf t ty)%nat.

(** A running timer without callbacks. *)
Definition startedTimer : World SuperTimer.Act unit :=
  exec (SuperTimer.unpause false) (freshTimer true []).

(** What is left of the host's list [l] once every handle of the map [m]
    has been cancelled. *)
Definition cancelAll {A} (m : NameMap) (l : list (nat * A)) : list (nat * A) :=
  fold_left (fun acc e => remove_handle (snd e) acc) m l.

(** Two [tick-reset] callbacks on a timer that has been running for
    300. *)
Definition twoTicksRunning : World SuperTimer.Act unit :=
  hostAdvance 300
    (exec (SuperTimer.unpause false)
       (freshTimer true
          [plainCallback TickReset 1000 1%nat (Some "first");
           plainCallback TickReset 1000 2%nat (Some "second")])).

(** A running timer, 300 after its start, and a [checkpoint-once]
    callback at 1000 as the registry holds it. *)
Definition runningAt300 : World SuperTimer.Act unit :=
  hostAdvance 300 (exec (SuperTimer.unpause false) (freshTimer true [])).


(** A countdown of 10000 with a second completion callback that is
    registered to run once, started and left running for 10000. *)
Definition countdownDue : World SuperCountdown.Act SuperCountdown.Fields :=
  hostAdvance 10000
    (exec (SuperCountdown.unpause 1)
       (exec (SuperCountdown.registerCompleteCallback 43 true)
          freshCountdown)).

(** Deleting from a set, one after the other, the elements of [l] that
    are registered to run once. *)
Definition afterOnce (l acc : list SuperCountdown.CompleteCallback)
    : list SuperCountdown.CompleteCallback :=
  fold_left
    (fun acc c =>
       if SuperCountdown.cc_once c
       then SuperCountdown.deleteCompleteCallback (SuperCountdown.cc_id c) acc
       else acc)
    l acc.

(** The host delivers one frame after the other to the request stored
    under [name], each after the given time. *)
Fixpoint runFrames (dts : list Q) (name : string)
    (w : World SuperTimer.Act unit)
    : option (Outcome SuperTimer.Act unit unit) :=
  match dts with
  | [] => Some (Returned tt w)
  | dt :: dts' =>
      let w1 := hostAdvance dt w in
      match nm_get name (rafs (timer w1)) with
      | None => None
      | Some h =>
          match SuperTimer.hostFireFrame h w1 with
          | Some (Returned _ w') => runFrames dts' name w'
          | other => other
          end
      end
  end.

(** The host times of the frames, and the world when only that time has
    passed. *)
Fixpoint frameTimes (t : Q) (dts : list Q) : list Q :=
  match dts with
  | [] => []
  | dt :: dts' => (t + dt)%Q :: frameTimes (t + dt)%Q dts'
  end.

Definition advanceAll {Act Ext} (dts : list Q) (w : World Act Ext)
    : World Act Ext :=
  fold_left (fun w dt => hostAdvance dt w) dts w.

(** An event without its date. *)
Definition eventReading (e : TimerEvent)
    : TimerEventType * option string * Q :=
  (eventTag e, ev_elapsedMs e).

(** No handle the host has yet to give out is in use for a frame
    request. *)
Definition framesFresh {Act Ext} (w : World Act Ext) : Prop :=
  forall k, (nextHandle (host w) <= k)%nat ->
    find_handle k (pendingFrame (host w)) = None.

(** A callback that runs on every frame. *)
Definition perFrame : InternalCallback SuperTimer.Act :=
  {| cb_uid := 0; cb_name := "frame"; cb_callback := 7%nat;
     cb_timeMs := 0; cb_type := TickReset;
     cb_requireAnimationFrame := true; cb_executeOnUpdate := false;
     cb_logExecutions := false; cb_lastExecutionMs := 300;
     cb_registeredAt := 300; cb_disableTickDriftCompensation := false |}.

(** * Properties *)

(** ** Rounding *)

Lemma Qfloor_unique (x : Q) (k : Z) :
  (inject_Z k <= x)%Q -> (x < inject_Z k + 1)%Q -> Qfloor x = k.
Proof.
  intros Hlo Hhi.
  pose proof (Qfloor_le x) as Hf. pose proof (Qlt_floor x) as Hc.
  rewrite inject_Z_plus in Hc. change (inject_Z 1) with 1%Q in Hc.
  apply Z.le_antisymm; apply Z.lt_succ_r; rewrite Zlt_Qlt; unfold Z.succ;
    rewrite inject_Z_plus; change (inject_Z 1) with 1%Q; lra.
Qed.

Lemma Math_round_bounds (x : Q) :
  (inject_Z (Math_round x) - (1 # 2) <= x)%Q /\
  (x < inject_Z (Math_round x) + (1 # 2))%Q.
Proof.
  unfold Math_round.
  pose proof (Qfloor_le (x + (1 # 2))) as Hf.
  pose proof (Qlt_floor (x + (1 # 2))) as Hc.
  rewrite inject_Z_plus in Hc. change (inject_Z 1) with 1%Q in Hc.
  split; lra.
Qed.

Lemma Math_round_unique (x : Q) (k : Z) :
  (inject_Z k - (1 # 2) <= x)%Q -> (x < inject_Z k + (1 # 2))%Q ->
  Math_round x = k.
Proof. intros Hlo Hhi. unfold Math_round. apply Qfloor_unique; lra. Qed.

Lemma Math_round_comp (x y : Q) : (x == y)%Q -> Math_round x = Math_round y.
Proof. intros H. unfold Math_round. now rewrite H. Qed.

(** Rounding commutes with a shift by a whole number. *)
Lemma Math_round_shift (k : Z) (x : Q) :
  Math_round (inject_Z k + x) = (k + Math_round x)%Z.
Proof.
  destruct (Math_round_bounds x) as [Hlo Hhi].
  apply Math_round_unique; rewrite inject_Z_plus; lra.
Qed.

Lemma Math_round_inject_Z (k : Z) : Math_round (inject_Z k) = k.
Proof. apply Math_round_unique; lra. Qed.

(** No integer is closer to [x] than [Math_round x]. *)
Lemma Math_round_nearest (x : Q) (k : Z) :
  (Qabs (x - inject_Z (Math_round x)) <= Qabs (x - inject_Z k))%Q.
Proof.
  destruct (Math_round_bounds x) as [Hlo Hhi].
  set (r := Math_round x) in *.
  destruct (Z.lt_trichotomy k r) as [Hlt|[->|Hgt]]; [| apply Qle_refl |].
  - assert (Hk : (inject_Z k + 1 <= inject_Z r)%Q).
    { change 1%Q with (inject_Z 1). rewrite <- inject_Z_plus.
      rewrite <- Zle_Qle. lia. }
    apply Qabs_case; intros; apply Qabs_case; intros; lra.
  - assert (Hk : (inject_Z r + 1 <= inject_Z k)%Q).
    { change 1%Q with (inject_Z 1). rewrite <- inject_Z_plus.
      rewrite <- Zle_Qle. lia. }
    apply Qabs_case; intros; apply Qabs_case; intros; lra.
Qed.

(** ** Basic facts about computations *)

Section Facts.
Context {Act Ext : Type}.
Variable applyAction : Act -> M Act Ext unit.

Lemma bind_returned {A B} (m : M Act Ext A) (k : A -> M Act Ext B) w a w' :
  m w = Returned a w' -> bind m k w = k a w'.
Proof. intros H. unfold bind. now rewrite H. Qed.

Lemma bind_thrown {A B} (m : M Act Ext A) (k : A -> M Act Ext B) w e w' :
  m w = Thrown e w' -> bind m k w = Thrown e w'.
Proof. intros H. unfold bind. now rewrite H. Qed.

Lemma checkDisposed_live (w : World Act Ext) :
  disposed (timer w) = false -> checkDisposed w = Returned tt w.
Proof. intros H. unfold checkDisposed. now rewrite H. Qed.

Lemma checkDisposed_disposed (w : World Act Ext) :
  disposed (timer w) = true ->
  checkDisposed w = Thrown (DisposedError (timer_name (timer w))) w.
Proof. intros H. unfold checkDisposed. now rewrite H. Qed.

Lemma getElapsedMs_live (w : World Act Ext) :
  disposed (timer w) = false ->
  getElapsedMs w = Returned (elapsedAt (timer w) (now (host w))) w.
Proof.
  intros H. unfold getElapsedMs.
  rewrite (bind_returned _ _ _ _ _ (checkDisposed_live w H)). reflexivity.
Qed.

Lemma getElapsedMs_disposed (w : World Act Ext) :
  disposed (timer w) = true ->
  getElapsedMs w = Thrown (DisposedError (timer_name (timer w))) w.
Proof.
  intros H. unfold getElapsedMs.
  now rewrite (bind_thrown _ _ _ _ _ (checkDisposed_disposed w H)).
Qed.

(** [getElapsedMs] never changes the world. *)
Lemma getElapsedMs_pure (w : World Act Ext) :
  outcomeWorld (getElapsedMs w) = w.
Proof.
  destruct (disposed (timer w)) eqn:H.
  - now rewrite getElapsedMs_disposed.
  - now rewrite getElapsedMs_live.
Qed.

End Facts.

(** ** C3: the elapsed time is the rounded total, unless [unpausedAt] is 0 *)

(** C3 (a defect of the code).  On a timer that is not disposed
    [getElapsedMs] returns a whole number, rounded to a nearest integer,
    and leaves the timer as it was.  It is the rounding of the
    accumulated total when [unpausedAt] is absent, and of the total plus
    [(now - unpausedAt) * speed] when [unpausedAt] is present and not 0.
    When [unpausedAt] is 0 (the timer was resumed while
    [performance.now()] read 0) the test [!this.unpausedAt] takes the
    running timer for a paused one, and the result is the rounding of
    the accumulated total alone: a timer created and resumed at clock 0
    reads 0 one second later, where the total plus
    [(now - unpausedAt) * speed] is 1000. *)
Theorem getElapsedMs_unpaused_at_clock_zero :
  (forall Act Ext (w : World Act Ext),
     disposed (timer w) = false ->
     exists r : Z,
       getElapsedMs w = Returned r w /\
       (unpausedAt (timer w) = None ->
        r = Math_round (elapsedMs (timer w))) /\
       (forall u, unpausedAt (timer w) = Some u -> ~ (u == 0)%Q ->
          r = Math_round
                (elapsedMs (timer w) + (now (host w) - u) * speed (timer w))) /\
       (forall u, unpausedAt (timer w) = Some u -> (u == 0)%Q ->
          r = Math_round (elapsedMs (timer w)))) /\
  (forall x (k : Z),
     (Qabs (x - inject_Z (Math_round x)) <= Qabs (x - inject_Z k))%Q) /\
  (let w := startedAtClockZero in
   disposed (timer w) = false /\
   unpausedAt (timer w) = Some 0%Q /\
   tags (history (timer w)) = [(EvUnpause, None)] /\
   elapsedMs (timer w) = 0%Q /\ speed (timer w) = 1%Q /\
   now (host w) = 1000%Q /\
   getElapsedMs w = Returned 0%Z w /\
   Math_round (elapsedMs (timer w) + (now (host w) - 0) * speed (timer w))
   = 1000%Z).
Proof.
  split; [|split].
  - intros Act Ext w Hlive. exists (elapsedAt (timer w) (now (host w))).
    split; [now apply getElapsedMs_live|].
    unfold elapsedAt, running. split; [|split].
    + intros Hu. now rewrite Hu.
    + intros u Hu Hnz. rewrite Hu. simpl.
      destruct (Qeq_bool u 0) eqn:E; [|reflexivity].
      apply Qeq_bool_iff in E. contradiction.
    + intros u Hu Hz. rewrite Hu. simpl.
      apply Qeq_bool_iff in Hz. now rewrite Hz.
  - intros x k. apply Math_round_nearest.
  - repeat split; vm_compute; reflexivity.
Qed.

(** ** What scheduling and dispatching leave alone *)

Section Frames.
Context {Act Ext : Type}.
Variable applyAction : Act -> M Act Ext unit.
Implicit Types w : World Act Ext.

Lemma keeps_ret {X A} (V : World Act Ext -> X) (a : A) w : keeps V (ret a) w.
Proof. now exists a, w. Qed.

Lemma keeps_bind {X A B} (V : World Act Ext -> X) (m : M Act Ext A)
    (k : A -> M Act Ext B) w :
  keeps V m w ->
  (forall a w', V w' = V w -> keeps V (k a) w') ->
  keeps V (bind m k) w.
Proof.
  intros (a & w1 & Hm & HV) Hk.
  destruct (Hk a w1 HV) as (b & w2 & Hk2 & HV2).
  exists b, w2. split.
  - now rewrite (bind_returned _ _ _ _ _ Hm).
  - congruence.
Qed.

Lemma keeps_forM_ {X A} (V : World Act Ext -> X) (l : list A)
    (f : A -> M Act Ext unit) w :
  (forall x w', In x l -> V w' = V w -> keeps V (f x) w') ->
  keeps V (forM_ l f) w.
Proof.
  revert w. induction l as [|x l IH]; intros w Hf; simpl.
  - apply keeps_ret.
  - apply keeps_bind.
    + apply Hf; [now left | reflexivity].
    + intros _ w' HV. apply IH. intros y w'' Hy HV'.
      apply Hf; [now right | congruence].
Qed.

Lemma keeps_when {X} (V : World Act Ext -> X) (b : bool)
    (m : M Act Ext unit) w :
  (b = true -> keeps V m w) -> keeps V (when b m) w.
Proof. destruct b; simpl; intros H; [now apply H | apply keeps_ret]. Qed.

Lemma keeps_gets {X A} (V : World Act Ext -> X) (f : World Act Ext -> A) w :
  keeps V (gets f) w.
Proof. now exists (f w), w. Qed.

Lemma keeps_modify {X} (V : World Act Ext -> X) (f : World Act Ext -> World Act Ext) w :
  V (f w) = V w -> keeps V (modify f) w.
Proof. intros H. now exists tt, (f w). Qed.

Lemma unscheduled_disposed (w w' : World Act Ext) :
  unscheduled w' = unscheduled w -> disposed (timer w') = disposed (timer w).
Proof. intros H. exact (f_equal (fun v => disposed (u_timer v)) H). Qed.

Lemma keeps_getElapsedMs_unscheduled (w : World Act Ext) :
  disposed (timer w) = false -> keeps unscheduled getElapsedMs w.
Proof. intros H. eexists _, w. split; [now apply getElapsedMs_live|reflexivity]. Qed.

Lemma handleTickResetCallback_keeps (cb : InternalCallback Act) w :
  keeps unscheduled (handleTickResetCallback cb) w.
Proof.
  unfold handleTickResetCallback.
  destruct (_ && _).
  - eexists _, _. split; [reflexivity|]. reflexivity.
  - eexists _, _. split; [reflexivity|]. reflexivity.
Qed.

Lemma keeps_unscheduled_live {A} (m : M Act Ext A) w w0 :
  disposed (timer w0) = false ->
  unscheduled w = unscheduled w0 ->
  (disposed (timer w) = false -> keeps unscheduled m w) ->
  keeps unscheduled m w.
Proof.
  intros H0 HV Hk. apply Hk. rewrite (unscheduled_disposed _ _ HV). exact H0.
Qed.

Lemma handleCheckpointCallback_keeps (f : Fired Act) ty src w :
  disposed (timer w) = false ->
  keeps unscheduled (handleCheckpointCallback f ty src) w.
Proof.
  intros H. unfold handleCheckpointCallback.
  apply keeps_bind; [now apply keeps_getElapsedMs_unscheduled|].
  intros elapsed w1 H1. apply keeps_bind; [apply keeps_gets|].
  intros sp w2 H2. destruct (Qleb _ _); [apply keeps_ret|].
  eexists _, _. split; reflexivity.
Qed.

Lemma handleTickCallback_keeps (cb : InternalCallback Act) w :
  disposed (timer w) = false ->
  keeps unscheduled (handleTickCallback cb) w.
Proof.
  intros H. unfold handleTickCallback.
  apply keeps_bind; [now apply keeps_getElapsedMs_unscheduled|].
  intros elapsed w1 H1.
  assert (Hl : disposed (timer w1) = false)
    by (rewrite (unscheduled_disposed _ _ H1); exact H).
  destruct (_ && _).
  - now apply handleCheckpointCallback_keeps.
  - apply handleTickResetCallback_keeps.
Qed.

Lemma startCallbacks_keeps (cbs : list (InternalCallback Act)) w :
  disposed (timer w) = false ->
  keeps unscheduled (startCallbacks cbs) w.
Proof.
  intros H. unfold startCallbacks.
  apply keeps_bind; [apply keeps_gets|].
  intros r w1 H1. apply keeps_when. intros _.
  apply keeps_forM_. intros cb w2 _ H2.
  assert (Hl : disposed (timer w2) = false).
  { rewrite (unscheduled_disposed _ _ H2), (unscheduled_disposed _ _ H1).
    exact H. }
  destruct (cb_type cb).
  - now apply handleCheckpointCallback_keeps.
  - now apply handleCheckpointCallback_keeps.
  - now apply handleTickCallback_keeps.
  - apply handleTickResetCallback_keeps.
Qed.

Lemma clearTimeouts_keeps (excludeIntervals : bool) w :
  keeps unscheduled (clearTimeouts excludeIntervals) w.
Proof.
  unfold clearTimeouts.
  apply keeps_bind; [apply keeps_gets|]. intros ts w1 H1.
  apply keeps_bind.
  { apply keeps_forM_. intros e w2 _ H2. now apply keeps_modify. }
  intros _ w2 H2. apply keeps_bind; [now apply keeps_modify|].
  intros _ w3 H3. apply keeps_when. intros _.
  apply keeps_bind; [apply keeps_gets|]. intros ivs w4 H4.
  apply keeps_bind.
  { destruct ivs; [apply keeps_ret|].
    apply keeps_bind; [now apply keeps_modify|].
    intros _ w5 H5. now apply keeps_modify. }
  intros _ w5 H5. apply keeps_bind; [apply keeps_gets|]. intros rs w6 H6.
  apply keeps_bind.
  { apply keeps_forM_. intros e w7 _ H7. now apply keeps_modify. }
  intros _ w7 H7. now apply keeps_modify.
Qed.

End Frames.

Section Dispatching.
Context {Act Ext : Type}.
Variable applyAction : Act -> M Act Ext unit.
Implicit Types w : World Act Ext.

Lemma unscheduled_core w w' :
  unscheduled w' = unscheduled w -> core w' = core w.
Proof.
  intros H.
  pose proof (f_equal (fun v => disposed (u_timer v)) H) as E1.
  pose proof (f_equal (fun v => unpausedAt (u_timer v)) H) as E2.
  pose proof (f_equal (fun v => pausedAt (u_timer v)) H) as E3.
  pose proof (f_equal (fun v => elapsedMs (u_timer v)) H) as E4.
  pose proof (f_equal (fun v => speed (u_timer v)) H) as E5.
  pose proof (f_equal (fun v => timer_name (u_timer v)) H) as E6.
  pose proof (f_equal (fun v => timer_id (u_timer v)) H) as E7.
  pose proof (f_equal (fun v => callbackIdSeeds (u_timer v)) H) as E8.
  pose proof (f_equal (fun v => callbackNames (u_timer v)) H) as E9.
  pose proof (f_equal (fun v => callbacks (u_timer v)) H) as E10.
  pose proof (f_equal u_now H) as E11.
  pose proof (f_equal u_wall H) as E12.
  pose proof (f_equal u_hasStructuredClone H) as E13.
  pose proof (f_equal u_ext H) as E14.
  simpl in *. unfold core. congruence.
Qed.

Lemma unscheduled_history w w' :
  unscheduled w' = unscheduled w -> history (timer w') = history (timer w).
Proof. intros H. exact (f_equal (fun v => history (u_timer v)) H). Qed.

Lemma unscheduled_callbacks w w' :
  unscheduled w' = unscheduled w -> callbacks (timer w') = callbacks (timer w).
Proof. intros H. exact (f_equal (fun v => callbacks (u_timer v)) H). Qed.

Lemma unscheduled_calls w w' :
  unscheduled w' = unscheduled w -> calls w' = calls w.
Proof. intros H. exact (f_equal u_calls H). Qed.

Lemma core_disposed w w' :
  core w' = core w -> disposed (timer w') = disposed (timer w).
Proof. intros H. exact (f_equal c_disposed H). Qed.

Lemma core_running w w' :
  core w' = core w -> running (timer w') = running (timer w).
Proof. intros H. unfold running. now rewrite (f_equal c_unpausedAt H : unpausedAt _ = unpausedAt _). Qed.

Lemma core_registry w w' :
  core w' = core w ->
  map stripLast (callbacks (timer w')) = map stripLast (callbacks (timer w)).
Proof. intros H. exact (f_equal c_registry H). Qed.

Lemma emits_ret w : emits (ret tt) w [] [].
Proof. exists w. now rewrite !app_nil_r. Qed.

Lemma emits_bind (m k : M Act Ext unit) w ts1 cs1 ts2 cs2 :
  emits m w ts1 cs1 ->
  (forall w', core w' = core w -> emits k w' ts2 cs2) ->
  emits (m >> k) w (ts1 ++ ts2) (cs1 ++ cs2).
Proof.
  intros (w1 & Hm & Hc1 & Hh1 & Hl1) Hk.
  destruct (Hk w1 Hc1) as (w2 & Hk2 & Hc2 & Hh2 & Hl2).
  exists w2. rewrite (bind_returned _ _ _ _ _ Hm). repeat split.
  - exact Hk2.
  - congruence.
  - rewrite Hh2, Hh1. now rewrite app_assoc.
  - rewrite Hl2, Hl1. now rewrite app_assoc.
Qed.

Lemma emits_gets {A} (f : World Act Ext -> A) (k : A -> M Act Ext unit) w ts cs :
  emits (k (f w)) w ts cs -> emits (bind (gets f) k) w ts cs.
Proof. intros H. exact H. Qed.

Lemma emits_keeps (m : M Act Ext unit) w :
  keeps unscheduled m w -> emits m w [] [].
Proof.
  intros ([] & w' & Hm & HV). exists w'. repeat split.
  - exact Hm.
  - now apply unscheduled_core.
  - rewrite app_nil_r. unfold tags. now rewrite (unscheduled_history _ _ HV).
  - rewrite app_nil_r. now apply unscheduled_calls.
Qed.

Lemma emits_when (b : bool) (m : M Act Ext unit) w ts cs :
  (b = true -> emits m w ts cs) ->
  emits (when b m) w (if b then ts else []) (if b then cs else []).
Proof. destruct b; simpl; intros H; [now apply H | apply emits_ret]. Qed.

Lemma emits_forM_ {A} (l : list A) (f : A -> M Act Ext unit)
    (T : A -> list (TimerEventType * option string)) (C : A -> list Act) w :
  (forall x w', In x l -> core w' = core w -> emits (f x) w' (T x) (C x)) ->
  emits (forM_ l f) w (flat_map T l) (flat_map C l).
Proof.
  revert w. induction l as [|x l IH]; intros w Hf; simpl.
  - apply emits_ret.
  - apply emits_bind.
    + apply Hf; [now left | reflexivity].
    + intros w' Hc. apply IH. intros y w'' Hy Hc'.
      apply Hf; [now right | congruence].
Qed.

Lemma stripLast_setLast (u : nat) (v : Z) (l : list (InternalCallback Act)) :
  map stripLast
    (map (fun cb =>
            if Nat.eqb (cb_uid cb) u
            then {| cb_uid := cb_uid cb; cb_name := cb_name cb;
                    cb_callback := cb_callback cb;
                    cb_timeMs := cb_timeMs cb; cb_type := cb_type cb;
                    cb_requireAnimationFrame := cb_requireAnimationFrame cb;
                    cb_executeOnUpdate := cb_executeOnUpdate cb;
                    cb_logExecutions := cb_logExecutions cb;
                    cb_lastExecutionMs := v;
                    cb_registeredAt := cb_registeredAt cb;
                    cb_disableTickDriftCompensation :=
                      cb_disableTickDriftCompensation cb |}
            else cb) l)
  = map stripLast l.
Proof.
  rewrite map_map. apply map_ext. intros cb.
  destruct (Nat.eqb _ _); reflexivity.
Qed.

(** A dispatch of a registered callback whose function is inert. *)
Lemma createEventAndInvokeCallback_emits (cb : InternalCallback Act)
    (ty : TimerEventType) w :
  disposed (timer w) = false ->
  inert applyAction (cb_callback cb) ->
  emits (createEventAndInvokeCallback applyAction (Registered cb) (Some ty) None)
    w [(ty, Some (cb_name cb))]
    (if cb_requireAnimationFrame cb then [] else [cb_callback cb]).
Proof.
  intros Hlive Hinert. unfold emits, createEventAndInvokeCallback.
  rewrite (bind_returned _ _ _ _ _ (getElapsedMs_live w Hlive)).
  unfold bind, pushEvent, modify, modify_timer. simpl.
  destruct (cb_requireAnimationFrame cb) eqn:Hraf; simpl.
  - unfold modify. eexists. split; [reflexivity|]. repeat split.
    + simpl. unfold tags. now rewrite map_app.
    + simpl. now rewrite app_nil_r.
  - unfold modify. simpl. unfold inert in Hinert. unfold bind. simpl.
    rewrite Hinert.
    eexists. split; [reflexivity|]. repeat split.
    + unfold core. simpl. now rewrite stripLast_setLast.
    + simpl. unfold tags. now rewrite map_app.
Qed.

Lemma flat_map_filter {A B} (p : A -> bool) (g : A -> B) (l : list A) :
  flat_map (fun x => if p x then [g x] else []) l = map g (List.filter p l).
Proof.
  induction l as [|x l IH]; simpl; [reflexivity|].
  destruct (p x); simpl; now rewrite IH.
Qed.

Lemma flat_map_filter2 {A B} (p q : A -> bool) (g : A -> B) (l : list A) :
  flat_map (fun x => if p x then (if q x then [] else [g x]) else []) l
  = map g (List.filter (fun x => negb (q x)) (List.filter p l)).
Proof.
  induction l as [|x l IH]; simpl; [reflexivity|].
  destruct (p x); simpl; [destruct (q x); simpl|]; now rewrite IH.
Qed.

(** The dispatch of those callbacks of [l] that satisfy [p]. *)
Lemma dispatch_loop_emits (l : list (InternalCallback Act))
    (p : InternalCallback Act -> bool)
    (ty : InternalCallback Act -> TimerEventType) w :
  disposed (timer w) = false ->
  (forall cb, In cb l -> p cb = true -> inert applyAction (cb_callback cb)) ->
  emits
    (forM_ l (fun callback =>
       when (p callback)
         (createEventAndInvokeCallback applyAction (Registered callback)
            (Some (ty callback)) None)))
    w (dispatchTags ty (List.filter p l)) (dispatchCalls (List.filter p l)).
Proof.
  intros Hlive Hinert.
  unfold dispatchTags, dispatchCalls.
  rewrite <- (flat_map_filter p (fun cb => (ty cb, Some (cb_name cb)))).
  rewrite <- (flat_map_filter2 p cb_requireAnimationFrame cb_callback).
  apply emits_forM_. intros cb w' Hin Hc.
  apply emits_when. intros Hp.
  apply createEventAndInvokeCallback_emits.
  - rewrite (core_disposed _ _ Hc). exact Hlive.
  - now apply Hinert.
Qed.

End Dispatching.

(** ** Pausing, resuming and adjusting the time *)

Section Adjusting.
Context {Act Ext : Type}.
Variable applyAction : Act -> M Act Ext unit.
Implicit Types w : World Act Ext.

Lemma wp_bind {A B} (m : M Act Ext A) (k : A -> M Act Ext B) w Q :
  wp m w (fun a w' => wp (k a) w' Q) -> wp (bind m k) w Q.
Proof. unfold wp, bind. destruct (m w); [trivial | intros []]. Qed.

Lemma wp_conseq {A} (m : M Act Ext A) w (P Q : A -> World Act Ext -> Prop) :
  wp m w P -> (forall a w', P a w' -> Q a w') -> wp m w Q.
Proof. unfold wp. destruct (m w); [auto | intros []]. Qed.

Lemma wp_returned {A} (m : M Act Ext A) w Q :
  wp m w Q -> exists a w', m w = Returned a w' /\ Q a w'.
Proof. unfold wp. destruct (m w) as [a w'|]; [eauto | intros []]. Qed.

Lemma wp_keeps {X A} (V : World Act Ext -> X) (m : M Act Ext A) w :
  keeps V m w -> wp m w (fun _ w' => V w' = V w).
Proof. intros (a & w' & Hm & HV). unfold wp. now rewrite Hm. Qed.

Lemma wp_emits (m : M Act Ext unit) w ts cs :
  emits m w ts cs ->
  wp m w (fun _ w' =>
    core w' = core w /\
    tags (history (timer w')) = tags (history (timer w)) ++ ts /\
    calls w' = calls w ++ cs).
Proof. intros (w' & Hm & H). unfold wp. now rewrite Hm. Qed.

Lemma wp_forM_inv {A} (Inv : World Act Ext -> Prop) (l : list A)
    (f : A -> M Act Ext unit) w :
  Inv w ->
  (forall x w', In x l -> Inv w' -> wp (f x) w' (fun _ w'' => Inv w'')) ->
  wp (forM_ l f) w (fun _ w' => Inv w').
Proof.
  revert w. induction l as [|x l IH]; intros w Hw Hf; simpl.
  - exact Hw.
  - apply wp_bind. eapply wp_conseq; [apply Hf; [now left | exact Hw]|].
    intros [] w' Hw'. apply IH; [exact Hw'|].
    intros y w'' Hy. apply Hf. now right.
Qed.

Lemma map_filter_strip {B} (p : InternalCallback Act -> bool)
    (g : InternalCallback Act -> B) (l : list (InternalCallback Act)) :
  (forall cb, p (stripLast cb) = p cb) ->
  (forall cb, g (stripLast cb) = g cb) ->
  map g (List.filter p (map stripLast l)) = map g (List.filter p l).
Proof.
  intros Hp Hg. induction l as [|cb l IH]; simpl; [reflexivity|].
  rewrite Hp. destruct (p cb); simpl; [rewrite Hg|]; now rewrite IH.
Qed.

Lemma updateTags_strip (l : list (InternalCallback Act)) :
  updateTags (map stripLast l) = updateTags l.
Proof.
  unfold updateTags, dispatchTags. now apply map_filter_strip.
Qed.

Lemma filter_filter_and {A} (p q : A -> bool) (l : list A) :
  List.filter q (List.filter p l) = List.filter (fun x => p x && q x) l.
Proof.
  induction l as [|x l IH]; simpl; [reflexivity|].
  destruct (p x); simpl; [destruct (q x); simpl|]; now rewrite IH.
Qed.

Lemma updateCalls_strip (l : list (InternalCallback Act)) :
  updateCalls (map stripLast l) = updateCalls l.
Proof.
  unfold updateCalls, dispatchCalls. rewrite !filter_filter_and.
  now apply map_filter_strip.
Qed.

Lemma updatesInert_strip (l : list (InternalCallback Act)) :
  updatesInert applyAction (map stripLast l) <-> updatesInert applyAction l.
Proof.
  unfold updatesInert. split; intros H cb Hin Hu.
  - apply (H (stripLast cb)); [now apply in_map | exact Hu].
  - apply in_map_iff in Hin as (cb0 & <- & Hin). now apply (H cb0).
Qed.

Lemma executeUpdateCallbacks_emits w :
  disposed (timer w) = false ->
  updatesInert applyAction (callbacks (timer w)) ->
  emits (executeUpdateCallbacks applyAction) w
    (updateTags (callbacks (timer w))) (updateCalls (callbacks (timer w))).
Proof.
  intros Hlive Hinert. unfold executeUpdateCallbacks.
  apply emits_gets. apply dispatch_loop_emits; [exact Hlive|].
  intros cb Hin Hu. now apply Hinert.
Qed.

(** The same, from a world with the core of [w0]. *)
Lemma executeUpdateCallbacks_emits_core w w0 :
  core w = core w0 ->
  disposed (timer w0) = false ->
  updatesInert applyAction (callbacks (timer w0)) ->
  emits (executeUpdateCallbacks applyAction) w
    (updateTags (callbacks (timer w0))) (updateCalls (callbacks (timer w0))).
Proof.
  intros Hc Hlive Hinert.
  rewrite <- (updateTags_strip (callbacks (timer w0))).
  rewrite <- (updateCalls_strip (callbacks (timer w0))).
  rewrite <- (core_registry _ _ Hc).
  rewrite updateTags_strip, updateCalls_strip.
  apply executeUpdateCallbacks_emits.
  - now rewrite (core_disposed _ _ Hc).
  - apply updatesInert_strip. rewrite (core_registry _ _ Hc).
    now apply updatesInert_strip.
Qed.

(** [clearTimeouts] empties the maps it is asked to. *)
Lemma clearTimeouts_spec (excludeIntervals : bool) w :
  wp (clearTimeouts excludeIntervals) w (fun _ w' =>
    unscheduled w' = unscheduled w /\
    timeouts (timer w') = [] /\
    (excludeIntervals = false ->
       intervals (timer w') = [] /\ rafs (timer w') = []) /\
    (excludeIntervals = true ->
       intervals (timer w') = intervals (timer w) /\
       rafs (timer w') = rafs (timer w))).
Proof.
  set (V := fun w : World Act Ext => (timer w, unscheduled w)).
  assert (Hloop : forall (l : NameMap) (f : nat -> M Act Ext unit) w0,
             (forall h w1, keeps V (f h) w1) ->
             keeps V (forM_ l (fun e => f (snd e))) w0).
  { intros l f w0 Hf. apply keeps_forM_. intros e w1 _ _. apply Hf. }
  unfold clearTimeouts.
  apply wp_bind. unfold wp at 1, gets.
  apply wp_bind.
  eapply wp_conseq.
  { apply (wp_keeps V). apply Hloop. intros h w1. now apply keeps_modify. }
  intros [] w1 H1. apply pair_equal_spec in H1 as [Ht1 Hu1].
  apply wp_bind. unfold wp at 1, modify_timer, modify.
  destruct excludeIntervals; simpl.
  - unfold wp, ret. simpl. repeat split; try discriminate.
    + rewrite <- Hu1. reflexivity.
    + now rewrite Ht1.
    + now rewrite Ht1.
  - apply wp_bind. unfold wp at 1, gets. simpl.
    apply wp_bind.
    apply (wp_conseq _ _ (fun _ w2 =>
             unscheduled w2 = unscheduled w /\ timeouts (timer w2) = [] /\
             intervals (timer w2) = [])).
    { destruct (intervals (timer w1)) as [|e ivs] eqn:Hiv.
      - unfold wp, ret. simpl. repeat split; [now rewrite <- Hu1 | exact Hiv].
      - unfold wp, bind, lib_clearInterval, modify_timer, modify. simpl.
        repeat split. now rewrite <- Hu1. }
    intros [] w2 (Hu2 & Hto2 & Hiv2).
    apply wp_bind. unfold wp at 1, gets.
    apply wp_bind.
    eapply wp_conseq.
    { apply (wp_keeps V). apply Hloop. intros h w3. now apply keeps_modify. }
    intros [] w3 H3. apply pair_equal_spec in H3 as [Ht3 Hu3].
    unfold wp, modify_timer, modify. simpl.
    repeat split; try discriminate.
    + rewrite <- Hu2, <- Hu3. reflexivity.
    + now rewrite Ht3.
    + now rewrite Ht3.
Qed.

(** [pause(true)] on a running timer. *)
Lemma pause_true_running w :
  disposed (timer w) = false -> running (timer w) = true ->
  wp (pause applyAction true) w (fun r w' =>
    r = true /\ unscheduled w' = unscheduled (pausedWorld w) /\
    timeouts (timer w') = [] /\ intervals (timer w') = [] /\
    rafs (timer w') = []).
Proof.
  intros Hlive Hrun. unfold pause.
  apply wp_bind. unfold wp at 1. rewrite (checkDisposed_live w Hlive).
  apply wp_bind. unfold wp at 1, gets. rewrite Hrun. simpl.
  apply wp_bind. unfold wp at 1, modify.
  apply wp_bind. unfold wp at 1, modify_timer, modify.
  apply wp_bind. unfold wp at 1, gets.
  apply wp_bind. unfold wp at 1, pushEvent, modify.
  apply wp_bind.
  eapply wp_conseq; [apply clearTimeouts_spec|].
  intros [] w1 (Hu & Hto & Hiv & _). destruct (Hiv eq_refl) as [Hi Hr].
  unfold wp. simpl. repeat split; assumption.
Qed.

Lemma pause_not_running (suppress : bool) w :
  disposed (timer w) = false -> running (timer w) = false ->
  pause applyAction suppress w = Returned false w.
Proof.
  intros Hlive Hrun. unfold pause.
  rewrite (bind_returned _ _ _ _ _ (checkDisposed_live w Hlive)).
  unfold bind, gets. now rewrite Hrun.
Qed.

Lemma elapsedAt_core w w' :
  core w' = core w ->
  elapsedAt (timer w') (now (host w')) = elapsedAt (timer w) (now (host w)).
Proof.
  intros H. core_facts H. unfold elapsedAt, running.
  rewrite E0, E2, E3, E9. reflexivity.
Qed.

(** [unpause] on a paused timer: the event, the (re)scheduling, and the
    dispatch of the [executeOnUpdate] callbacks. *)
Lemma unpause_paused (b : bool) w :
  disposed (timer w) = false -> running (timer w) = false ->
  updatesInert applyAction (callbacks (timer w)) ->
  wp (unpause applyAction b) w (fun _ w' =>
    core w' = core (with_timer (set_unpausedAt (Some (now (host w)))) w) /\
    tags (history (timer w'))
    = tags (history (timer w))
      ++ (EvUnpause, None) :: updateTags (callbacks (timer w)) /\
    calls w' = calls w ++ updateCalls (callbacks (timer w))).
Proof.
  intros Hlive Hrun Hinert. unfold unpause.
  apply wp_bind. unfold wp at 1. rewrite (checkDisposed_live w Hlive).
  apply wp_bind. unfold wp at 1, gets. rewrite Hrun.
  apply wp_bind. unfold wp at 1, modify.
  apply wp_bind. unfold wp at 1.
  rewrite getElapsedMs_live by exact Hlive.
  apply wp_bind. unfold wp at 1, pushEvent, modify.
  apply wp_bind. unfold wp at 1, gets.
  match goal with |- wp _ ?w2 _ => set (w2_ := w2) end.
  assert (Hl2 : disposed (timer w2_) = false) by exact Hlive.
  eapply wp_conseq.
  { apply wp_emits.
    eapply (emits_bind _ _ _ [] []).
    - apply emits_keeps. now apply startCallbacks_keeps.
    - intros w3 Hc3.
      apply (executeUpdateCallbacks_emits_core w3 w2_ Hc3 Hl2).
      exact Hinert. }
  intros [] w' (Hc & Ht & Hcs). simpl in Ht, Hcs.
  repeat split.
  - rewrite Hc. reflexivity.
  - rewrite Ht. unfold w2_, tags. simpl. rewrite map_app. simpl.
    now rewrite <- app_assoc.
  - exact Hcs.
Qed.

(** The walk of [_addTime] over the sorted checkpoints. *)
Lemma walk_emits (oldElapsed : Z) (ms : Q) (suppress : bool)
    (cbs : list (InternalCallback Act)) w :
  disposed (timer w) = false ->
  (suppress = false ->
   forall cb, In cb (List.filter (crossedBy oldElapsed ms) cbs) ->
     inert applyAction (cb_callback cb)) ->
  emits
    (when (negb suppress)
       (forM_ cbs (fun callback =>
          when (crossedBy oldElapsed ms callback)
            (createEventAndInvokeCallback applyAction (Registered callback)
               (Some EvCheckpoint) None))))
    w
    (if negb suppress
     then dispatchTags (fun _ => EvCheckpoint)
            (List.filter (crossedBy oldElapsed ms) cbs)
     else [])
    (if negb suppress
     then dispatchCalls (List.filter (crossedBy oldElapsed ms) cbs)
     else []).
Proof.
  intros Hlive Hwalk.
  apply emits_when. intros Hs.
  apply (dispatch_loop_emits applyAction cbs (crossedBy oldElapsed ms)
           (fun _ => EvCheckpoint) w Hlive).
  intros cb Hin Hp. apply Hwalk.
  - now destruct suppress.
  - apply filter_In. now split.
Qed.

Lemma updateTags_core w w' :
  core w' = core w ->
  updateTags (callbacks (timer w')) = updateTags (callbacks (timer w)).
Proof.
  intros H. rewrite <- updateTags_strip, (core_registry _ _ H).
  apply updateTags_strip.
Qed.

Lemma updateCalls_core w w' :
  core w' = core w ->
  updateCalls (callbacks (timer w')) = updateCalls (callbacks (timer w)).
Proof.
  intros H. rewrite <- updateCalls_strip, (core_registry _ _ H).
  apply updateCalls_strip.
Qed.

Lemma updatesInert_core w w' :
  core w' = core w ->
  updatesInert applyAction (callbacks (timer w)) ->
  updatesInert applyAction (callbacks (timer w')).
Proof.
  intros H Hi. apply updatesInert_strip. rewrite (core_registry _ _ H).
  now apply updatesInert_strip.
Qed.

(** [_addTime] on a paused timer: the walk over the crossed checkpoints,
    then the [executeOnUpdate] callbacks; [this.unpause] is not called. *)
Lemma _addTime_paused (this_unpause : bool -> M Act Ext unit)
    (ms : Q) (suppress : bool) w :
  disposed (timer w) = false -> running (timer w) = false ->
  updatesInert applyAction (callbacks (timer w)) ->
  (suppress = false -> crossedInert applyAction w ms) ->
  wp (_addTime applyAction this_unpause ms suppress) w (fun _ w' =>
    core w' = core (with_timer (fun t => set_elapsedMs (elapsedMs t + ms)%Q t) w) /\
    tags (history (timer w'))
    = tags (history (timer w))
      ++ (if negb suppress
          then dispatchTags (fun _ => EvCheckpoint) (crossedCallbacks w ms)
          else [])
      ++ updateTags (callbacks (timer w)) /\
    calls w'
    = calls w
      ++ (if negb suppress then dispatchCalls (crossedCallbacks w ms) else [])
      ++ updateCalls (callbacks (timer w))).
Proof.
  intros Hlive Hrun Hupd Hwalk. unfold _addTime.
  apply wp_bind.
  eapply wp_conseq; [apply clearTimeouts_spec|].
  intros [] wa (Hua & _).
  pose proof (unscheduled_core _ _ Hua) as Hca.
  assert (Hla : disposed (timer wa) = false)
    by (rewrite (core_disposed _ _ Hca); exact Hlive).
  assert (Hra : running (timer wa) = false)
    by (rewrite (core_running _ _ Hca); exact Hrun).
  apply wp_bind. unfold wp at 1.
  rewrite (pause_not_running true wa Hla Hra).
  apply wp_bind. unfold wp at 1. rewrite (getElapsedMs_live wa Hla).
  rewrite (elapsedAt_core _ _ Hca).
  apply wp_bind. unfold wp at 1, modify_timer, modify.
  apply wp_bind. unfold wp at 1, gets.
  match goal with |- wp _ ?w2 _ => set (wc := w2) end.
  assert (Hcb : callbacks (timer wc) = callbacks (timer w))
    by exact (unscheduled_callbacks _ _ Hua).
  rewrite Hcb.
  assert (Hlc : disposed (timer wc) = false) by exact Hla.
  assert (Hcc : core wc
                = core (with_timer
                          (fun t => set_elapsedMs (elapsedMs t + ms)%Q t) w)).
  { core_facts Hca. unfold wc, core. simpl.
    rewrite E, E0, E1, E2, E3, E4, E5, E6, E7, E8, E9, E10, E11, E12.
    reflexivity. }
  apply wp_bind.
  eapply wp_conseq.
  { apply wp_emits.
    apply (walk_emits (elapsedAt (timer w) (now (host w))) ms suppress
             (sortByTimeMs (List.filter isCheckpoint (callbacks (timer w))))
             wc Hlc).
    intros Hs cb Hin. now apply (Hwalk Hs). }
  intros [] w3 (Hc3 & Ht3 & Hcs3).
  apply wp_bind.
  eapply wp_conseq.
  { apply wp_emits.
    apply (executeUpdateCallbacks_emits_core w3 wc Hc3 Hlc).
    rewrite Hcb. exact Hupd. }
  intros [] w4 (Hc4 & Ht4 & Hcs4).
  apply wp_bind. unfold wp at 1, gets.
  rewrite andb_false_r. unfold wp. simpl.
  repeat split.
  - now rewrite Hc4, Hc3.
  - rewrite Ht4, Ht3, Hcb, <- app_assoc. f_equal.
    exact (f_equal tags (unscheduled_history _ _ Hua)).
  - rewrite Hcs4, Hcs3, Hcb, <- app_assoc. f_equal.
    exact (unscheduled_calls _ _ Hua).
Qed.

Lemma elapsedAt_pausedWorld w :
  running (timer w) = true ->
  elapsedAt (timer (pausedWorld w)) (now (host (pausedWorld w)))
  = elapsedAt (timer w) (now (host w)).
Proof. intros Hrun. unfold elapsedAt. rewrite Hrun. reflexivity. Qed.

(** [_addTime] on a running timer whose [unpause] is the one of the base
    class: the timer is paused, walked, and resumed. *)
Lemma _addTime_running (ms : Q) (suppress : bool) w :
  disposed (timer w) = false -> running (timer w) = true ->
  updatesInert applyAction (callbacks (timer w)) ->
  (suppress = false -> crossedInert applyAction w ms) ->
  wp (_addTime applyAction (unpause applyAction) ms suppress) w (fun _ w' =>
    disposed (timer w') = false /\
    tags (history (timer w'))
    = tags (history (timer w))
      ++ [(EvPause, None)]
      ++ (if negb suppress
          then dispatchTags (fun _ => EvCheckpoint) (crossedCallbacks w ms)
          else [])
      ++ updateTags (callbacks (timer w))
      ++ (EvUnpause, None) :: updateTags (callbacks (timer w)) /\
    calls w'
    = calls w
      ++ (if negb suppress then dispatchCalls (crossedCallbacks w ms) else [])
      ++ updateCalls (callbacks (timer w))
      ++ updateCalls (callbacks (timer w))).
Proof.
  intros Hlive Hrun Hupd Hwalk. unfold _addTime.
  apply wp_bind.
  eapply wp_conseq; [apply clearTimeouts_spec|].
  intros [] wa (Hua & _).
  pose proof (unscheduled_core _ _ Hua) as Hca.
  assert (Hla : disposed (timer wa) = false)
    by (rewrite (core_disposed _ _ Hca); exact Hlive).
  assert (Hra : running (timer wa) = true)
    by (rewrite (core_running _ _ Hca); exact Hrun).
  apply wp_bind.
  eapply wp_conseq; [apply (pause_true_running wa Hla Hra)|].
  intros r wb (-> & Hub & _).
  pose proof (unscheduled_core _ _ Hub) as Hcb_.
  assert (Hlb : disposed (timer wb) = false)
    by (rewrite (core_disposed _ _ Hcb_); exact Hla).
  assert (Hrb : running (timer wb) = false)
    by (rewrite (core_running _ _ Hcb_); reflexivity).
  apply wp_bind. unfold wp at 1. rewrite (getElapsedMs_live wb Hlb).
  rewrite (elapsedAt_core _ _ Hcb_), (elapsedAt_pausedWorld wa Hra),
    (elapsedAt_core _ _ Hca).
  apply wp_bind. unfold wp at 1, modify_timer, modify.
  apply wp_bind. unfold wp at 1, gets.
  match goal with |- wp _ ?w2 _ => set (wc := w2) end.
  assert (Hcb : callbacks (timer wc) = callbacks (timer w)).
  { unfold wc. simpl. rewrite (unscheduled_callbacks _ _ Hub). simpl.
    exact (unscheduled_callbacks _ _ Hua). }
  rewrite Hcb.
  assert (Hlc : disposed (timer wc) = false) by exact Hlb.
  assert (Hrc : running (timer wc) = false) by exact Hrb.
  apply wp_bind.
  eapply wp_conseq.
  { apply wp_emits.
    apply (walk_emits (elapsedAt (timer w) (now (host w))) ms suppress
             (sortByTimeMs (List.filter isCheckpoint (callbacks (timer w))))
             wc Hlc).
    intros Hs cb Hin. now apply (Hwalk Hs). }
  intros [] w3 (Hc3 & Ht3 & Hcs3).
  apply wp_bind.
  eapply wp_conseq.
  { apply wp_emits.
    apply (executeUpdateCallbacks_emits_core w3 wc Hc3 Hlc).
    rewrite Hcb. exact Hupd. }
  intros [] w4 (Hc4 & Ht4 & Hcs4).
  assert (Hc4c : core w4 = core wc) by now rewrite Hc4.
  apply wp_bind. unfold wp at 1, gets.
  rewrite (core_running _ _ Hc4c), Hrc. simpl.
  assert (Hupd_c : updatesInert applyAction (callbacks (timer wc)))
    by (rewrite Hcb; exact Hupd).
  eapply wp_conseq.
  { apply (unpause_paused true w4).
    - rewrite (core_disposed _ _ Hc4c). exact Hlc.
    - rewrite (core_running _ _ Hc4c). exact Hrc.
    - now apply (updatesInert_core wc w4 Hc4c). }
  intros [] w5 (Hc5 & Ht5 & Hcs5).
  rewrite (updateTags_core _ _ Hc4c), Hcb in Ht5.
  rewrite (updateCalls_core _ _ Hc4c), Hcb in Hcs5.
  repeat split.
  - rewrite (core_disposed _ _ Hc5). simpl.
    rewrite (core_disposed _ _ Hc4c). exact Hlc.
  - rewrite Ht5, Ht4, Ht3, Hcb.
    assert (Hh : tags (history (timer wc))
                 = tags (history (timer w)) ++ [(EvPause, None)]).
    { unfold wc. simpl. rewrite (unscheduled_history _ _ Hub). simpl.
      rewrite (unscheduled_history _ _ Hua). unfold tags.
      now rewrite map_app. }
    rewrite Hh. now rewrite <- !app_assoc.
  - rewrite Hcs5, Hcs4, Hcs3, Hcb.
    assert (Hh : calls wc = calls w).
    { unfold wc. simpl. rewrite (unscheduled_calls _ _ Hub). simpl.
      exact (unscheduled_calls _ _ Hua). }
    rewrite Hh. now rewrite <- !app_assoc.
Qed.

End Adjusting.

(** ** C1: which checkpoints a time adjustment dispatches *)

Section Sorting.
Context {Act : Type}.
Implicit Types l : list (InternalCallback Act).

Lemma Qltb_lt (x y : Q) : Qltb x y = true <-> (x < y)%Q.
Proof.
  unfold Qltb. rewrite negb_true_iff. split.
  - intros H. apply Qnot_le_lt. intros Hle.
    apply Qle_bool_iff in Hle. congruence.
  - intros H. destruct (Qle_bool y x) eqn:E; [|reflexivity].
    apply Qle_bool_iff in E. lra.
Qed.

Lemma Qleb_le (x y : Q) : Qleb x y = true <-> (x <= y)%Q.
Proof. apply Qle_bool_iff. Qed.

Lemma crossedBy_spec (old : Z) (ms : Q) (cb : InternalCallback Act) :
  crossedBy old ms cb = true <->
  (inject_Z old < cb_timeMs cb)%Q /\ (cb_timeMs cb <= inject_Z old + ms)%Q.
Proof.
  unfold crossedBy. rewrite andb_true_iff, Qltb_lt, Qleb_le. reflexivity.
Qed.

Lemma insertByTimeMs_perm (x : InternalCallback Act) l :
  Permutation (insertByTimeMs x l) (x :: l).
Proof.
  induction l as [|y l IH]; simpl; [reflexivity|].
  destruct (Qleb _ _); [reflexivity|].
  rewrite IH. apply perm_swap.
Qed.

Lemma sortByTimeMs_perm l : Permutation (sortByTimeMs l) l.
Proof.
  induction l as [|x l IH]; simpl; [reflexivity|].
  rewrite insertByTimeMs_perm. now constructor.
Qed.

Lemma insertByTimeMs_sorted (x : InternalCallback Act) l :
  StronglySorted timeMs_le l -> StronglySorted timeMs_le (insertByTimeMs x l).
Proof.
  induction 1 as [|y l Hs IH Hy]; simpl.
  - repeat constructor.
  - destruct (Qleb (cb_timeMs x) (cb_timeMs y)) eqn:E.
    + apply Qleb_le in E. constructor; [now constructor|].
      constructor; [exact E|].
      eapply Forall_impl; [exact Hy|]. intros z Hz. unfold timeMs_le in *. lra.
    + constructor; [exact IH|].
      assert (Hyx : timeMs_le y x).
      { unfold timeMs_le. destruct (Qlt_le_dec (cb_timeMs y) (cb_timeMs x)) as [|Hle];
          [lra|]. apply Qleb_le in Hle. congruence. }
      apply (Permutation_Forall (x := x :: l)).
      * symmetry. apply insertByTimeMs_perm.
      * constructor; assumption.
Qed.

Lemma sortByTimeMs_sorted l : StronglySorted timeMs_le (sortByTimeMs l).
Proof.
  induction l as [|x l IH]; simpl; [constructor|].
  now apply insertByTimeMs_sorted.
Qed.

Lemma filter_sorted (p : InternalCallback Act -> bool) l :
  StronglySorted timeMs_le l -> StronglySorted timeMs_le (List.filter p l).
Proof.
  induction 1 as [|y l Hs IH Hy]; simpl; [constructor|].
  destruct (p y); [|exact IH].
  constructor; [exact IH|].
  apply List.Forall_forall. intros z Hz. apply filter_In in Hz as [Hz _].
  rewrite List.Forall_forall in Hy. now apply Hy.
Qed.

Lemma filter_perm {A} (p : A -> bool) (l l' : list A) :
  Permutation l l' -> Permutation (List.filter p l) (List.filter p l').
Proof.
  induction 1 as [|x l l' _ IH|x y l|l l' l'' _ IH1 _ IH2]; simpl.
  - constructor.
  - destruct (p x); [now constructor | exact IH].
  - destruct (p x), (p y); try reflexivity. apply perm_swap.
  - now transitivity (List.filter p l').
Qed.

Lemma filter_none {A} (p : A -> bool) (l : list A) :
  (forall x, In x l -> p x = false) -> List.filter p l = [].
Proof.
  induction l as [|x l IH]; intros H; simpl; [reflexivity|].
  rewrite (H x (or_introl eq_refl)). apply IH. intros y Hy.
  apply H. now right.
Qed.

End Sorting.

Section Crossing.
Context {Act Ext : Type}.
Implicit Types w : World Act Ext.

(** The walk takes the callbacks of kind [checkpoint] whose target lies
    in [(oldElapsed, oldElapsed + ms]], each as often as it is registered,
    in ascending order of target; none when [ms <= 0]. *)
Lemma crossedCallbacks_spec w (ms : Q) :
  let old := elapsedAt (timer w) (now (host w)) in
  (forall cb,
     In cb (crossedCallbacks w ms) <->
     In cb (callbacks (timer w)) /\ cb_type cb = Checkpoint /\
     (inject_Z old < cb_timeMs cb)%Q /\ (cb_timeMs cb <= inject_Z old + ms)%Q) /\
  StronglySorted timeMs_le (crossedCallbacks w ms) /\
  Permutation (crossedCallbacks w ms)
    (List.filter (fun cb => isCheckpoint cb && crossedBy old ms cb)
       (callbacks (timer w))) /\
  ((ms <= 0)%Q -> crossedCallbacks w ms = []).
Proof.
  intros old. unfold crossedCallbacks. fold old.
  split; [|split; [|split]].
  - intros cb. split.
    + intros H. apply filter_In in H as [H Hc].
      eapply Permutation_in in H; [|apply sortByTimeMs_perm].
      apply filter_In in H as [H Hk].
      apply crossedBy_spec in Hc as [Hlo Hhi].
      repeat split; try assumption.
      unfold isCheckpoint in Hk. now destruct (cb_type cb).
    + intros (Hin & Hty & Hlo & Hhi). apply filter_In. split.
      * eapply Permutation_in;
          [apply Permutation_sym, sortByTimeMs_perm|].
        apply filter_In. split; [exact Hin|].
        unfold isCheckpoint. now rewrite Hty.
      * now apply crossedBy_spec.
  - apply filter_sorted, sortByTimeMs_sorted.
  - rewrite <- filter_filter_and. apply filter_perm, sortByTimeMs_perm.
  - intros Hms. apply filter_none. intros cb _.
    destruct (crossedBy old ms cb) eqn:E; [|reflexivity].
    apply crossedBy_spec in E. lra.
Qed.

End Crossing.

Section AdjustingBase.
Context {Act Ext : Type}.
Variable applyAction : Act -> M Act Ext unit.
Implicit Types w : World Act Ext.

(** [_addTime] of a timer that resumes with the [unpause] of the base
    class, paused or running. *)
Lemma _addTime_base (ms : Q) (suppress : bool) w :
  disposed (timer w) = false ->
  updatesInert applyAction (callbacks (timer w)) ->
  (suppress = false -> crossedInert applyAction w ms) ->
  wp (_addTime applyAction (unpause applyAction) ms suppress) w (fun _ w' =>
    disposed (timer w') = false /\
    tags (history (timer w'))
    = tags (history (timer w))
      ++ (if running (timer w) then [(EvPause, None)] else [])
      ++ (if negb suppress
          then dispatchTags (fun _ => EvCheckpoint) (crossedCallbacks w ms)
          else [])
      ++ updateTags (callbacks (timer w))
      ++ (if running (timer w)
          then (EvUnpause, None) :: updateTags (callbacks (timer w))
          else []) /\
    calls w'
    = calls w
      ++ (if negb suppress then dispatchCalls (crossedCallbacks w ms) else [])
      ++ updateCalls (callbacks (timer w))
      ++ (if running (timer w)
          then updateCalls (callbacks (timer w)) else [])).
Proof.
  intros Hlive Hupd Hwalk. destruct (running (timer w)) eqn:Hrun.
  - eapply wp_conseq;
      [apply (_addTime_running applyAction ms suppress w Hlive Hrun Hupd Hwalk)|].
    intros [] w' (Hl & Ht & Hc). repeat split; assumption.
  - eapply wp_conseq;
      [apply (_addTime_paused applyAction (unpause applyAction) ms suppress w
                Hlive Hrun Hupd Hwalk)|].
    intros [] w' (Hc & Ht & Hcs). repeat split.
    + rewrite (core_disposed _ _ Hc). exact Hlive.
    + rewrite Ht. simpl. now rewrite app_nil_r.
    + rewrite Hcs. now rewrite app_nil_r.
Qed.

End AdjustingBase.

Lemma SuperTimer_inert (a : SuperTimer.Act) : inert SuperTimer.applyAction a.
Proof. intros w. reflexivity. Qed.

(** C1 (amended).  On a timer that is not disposed, [addTime(d)] and
    [setTime(m)] (with [d = m - oldElapsed]) return, and the events they
    append and the user functions they call are, in this order: the
    [addTime]/[setTime] event; a [pause] event if the timer was running;
    one [checkpoint] event per crossed callback; the dispatch of every
    callback flagged [executeOnUpdate]; and, if the timer was running, an
    [unpause] event and that dispatch once more.  The crossed callbacks
    are exactly the callbacks of kind [checkpoint] whose target lies in
    [(oldElapsed, oldElapsed + d]], in ascending order of target, and
    there is none when [d <= 0]. *)
Theorem addTime_dispatches (w : World SuperTimer.Act unit) (d : Q) :
  disposed (timer w) = false ->
  let old := elapsedAt (timer w) (now (host w)) in
  let isRunning := running (timer w) in
  let updates := callbacks (timer w) in
  let dispatched (first : TimerEventType) (ms : Q) (w' : World SuperTimer.Act unit) :=
    tags (history (timer w'))
    = tags (history (timer w))
      ++ (first, None)
         :: (if isRunning then [(EvPause, None)] else [])
      ++ dispatchTags (fun _ => EvCheckpoint) (crossedCallbacks w ms)
      ++ updateTags updates
      ++ (if isRunning then (EvUnpause, None) :: updateTags updates else []) /\
    calls w'
    = calls w
      ++ dispatchCalls (crossedCallbacks w ms)
      ++ updateCalls updates
      ++ (if isRunning then updateCalls updates else []) in
  (exists w',
     SuperTimer.addTime d false w = Returned tt w' /\
     dispatched EvAddTime d w') /\
  (forall m, exists w',
     SuperTimer.setTime m false w = Returned tt w' /\
     dispatched EvSetTime (m - inject_Z old)%Q w') /\
  (forall ms cb,
     In cb (crossedCallbacks w ms) <->
     In cb (callbacks (timer w)) /\ cb_type cb = Checkpoint /\
     (inject_Z old < cb_timeMs cb)%Q /\
     (cb_timeMs cb <= inject_Z old + ms)%Q) /\
  (forall ms, StronglySorted timeMs_le (crossedCallbacks w ms)) /\
  (forall ms,
     Permutation (crossedCallbacks w ms)
       (List.filter (fun cb => isCheckpoint cb && crossedBy old ms cb)
          (callbacks (timer w)))) /\
  (forall ms, (ms <= 0)%Q -> crossedCallbacks w ms = []).
Proof.
  intros Hlive old isRunning updates dispatched.
  assert (Hadj : forall ty data ms,
    snd (eventTag {| ev_date := wall (host w); ev_elapsedMs := inject_Z old;
                     ev_event := ty; ev_data := data |}) = None ->
    exists w',
      (pushEvent ty (inject_Z old) data >>
       _addTime SuperTimer.applyAction SuperTimer.unpause ms false) w
      = Returned tt w' /\ dispatched ty ms w').
  { intros ty data ms Hdata. unfold bind at 1, pushEvent, modify.
    match goal with |- context [_addTime _ _ _ _ ?w1] => set (w1_ := w1) end.
    destruct (wp_returned _ _ _
                (_addTime_base SuperTimer.applyAction ms false w1_ Hlive
                   (fun cb _ _ => SuperTimer_inert _)
                   (fun _ cb _ => SuperTimer_inert _)))
      as ([] & w' & Hm & Hl & Ht & Hc).
    exists w'. split; [exact Hm|]. unfold dispatched. split.
    - rewrite Ht. unfold w1_, tags. simpl. rewrite map_app. simpl.
      unfold eventTag at 2. simpl in Hdata. simpl. rewrite Hdata.
      now rewrite <- app_assoc.
    - exact Hc. }
  split; [|split].
  - unfold SuperTimer.addTime, addTime.
    rewrite (bind_returned _ _ _ _ _ (checkDisposed_live w Hlive)).
    rewrite (bind_returned _ _ _ _ _ (getElapsedMs_live w Hlive)).
    now apply Hadj.
  - intros m. unfold SuperTimer.setTime, setTime.
    rewrite (bind_returned _ _ _ _ _ (checkDisposed_live w Hlive)).
    rewrite (bind_returned _ _ _ _ _ (getElapsedMs_live w Hlive)).
    now apply Hadj.
  - split; [|split; [|split]]; intros ms.
    + intros cb. apply (crossedCallbacks_spec w ms).
    + apply (crossedCallbacks_spec w ms).
    + apply (crossedCallbacks_spec w ms).
    + apply (crossedCallbacks_spec w ms).
Qed.

Lemma addTime_dispatches_witness :
  disposed (timer sampleTimer) = false /\
  exists w',
    SuperTimer.addTime 1000 false sampleTimer = Returned tt w' /\
    tags (history (timer w'))
    = [(EvAddTime, None); (EvCheckpoint, Some "checkpoint-2");
       (EvCheckpoint, Some "checkpoint-1")] /\
    calls w' = [2%nat; 1%nat].
Proof.
  split; [reflexivity|].
  destruct (addTime_dispatches sampleTimer 1000 eq_refl)
    as [(w' & Hm & Ht & Hc) _].
  exists w'. split; [exact Hm|]. split.
  - rewrite Ht. vm_compute. reflexivity.
  - rewrite Hc. vm_compute. reflexivity.
Defined.

(** C1, as stated, fails: a backward jump of 100 from an elapsed time of
    1000 dispatches the checkpoint at 500, which is flagged
    [executeOnUpdate]. *)
Lemma addTime_backward_dispatches_checkpoint :
  elapsedAt (timer timerAt1000) (now (host timerAt1000)) = 1000%Z /\
  map (fun cb => (cb_name cb, cb_type cb, cb_timeMs cb))
    (callbacks (timer timerAt1000))
  = [("checkpoint-1", Checkpoint, 500%Q)] /\
  exists w',
    SuperTimer.addTime (-100) false timerAt1000 = Returned tt w' /\
    tags (history (timer w'))
    = tags (history (timer timerAt1000))
      ++ [(EvAddTime, None); (EvCheckpoint, Some "checkpoint-1")] /\
    calls w' = calls timerAt1000 ++ [7%nat].
Proof.
  split; [vm_compute; reflexivity|]. split; [vm_compute; reflexivity|].
  eexists. split; [vm_compute; reflexivity|].
  split; vm_compute; reflexivity.
Qed.

(** ** C2: the target of a tick after a (re)start *)

Section TickTarget.
Context {Act Ext : Type}.

Lemma idealNextExecutionTime_window (cb : InternalCallback Act) (E : Z) :
  (0 < cb_timeMs cb)%Q ->
  (inject_Z E < idealNextExecutionTime cb E)%Q /\
  (idealNextExecutionTime cb E <= inject_Z E + cb_timeMs cb)%Q.
Proof.
  intros HI. unfold idealNextExecutionTime, Math_floor.
  set (I := cb_timeMs cb) in *. set (r := inject_Z (cb_registeredAt cb)).
  set (x := ((inject_Z E - r) / I)%Q).
  pose proof (Qfloor_le x) as Hlo. pose proof (Qlt_floor x) as Hhi.
  rewrite inject_Z_plus in Hhi. change (inject_Z 1) with 1%Q in Hhi.
  assert (Hx : (x * I == inject_Z E - r)%Q).
  { unfold x. field. lra. }
  set (n := inject_Z (Qfloor x)) in *.
  assert (H1 : (n * I <= x * I)%Q) by (apply Qmult_le_compat_r; lra).
  assert (H2 : (x * I < (n + 1) * I)%Q) by (apply Qmult_lt_compat_r; lra).
  split; lra.
Qed.

(** With a positive interval [I], on a timer that is not disposed and
    reads the elapsed time [E]:
    the ideal target [registeredAt + (n + 1) * I], with
    [n = floor ((E - registeredAt) / I)], is the point of the original
    schedule next after [E]; with drift compensation the target is the
    ideal one when the naive target [lastExecutionMs + I] exceeds it and
    the naive one otherwise; without, it is the naive one; and
    [handleTickCallback] schedules a one-shot at the target when it lies
    strictly inside [(E, E + I)] and the plain interval otherwise. *)
Lemma nextExecutionTime_spec (cb : InternalCallback Act) (w : World Act Ext) :
  (0 < cb_timeMs cb)%Q ->
  disposed (timer w) = false ->
  let I := cb_timeMs cb in
  let E := elapsedAt (timer w) (now (host w)) in
  let n :=
    Math_floor ((inject_Z E - inject_Z (cb_registeredAt cb)) / I) in
  let ideal := (inject_Z (cb_registeredAt cb) + (inject_Z n + 1) * I)%Q in
  let naive := (inject_Z (cb_lastExecutionMs cb) + I)%Q in
  let next := nextExecutionTime cb E in
  ((inject_Z E < ideal)%Q /\ (ideal <= inject_Z E + I)%Q) /\
  (cb_disableTickDriftCompensation cb = false ->
     ((ideal < naive)%Q -> next = ideal) /\
     ((naive <= ideal)%Q -> next = naive)) /\
  (cb_disableTickDriftCompensation cb = true -> next = naive) /\
  handleTickCallback cb w
  = (if Qltb (inject_Z E) next && Qltb next (inject_Z E + I)
     then handleCheckpointCallback (TickOneShot cb next) EvTick (Some cb) w
     else handleTickResetCallback cb w).
Proof.
  intros HI Hlive I E n ideal naive next.
  assert (HI0 : Qeq_bool I 0 = false).
  { destruct (Qeq_bool I 0) eqn:E0; [|reflexivity].
    apply Qeq_bool_iff in E0. unfold I in E0. lra. }
  split; [apply (idealNextExecutionTime_window cb E HI)|].
  split; [|split].
  - intros Hd. unfold next, nextExecutionTime.
    fold I. fold naive. rewrite Hd, HI0. simpl.
    change (idealNextExecutionTime cb E) with ideal.
    split; intros H.
    + assert (Hc : Qltb 0 (naive - ideal) = true) by (apply Qltb_lt; lra).
      now rewrite Hc.
    + destruct (Qltb 0 (naive - ideal)) eqn:Hc; [|reflexivity].
      apply Qltb_lt in Hc. lra.
  - intros Hd. unfold next, nextExecutionTime. now rewrite Hd.
  - unfold handleTickCallback.
    rewrite (bind_returned _ _ _ _ _ (getElapsedMs_live w Hlive)).
    fold E. fold next. fold I. now destruct (_ && _).
Qed.

End TickTarget.

(** C2 (amended).  The target of a tick on a (re)start is computed as
    [nextExecutionTime_spec] says.  In the scenario (a tick every 1000,
    started at 0, fired at 1000, paused at 1400 and resumed at once) the
    host holds one registration, due when the timer reads 2000, and the
    tick fires there: with drift compensation, and also with
    [disableTickDriftCompensation] set, since the naive target
    [lastExecutionMs + I] is 2000 as well.  The next firing is at 2400
    only when the pause itself ran the callback ([executeOnUpdate]) and so
    moved [lastExecutionMs] to 1400. *)
Theorem tick_drift_compensation :
  (forall (cb : InternalCallback SuperTimer.Act)
          (w : World SuperTimer.Act unit),
     (0 < cb_timeMs cb)%Q -> disposed (timer w) = false ->
     let I := cb_timeMs cb in
     let E := elapsedAt (timer w) (now (host w)) in
     let n :=
       Math_floor ((inject_Z E - inject_Z (cb_registeredAt cb)) / I) in
     let ideal := (inject_Z (cb_registeredAt cb) + (inject_Z n + 1) * I)%Q in
     let naive := (inject_Z (cb_lastExecutionMs cb) + I)%Q in
     let next := nextExecutionTime cb E in
     ((inject_Z E < ideal)%Q /\ (ideal <= inject_Z E + I)%Q) /\
     (cb_disableTickDriftCompensation cb = false ->
        ((ideal < naive)%Q -> next = ideal) /\
        ((naive <= ideal)%Q -> next = naive)) /\
     (cb_disableTickDriftCompensation cb = true -> next = naive) /\
     handleTickCallback cb w
     = (if Qltb (inject_Z E) next && Qltb next (inject_Z E + I)
        then handleCheckpointCallback (TickOneShot cb next) EvTick (Some cb) w
        else handleTickResetCallback cb w)) /\
  (forall disable,
     let w := tickResumedAt1400 disable false in
     elapsedAt (timer w) (now (host w)) = 1400%Z /\
     dueTimes w = [2005%Q] /\
     elapsedAt (timer w) 2005 = 2000%Z /\
     lastEvent (tickFiredAgain disable false) = Some (EvTick, 2000%Q)) /\
  (let w := tickResumedAt1400 true true in
   elapsedAt (timer w) (now (host w)) = 1400%Z /\
   dueTimes w = [2405%Q] /\
   elapsedAt (timer w) 2405 = 2400%Z /\
   lastEvent
     (execHost (SuperTimer.hostFireInterval 2) (hostAdvance 1000 w))
   = Some (EvTick, 2400%Q)).
Proof.
  split; [|split].
  - intros cb w HI Hlive. exact (nextExecutionTime_spec cb w HI Hlive).
  - intros [|]; repeat split; vm_compute; reflexivity.
  - repeat split; vm_compute; reflexivity.
Qed.

Lemma tick_drift_compensation_witness :
  let cb :=
    {| cb_uid := 0; cb_name := "tick-1"; cb_callback := 7%nat;
       cb_timeMs := 1000; cb_type := Tick;
       cb_requireAnimationFrame := false; cb_executeOnUpdate := false;
       cb_logExecutions := false; cb_lastExecutionMs := 1003;
       cb_registeredAt := 0; cb_disableTickDriftCompensation := false |} in
  (0 < cb_timeMs cb)%Q /\
  disposed (timer (tickResumedAt1400 false false)) = false /\
  nextExecutionTime cb 1400 = 2000%Q.
Proof.
  intros cb. split; [reflexivity|]. split; [reflexivity|].
  destruct tick_drift_compensation as [Hgen _].
  destruct (Hgen cb (tickResumedAt1400 false false) eq_refl eq_refl)
    as (_ & Hc & _).
  destruct (Hc eq_refl) as [Hi _].
  exact (eq_trans (Hi eq_refl) eq_refl).
Defined.

(** C2, as stated, fails: with [disableTickDriftCompensation] set the tick
    of the scenario next fires when the timer reads 2000, not 2400; the
    registration after that one is due at 3000. *)
Lemma tick_without_compensation_fires_at_2000 :
  let w := tickResumedAt1400 true false in
  map (fun cb => (cb_disableTickDriftCompensation cb, cb_lastExecutionMs cb))
    (callbacks (timer w)) = [(true, 1000%Z)] /\
  dueTimes w = [2005%Q] /\
  elapsedAt (timer w) 2005 = 2000%Z /\
  lastEvent (tickFiredAgain true false) = Some (EvTick, 2000%Q) /\
  dueTimes (tickFiredAgain true false) = [3005%Q] /\
  elapsedAt (timer (tickFiredAgain true false)) 3005 = 3000%Z.
Proof. repeat split; vm_compute; reflexivity. Qed.

(** ** C5: a completed countdown is not resumed *)

(** C5.  When [isDone()] is true, [unpause()] returns and leaves the
    countdown exactly as it was: [unpausedAt] is not assigned (a paused
    countdown stays paused) and no event is appended to the history. *)
Theorem countdown_unpause_when_done (fuel : nat)
    (w w' : World SuperCountdown.Act SuperCountdown.Fields) :
  SuperCountdown.isDone w = Returned true w' ->
  SuperCountdown.unpause fuel w = Returned tt w /\
  unpausedAt (timer (exec (SuperCountdown.unpause fuel) w))
  = unpausedAt (timer w) /\
  history (timer (exec (SuperCountdown.unpause fuel) w))
  = history (timer w).
Proof.
  intros Hdone.
  assert (Hw : w' = w).
  { unfold SuperCountdown.isDone, SuperCountdown.getTimeRemaining in Hdone.
    unfold bind in Hdone.
    pose proof (getElapsedMs_pure w) as Hp.
    destruct (getElapsedMs w) as [e w1|e w1]; simpl in *; [|discriminate].
    unfold gets, ret in Hdone. subst w1. now inversion Hdone. }
  subst w'.
  assert (Hu : SuperCountdown.unpause fuel w = Returned tt w).
  { unfold SuperCountdown.unpause, SuperCountdown.unpause_.
    now rewrite (bind_returned _ _ _ _ _ Hdone). }
  unfold exec. rewrite Hu. auto.
Qed.

Lemma countdown_unpause_when_done_witness :
  SuperCountdown.isDone completedCountdown = Returned true completedCountdown /\
  SuperCountdown.unpause 1 completedCountdown = Returned tt completedCountdown /\
  unpausedAt (timer completedCountdown) = None.
Proof.
  assert (H : SuperCountdown.isDone completedCountdown
              = Returned true completedCountdown)
    by (vm_compute; reflexivity).
  split; [exact H|]. split.
  - exact (proj1 (countdown_unpause_when_done 1 _ _ H)).
  - vm_compute. reflexivity.
Defined.

(** ** C9: the history of a snapshot *)

(** C9 (amended).  On a host that provides [structuredClone], [getState]
    of a timer that is not disposed returns the id, the elapsed time,
    whether the timer is paused, and a copy of the history: an edit of
    the copy leaves the timer (and so every later snapshot) as it was,
    and no later change of the timer shows in the copy. *)
Theorem getState_snapshot {Act Ext} (w : World Act Ext) :
  disposed (timer w) = false ->
  hasStructuredClone (host w) = true ->
  exists s,
    getState w = Returned s w /\
    st_timerId s = timer_id (timer w) /\
    st_elapsedMs s = elapsedAt (timer w) (now (host w)) /\
    st_isPaused s = negb (running (timer w)) /\
    st_history s = ClonedHistory (history (timer w)) /\
    (forall f,
       snd (snapshotEdit f s w) = w /\
       snapshotEvents (fst (snapshotEdit f s w)) w = f (history (timer w))) /\
    (forall w2 : World Act Ext, snapshotEvents s w2 = history (timer w)).
Proof.
  intros Hlive Hclone. unfold getState.
  rewrite (bind_returned _ _ _ _ _ (checkDisposed_live w Hlive)).
  unfold bind at 1, gets at 1.
  rewrite (bind_returned _ _ _ _ _ (getElapsedMs_live w Hlive)).
  rewrite Hclone. eexists. split; [reflexivity|].
  repeat split.
Qed.

Lemma getState_snapshot_witness :
  disposed (timer runningTimer) = false /\
  hasStructuredClone (host runningTimer) = true /\
  exists s,
    getState runningTimer = Returned s runningTimer /\
    st_elapsedMs s = 1235%Z /\
    tags (snapshotEvents s runningTimer) = [(EvUnpause, None)].
Proof.
  split; [reflexivity|]. split; [reflexivity|].
  destruct (getState_snapshot runningTimer eq_refl eq_refl)
    as (s & Hm & _ & He & _ & _ & _ & Hs).
  exists s. split; [exact Hm|]. split.
  - rewrite He. vm_compute. reflexivity.
  - rewrite Hs. vm_compute. reflexivity.
Defined.

(** C9, as stated, fails: without [structuredClone] the snapshot holds the
    history object of the timer itself, and an event appended to the
    snapshot is in the history of the timer and in the next snapshot. *)
Lemma getState_shares_history_without_clone :
  let w := legacyHostTimer in
  let e := {| ev_date := 0; ev_elapsedMs := 0; ev_event := EvReset;
              ev_data := None |} in
  exists s,
    getState w = Returned s w /\
    st_history s = InternalHistory /\
    tags (history (timer w)) = [(EvUnpause, None)] /\
    let w' := snd (snapshotEdit (fun evs => evs ++ [e]) s w) in
    tags (history (timer w')) = [(EvUnpause, None); (EvReset, None)] /\
    exists s',
      getState w' = Returned s' w' /\
      tags (snapshotEvents s' w') = [(EvUnpause, None); (EvReset, None)].
Proof.
  intros w e. eexists. split; [vm_compute; reflexivity|].
  split; [reflexivity|]. split; [vm_compute; reflexivity|].
  split; [vm_compute; reflexivity|].
  eexists. split; vm_compute; reflexivity.
Qed.

(** ** C7 and C10: names and sequence counters *)

Section Registering.
Context {Act Ext : Type}.
Implicit Types w : World Act Ext.

Lemma type_str_inj (a b : CallbackType) : type_str a = type_str b -> a = b.
Proof. destruct a, b; simpl; intros H; try reflexivity; discriminate. Qed.

(** A name that is taken: the entry is refused and nothing has changed. *)
Lemma registerOne_conflict (cb : SuperTimerCallbackBase Act) w :
  resolvedName cb (timer w) ∈ namesOf (timer w) (type cb) ->
  registerOne cb w = Thrown (NameConflictError (type cb) (name cb)) w.
Proof.
  unfold resolvedName, namesOf, seedOf. intros Hin.
  destruct w as [t h e a c]. simpl in *.
  unfold registerOne, bind, modify_timer, modify, gets, with_timer, throw.
  simpl.
  destruct (callbackIdSeeds t !! type_str (type cb)) as [[|k]|] eqn:Hseed;
    try (exfalso; revert Hin; apply not_elem_of_empty).
  simpl. rewrite Hseed. simpl.
  rewrite bool_decide_eq_true_2 by exact Hin.
  destruct t; reflexivity.
Qed.

(** A name that is free: the entry is registered under it, the counter of
    its kind advances by one, and no other counter moves. *)
Lemma registerOne_registers (cb : SuperTimerCallbackBase Act) w icb w' :
  registerOne cb w = Returned icb w' ->
  (resolvedName cb (timer w) ∉ namesOf (timer w) (type cb)) /\
  cb_name icb = resolvedName cb (timer w) /\
  callbacks (timer w') = callbacks (timer w) ++ [icb] /\
  seedOf (timer w') (type cb) = S (seedOf (timer w) (type cb)) /\
  (forall ty, ty <> type cb -> seedOf (timer w') ty = seedOf (timer w) ty) /\
  disposed (timer w') = disposed (timer w) /\
  running (timer w') = running (timer w).
Proof.
  unfold resolvedName, namesOf, seedOf.
  destruct w as [t h e a c]. simpl.
  unfold registerOne, bind, modify_timer, modify, gets, with_timer, throw.
  simpl.
  set (key := type_str (type cb)).
  assert (Hother : forall ty, ty <> type cb -> type_str ty <> key).
  { intros ty Hne Heq. apply Hne. now apply type_str_inj. }
  destruct (callbackIdSeeds t !! key) as [[|k]|] eqn:Hseed; simpl.
  - rewrite lookup_insert_eq. simpl. rewrite lookup_insert_eq. simpl.
    rewrite bool_decide_eq_false_2 by apply not_elem_of_empty.
    destruct (getElapsedMs _) as [el w1|]eqn:Hel; [|discriminate].
    pose proof (getElapsedMs_pure
                 {| timer := set_names (<[key:=1%nat]> (callbackIdSeeds t))
                               (<[key:=∅]> (callbackNames t)) t;
                    host := h; ext := e; allocated := a; calls := c |}) as Hp.
    rewrite Hel in Hp. simpl in Hp. subst w1. simpl.
    intros H. inversion H; subst; clear H. simpl.
    rewrite !lookup_insert_eq. simpl.
    repeat split; try reflexivity.
    + apply not_elem_of_empty.
    + intros ty Hne.
      rewrite !lookup_insert_ne by (apply not_eq_sym; now apply Hother).
      reflexivity.
  - rewrite Hseed. simpl.
    destruct (bool_decide _) eqn:Hdec; [discriminate|].
    apply bool_decide_eq_false in Hdec.
    destruct (getElapsedMs _) as [el w1|]eqn:Hel; [|discriminate].
    pose proof (getElapsedMs_pure
                 {| timer := t; host := h; ext := e; allocated := a;
                    calls := c |}) as Hp.
    rewrite Hel in Hp. simpl in Hp. subst w1. simpl.
    intros H. inversion H; subst; clear H. simpl.
    rewrite !lookup_insert_eq, Hseed. simpl.
    repeat split; try reflexivity.
    + exact Hdec.
    + intros ty Hne.
      rewrite !lookup_insert_ne by (apply not_eq_sym; now apply Hother).
      reflexivity.
  - rewrite lookup_insert_eq. simpl. rewrite lookup_insert_eq. simpl.
    rewrite bool_decide_eq_false_2 by apply not_elem_of_empty.
    destruct (getElapsedMs _) as [el w1|]eqn:Hel; [|discriminate].
    pose proof (getElapsedMs_pure
                 {| timer := set_names (<[key:=1%nat]> (callbackIdSeeds t))
                               (<[key:=∅]> (callbackNames t)) t;
                    host := h; ext := e; allocated := a; calls := c |}) as Hp.
    rewrite Hel in Hp. simpl in Hp. subst w1. simpl.
    intros H. inversion H; subst; clear H. simpl.
    rewrite !lookup_insert_eq. simpl.
    repeat split; try reflexivity.
    + apply not_elem_of_empty.
    + intros ty Hne.
      rewrite !lookup_insert_ne by (apply not_eq_sym; now apply Hother).
      reflexivity.
Qed.

Lemma CallbackType_eqb_eq (a b : CallbackType) :
  CallbackType_eqb a b = true <-> a = b.
Proof. destruct a, b; simpl; split; intros H; try reflexivity; discriminate. Qed.

Lemma countType_cons (ty : CallbackType) (c : SuperTimerCallbackBase Act)
    (l : list (SuperTimerCallbackBase Act)) :
  countType ty (c :: l)
  = ((if CallbackType_eqb (type c) ty then 1 else 0) + countType ty l)%nat.
Proof.
  unfold countType. simpl. now destruct (CallbackType_eqb (type c) ty).
Qed.

Lemma mapM_registerOne_spec (cbs : list (SuperTimerCallbackBase Act)) :
  forall w l w',
    mapM registerOne cbs w = Returned l w' ->
    callbacks (timer w') = callbacks (timer w) ++ l /\
    (forall ty,
       seedOf (timer w') ty = (seedOf (timer w) ty + countType ty cbs)%nat) /\
    (forall pre cb post,
       cbs = pre ++ cb :: post -> name cb = None ->
       exists icb,
         l !! length pre = Some icb /\
         cb_name icb
         = generatedName (type cb)
             (seedOf (timer w) (type cb) + countType (type cb) pre)) /\
    disposed (timer w') = disposed (timer w) /\
    running (timer w') = running (timer w).
Proof.
  induction cbs as [|c cbs IH]; intros w l w' H; simpl in H.
  - unfold ret in H. inversion H; subst; clear H.
    rewrite app_nil_r. repeat split.
    + intros ty. unfold countType. simpl. lia.
    + intros [|? ?] cb post Heq; discriminate.
  - unfold bind in H.
    destruct (registerOne c w) as [y w1|] eqn:H1; [|discriminate].
    destruct (mapM registerOne cbs w1) as [ys w2|] eqn:H2; [|discriminate].
    unfold ret in H. inversion H; subst; clear H.
    destruct (registerOne_registers c w y w1 H1)
      as (_ & Hname & Hcb1 & Hseed1 & Hother1 & Hd1 & Hr1).
    destruct (IH w1 ys w' H2) as (Hcb2 & Hseed2 & Hnames2 & Hd2 & Hr2).
    assert (Hs : forall ty,
               seedOf (timer w1) ty
               = ((if CallbackType_eqb (type c) ty then 1 else 0)
                  + seedOf (timer w) ty)%nat).
    { intros ty. destruct (CallbackType_eqb (type c) ty) eqn:E.
      - apply CallbackType_eqb_eq in E. subst ty. now rewrite Hseed1.
      - rewrite Hother1; [reflexivity|]. intros ->.
        assert (CallbackType_eqb (type c) (type c) = true)
          by now apply CallbackType_eqb_eq.
        congruence. }
    repeat split.
    + rewrite Hcb2, Hcb1. now rewrite <- app_assoc.
    + intros ty. rewrite Hseed2, Hs, countType_cons. lia.
    + intros pre cb post Heq Hnone. destruct pre as [|c0 pre]; simpl in Heq.
      * inversion Heq; subst; clear Heq. exists y. split; [reflexivity|].
        rewrite Hname. unfold resolvedName, generatedName, countType.
        rewrite Hnone. simpl. now rewrite Nat.add_0_r.
      * inversion Heq; subst; clear Heq.
        destruct (Hnames2 pre cb post eq_refl Hnone) as (icb & Hl & Hn).
        exists icb. split; [exact Hl|].
        rewrite Hn, Hs, countType_cons. f_equal. lia.
    + congruence.
    + congruence.
Qed.

(** [registerCallbacks] that returns has registered every entry. *)
Lemma registerCallbacks_returned (cbs : list (SuperTimerCallbackBase Act))
    w w' :
  registerCallbacks cbs w = Returned tt w' ->
  exists l w1,
    mapM registerOne cbs w = Returned l w1 /\
    unscheduled w' = unscheduled w1.
Proof.
  unfold registerCallbacks. intros H.
  destruct (disposed (timer w)) eqn:Hd.
  { rewrite (bind_thrown _ _ _ _ _ (checkDisposed_disposed w Hd)) in H.
    discriminate. }
  rewrite (bind_returned _ _ _ _ _ (checkDisposed_live w Hd)) in H.
  unfold bind in H.
  destruct (mapM registerOne cbs w) as [l w1|] eqn:Hm; [|discriminate].
  exists l, w1. split; [reflexivity|].
  destruct (mapM_registerOne_spec cbs w l w1 Hm) as (_ & _ & _ & Hd1 & _).
  destruct (startCallbacks_keeps l w1) as ([] & w2 & Hs & Hu).
  { now rewrite Hd1. }
  rewrite Hs in H. now inversion H; subst.
Qed.

End Registering.

(** [removeCallbacks] does not touch the sequence counters. *)
Lemma removeCallbacks_seeds {Act Ext} (names : list string)
    (w w' : World Act Ext) :
  removeCallbacks names w = Returned tt w' ->
  callbackIdSeeds (timer w') = callbackIdSeeds (timer w).
Proof.
  unfold removeCallbacks. intros H.
  destruct (disposed (timer w)) eqn:Hd.
  { rewrite (bind_thrown _ _ _ _ _ (checkDisposed_disposed w Hd)) in H.
    discriminate. }
  rewrite (bind_returned _ _ _ _ _ (checkDisposed_live w Hd)) in H.
  match type of H with
  | forM_ ?l ?body w = _ =>
      assert (Hwp : wp (forM_ l body) w (fun _ w1 =>
                callbackIdSeeds (timer w1) = callbackIdSeeds (timer w)))
  end.
  { apply (wp_forM_inv
             (fun w1 => callbackIdSeeds (timer w1) = callbackIdSeeds (timer w)));
      [reflexivity|].
    intros k w1 _ Hinv.
    unfold bind at 1, gets at 1.
    unfold wp, bind, lib_clearTimeout, lib_clearInterval,
      lib_cancelAnimationFrame, modify_timer, modify, ret.
    destruct (nm_get k (timeouts (timer w1)));
    destruct (nm_get k (intervals (timer w1)));
    destruct (nm_get k (rafs (timer w1))); simpl; exact Hinv. }
  unfold wp in Hwp. rewrite H in Hwp. exact Hwp.
Qed.

(** C10.  Every entry that [registerCallbacks] registers advances the
    counter of its kind by one, named or not, and is named
    [{kind}-{counter}] when it omits its name.  So a call that returns has
    advanced each counter by the number of entries of the kind, and an
    unnamed entry bears the counter the timer had before the call plus
    the number of entries of the kind that precede it in the call.
    Removing callbacks does not move the counters, and a new timer starts
    them at 1: the k-th registration of a kind is named [{kind}-{k}] when
    it omits its name.  It is refused when that name was given to an
    earlier callback of the kind: after a tick registered as [tick-2], a
    tick without a name is refused with the error for a name conflict. *)
Theorem sequence_counter_advances :
  (forall Act Ext (cb : SuperTimerCallbackBase Act) (w w' : World Act Ext)
          (icb : InternalCallback Act),
     registerOne cb w = Returned icb w' ->
     seedOf (timer w') (type cb) = S (seedOf (timer w) (type cb)) /\
     (forall ty, ty <> type cb -> seedOf (timer w') ty = seedOf (timer w) ty) /\
     (name cb = None ->
      cb_name icb = generatedName (type cb) (seedOf (timer w) (type cb)))) /\
  (forall Act Ext (cbs : list (SuperTimerCallbackBase Act))
          (w w' : World Act Ext),
     registerCallbacks cbs w = Returned tt w' ->
     (forall ty,
        seedOf (timer w') ty
        = (seedOf (timer w) ty + countType ty cbs)%nat) /\
     (forall pre cb post,
        cbs = pre ++ cb :: post -> name cb = None ->
        exists icb,
          callbacks (timer w')
            !! (length (callbacks (timer w)) + length pre)%nat = Some icb /\
          cb_name icb
          = generatedName (type cb)
              (seedOf (timer w) (type cb) + countType (type cb) pre))) /\
  (forall Act Ext (names : list string) (w w' : World Act Ext),
     removeCallbacks names w = Returned tt w' ->
     forall ty, seedOf (timer w') ty = seedOf (timer w) ty) /\
  (forall ty, seedOf (timer (freshTimer true [])) ty = 1%nat) /\
  (seedOf (timer timerWithTick2) Tick = 2%nat /\
   map cb_name (callbacks (timer timerWithTick2)) = ["tick-2"] /\
   generatedName Tick 2 = "tick-2" /\
   registerCallbacks [plainCallback Tick 500 2%nat None] timerWithTick2
   = Thrown (NameConflictError Tick None) timerWithTick2).
Proof.
  split; [|split; [|split; [|split]]].
  - intros Act Ext cb w w' icb H.
    destruct (registerOne_registers cb w icb w' H)
      as (_ & Hname & _ & Hseed & Hother & _).
    split; [exact Hseed|]. split; [exact Hother|].
    intros Hnone. rewrite Hname. unfold resolvedName, generatedName.
    now rewrite Hnone.
  - intros Act Ext cbs w w' H.
    destruct (registerCallbacks_returned cbs w w' H) as (l & w1 & Hm & Hu).
    destruct (mapM_registerOne_spec cbs w l w1 Hm)
      as (Hcb & Hseed & Hnames & _ & _).
    assert (Hseeds : callbackIdSeeds (timer w') = callbackIdSeeds (timer w1))
      by exact (f_equal (fun v => callbackIdSeeds (u_timer v)) Hu).
    assert (Hcbs : callbacks (timer w') = callbacks (timer w1))
      by exact (f_equal (fun v => callbacks (u_timer v)) Hu).
    split.
    + intros ty. rewrite <- Hseed. unfold seedOf. now rewrite Hseeds.
    + intros pre cb post Heq Hnone.
      destruct (Hnames pre cb post Heq Hnone) as (icb & Hl & Hn).
      exists icb. split; [|exact Hn].
      rewrite Hcbs, Hcb. rewrite lookup_app_r by lia.
      now replace (length (callbacks (timer w)) + length pre
                   - length (callbacks (timer w)))%nat with (length pre) by lia.
  - intros Act Ext names w w' H ty. unfold seedOf.
    now rewrite (removeCallbacks_seeds names w w' H).
  - intros []; vm_compute; reflexivity.
  - repeat split; vm_compute; reflexivity.
Qed.

Lemma sequence_counter_advances_witness :
  registerCallbacks
    [plainCallback Tick 10 1%nat (Some "first");
     plainCallback Checkpoint 20 2%nat None;
     plainCallback Tick 30 3%nat None]
    (freshTimer true [])
  = Returned tt
      (exec (registerCallbacks
               [plainCallback Tick 10 1%nat (Some "first");
                plainCallback Checkpoint 20 2%nat None;
                plainCallback Tick 30 3%nat None])
            (freshTimer true [])) /\
  exists icb,
    callbacks
      (timer (exec (registerCallbacks
                      [plainCallback Tick 10 1%nat (Some "first");
                       plainCallback Checkpoint 20 2%nat None;
                       plainCallback Tick 30 3%nat None])
                   (freshTimer true []))) !! 2%nat = Some icb /\
    cb_name icb = "tick-2".
Proof.
  assert (H : registerCallbacks
                [plainCallback Tick 10 1%nat (Some "first");
                 plainCallback Checkpoint 20 2%nat None;
                 plainCallback Tick 30 3%nat None]
                (freshTimer true [])
              = Returned tt
                  (exec (registerCallbacks
                           [plainCallback Tick 10 1%nat (Some "first");
                            plainCallback Checkpoint 20 2%nat None;
                            plainCallback Tick 30 3%nat None])
                        (freshTimer true [])))
    by (vm_compute; reflexivity).
  split; [exact H|].
  destruct sequence_counter_advances as (_ & Hgen & _).
  destruct (Hgen _ _ _ _ _ H) as [_ Hnames].
  destruct (Hnames [plainCallback Tick 10 1%nat (Some "first");
                    plainCallback Checkpoint 20 2%nat None]
              (plainCallback Tick 30 3%nat None) [] eq_refl eq_refl)
    as (icb & Hl & Hn).
  exists icb. split; [exact Hl|]. rewrite Hn. vm_compute. reflexivity.
Defined.

(** C7, at the failing input.  After a tick registered as [tick-2], the
    counter of the kind reads 2 and a tick that omits its name resolves
    to [tick-2]: the registration is refused and the timer is unchanged,
    but the message interpolates [callback.name], which is [undefined]
    here; the same conflict with the name written out reports the name. *)
Theorem autogenerated_conflict_reports_undefined :
  resolvedName (plainCallback Tick 500 2%nat None) (timer timerWithTick2)
  = "tick-2" /\
  bool_decide ("tick-2" ∈ namesOf (timer timerWithTick2) Tick) = true /\
  registerCallbacks [plainCallback Tick 500 2%nat None] timerWithTick2
  = Thrown (NameConflictError Tick None) timerWithTick2 /\
  registerCallbacks [plainCallback Tick 500 2%nat (Some "tick-2")]
    timerWithTick2
  = Thrown (NameConflictError Tick (Some "tick-2")) timerWithTick2.
Proof. repeat split; vm_compute; reflexivity. Qed.

(** [removeCallbacks] takes the first callback of the name out of the
    registry but the name out of the set of every kind: the tick [a] stays
    registered, and a second tick [a] is accepted. *)
Lemma removal_frees_name_of_other_kind :
  map (fun cb => (cb_type cb, cb_name cb))
    (callbacks (timer afterRemovingSharedName)) = [(Tick, "a")] /\
  bool_decide ("a" ∈ namesOf (timer afterRemovingSharedName) Tick) = false /\
  exists w',
    registerCallbacks [plainCallback Tick 500 3%nat (Some "a")]
      afterRemovingSharedName = Returned tt w' /\
    map (fun cb => (cb_type cb, cb_name cb)) (callbacks (timer w'))
    = [(Tick, "a"); (Tick, "a")].
Proof.
  split; [vm_compute; reflexivity|]. split; [vm_compute; reflexivity|].
  eexists. split; vm_compute; reflexivity.
Qed.

(** ** C6: a disposed timer *)

Section Disposed.
Context {Act Ext : Type}.
Variable applyAction : Act -> M Act Ext unit.
Variable this_unpause : bool -> M Act Ext unit.

(** The operations that begin with [checkDisposed] throw on a disposed
    timer and leave it as it was. *)
Lemma disposed_operations_throw (w : World Act Ext) :
  disposed (timer w) = true ->
  let e := DisposedError (timer_name (timer w)) in
  getElapsedMs w = Thrown e w /\
  getState w = Thrown e w /\
  (forall b, pause applyAction b w = Thrown e w) /\
  (forall b, unpause applyAction b w = Thrown e w) /\
  (forall ms b, addTime applyAction this_unpause ms b w = Thrown e w) /\
  (forall ms b, setTime applyAction this_unpause ms b w = Thrown e w) /\
  (forall cbs, registerCallbacks cbs w = Thrown e w) /\
  (forall names, removeCallbacks names w = Thrown e w) /\
  removeAllCallbacks w = Thrown e w.
Proof.
  intros Hd e.
  pose proof (checkDisposed_disposed w Hd) as Hc.
  repeat split; intros;
    try (unfold getElapsedMs, getState, pause, unpause, addTime, setTime,
           registerCallbacks, removeCallbacks, removeAllCallbacks;
         now rewrite (bind_thrown _ _ _ _ _ Hc)).
Qed.

End Disposed.

(** C6, at the failing input.  On a paused timer that has been disposed
    [getElapsedMs] throws, but [setSpeedMultiplier(2)] returns: it does not
    begin with [checkDisposed], it sets the speed and appends a [setSpeed]
    event. *)
Theorem setSpeedMultiplier_on_disposed_timer :
  disposed (timer disposedTimer) = true /\
  getElapsedMs disposedTimer
  = Thrown (DisposedError "timer-1") disposedTimer /\
  speed (timer disposedTimer) = 1%Q /\
  history (timer disposedTimer) = [] /\
  exists w',
    SuperTimer.setSpeedMultiplier 2 disposedTimer = Returned tt w' /\
    speed (timer w') = 2%Q /\
    tags (history (timer w')) = [(EvSetSpeed, None)].
Proof.
  split; [reflexivity|]. split; [vm_compute; reflexivity|].
  split; [reflexivity|]. split; [reflexivity|].
  eexists. split; [vm_compute; reflexivity|]. split; reflexivity.
Qed.

(** ** C4: the time remaining of a countdown *)

Section Countdown.
Implicit Types w : World SuperCountdown.Act SuperCountdown.Fields.

Lemma getTimeRemaining_live w :
  disposed (timer w) = false ->
  SuperCountdown.getTimeRemaining w
  = Returned (SuperCountdown.completeTime (ext w)
              - inject_Z (elapsedAt (timer w) (now (host w))))%Q w.
Proof.
  intros Hlive. unfold SuperCountdown.getTimeRemaining.
  now rewrite (bind_returned _ _ _ _ _ (getElapsedMs_live w Hlive)).
Qed.

Lemma isDone_live w :
  disposed (timer w) = false ->
  SuperCountdown.isDone w
  = Returned (Qleb (SuperCountdown.completeTime (ext w)
                    - inject_Z (elapsedAt (timer w) (now (host w)))) 0) w.
Proof.
  intros Hlive. unfold SuperCountdown.isDone.
  now rewrite (bind_returned _ _ _ _ _ (getTimeRemaining_live w Hlive)).
Qed.

Lemma UserFn_inert (fuel : nat) (f : nat) :
  inert (SuperCountdown.applyAction fuel) (SuperCountdown.UserFn f).
Proof. intros w. now destruct fuel. Qed.

Lemma countdownOk_updatesInert (fuel : nat) w :
  countdownOk w -> updatesInert (SuperCountdown.applyAction fuel) (callbacks (timer w)).
Proof.
  intros Hok cb Hin Hu.
  destruct (cb_callback cb) as [f|] eqn:Ha; [apply UserFn_inert|].
  destruct (Hok cb Hin Ha) as [Hf _]. congruence.
Qed.

(** A jump that ends before the total does not cross the completion
    handler. *)
Lemma countdownOk_crossedInert (fuel : nat) w (ms : Q) :
  countdownOk w ->
  (inject_Z (elapsedAt (timer w) (now (host w))) + ms
   < SuperCountdown.completeTime (ext w))%Q ->
  crossedInert (SuperCountdown.applyAction fuel) w ms.
Proof.
  intros Hok Hlt cb Hin.
  apply (crossedCallbacks_spec w ms) in Hin as (Hin & _ & _ & Hhi).
  destruct (cb_callback cb) as [f|] eqn:Ha; [apply UserFn_inert|].
  destruct (Hok cb Hin Ha) as [_ Ht]. lra.
Qed.

(** A backward jump crosses nothing. *)
Lemma backward_crossedInert (fuel : nat) w (ms : Q) :
  (ms <= 0)%Q -> crossedInert (SuperCountdown.applyAction fuel) w ms.
Proof.
  intros Hms cb Hin.
  destruct (crossedCallbacks_spec w ms) as (_ & _ & _ & Hnone).
  rewrite (Hnone Hms) in Hin. destruct Hin.
Qed.

(** The adjustment of a paused countdown whose completion handler is not
    crossed: the elapsed time moves by [ms] and nothing else of the clock
    does. *)
Lemma countdown_adjust (fuel : nat) (first : TimerEventType)
    (data : option EventData) (ms : Q) (suppress : bool) w :
  disposed (timer w) = false -> running (timer w) = false ->
  countdownOk w ->
  crossedInert (SuperCountdown.applyAction fuel) w ms ->
  exists w',
    (pushEvent first (inject_Z (elapsedAt (timer w) (now (host w)))) data >>
     _addTime (SuperCountdown.applyAction fuel) (SuperCountdown.unpause_ (SuperCountdown.applyAction fuel)) ms suppress) w
    = Returned tt w' /\
    disposed (timer w') = false /\ running (timer w') = false /\
    elapsedMs (timer w') = (elapsedMs (timer w) + ms)%Q /\
    ext w' = ext w.
Proof.
  intros Hlive Hrun Hok Hcross. unfold bind at 1, pushEvent, modify.
  match goal with |- context [_addTime _ _ _ _ ?w0] => set (w1 := w0) end.
  destruct (wp_returned _ _ _
              (_addTime_paused (SuperCountdown.applyAction fuel)
                 (SuperCountdown.unpause_ (SuperCountdown.applyAction fuel)) ms suppress w1 Hlive Hrun
                 (countdownOk_updatesInert fuel w Hok)
                 (fun _ => Hcross)))
    as ([] & w' & Hm & Hc & _).
  exists w'. split; [exact Hm|].
  core_facts Hc. simpl in *. unfold running. rewrite E, E0, E2, E12.
  repeat split; assumption.
Qed.

Lemma elapsedAt_paused {Act} (t : SuperTimerBase Act) (hostNow : Q) :
  running t = false -> elapsedAt t hostNow = Math_round (elapsedMs t).
Proof. intros H. unfold elapsedAt. now rewrite H. Qed.

(** C4 (amended).  On a countdown that is not disposed,
    [SuperCountdown.getTimeRemaining()] is the total minus the elapsed milliseconds and
    [SuperCountdown.isDone()] is whether that is at most 0; [addTime(ms)] is the
    [addTime(-ms)] of the engine and [setTimeRemaining(ms)] its
    [setTime(total - ms)].  On a paused countdown whose completion handler
    is registered as the constructor registers it, adding a whole number
    [k >= 0] of milliseconds makes the remaining time larger by [k]; and
    [setTimeRemaining(ms)], with [ms > 0] and [total - ms] a whole number,
    leaves [ms] remaining and [SuperCountdown.isDone()] false. *)
Theorem countdown_time_remaining (fuel : nat) w :
  disposed (timer w) = false ->
  let T := SuperCountdown.completeTime (ext w) in
  let E := elapsedAt (timer w) (now (host w)) in
  SuperCountdown.getTimeRemaining w = Returned (T - inject_Z E)%Q w /\
  SuperCountdown.isDone w = Returned (Qleb (T - inject_Z E) 0) w /\
  (forall ms suppress,
     SuperCountdown.addTime fuel ms suppress w
     = addTime (SuperCountdown.applyAction fuel) (SuperCountdown.unpause_ (SuperCountdown.applyAction fuel))
         (- ms)%Q suppress w) /\
  (forall ms suppress,
     SuperCountdown.setTimeRemaining fuel ms suppress w
     = setTime (SuperCountdown.applyAction fuel) (SuperCountdown.unpause_ (SuperCountdown.applyAction fuel))
         (T - ms)%Q suppress w) /\
  (running (timer w) = false -> countdownOk w ->
   (forall (k : Z) suppress, (0 <= k)%Z ->
      exists w' r',
        SuperCountdown.addTime fuel (inject_Z k) suppress w = Returned tt w' /\
        SuperCountdown.getTimeRemaining w' = Returned r' w' /\
        (r' == (T - inject_Z E) + inject_Z k)%Q) /\
   (forall ms suppress (j : Z),
      (0 < ms)%Q -> (T - ms == inject_Z j)%Q ->
      exists w' r',
        SuperCountdown.setTimeRemaining fuel ms suppress w = Returned tt w' /\
        SuperCountdown.getTimeRemaining w' = Returned r' w' /\
        (r' == ms)%Q /\
        SuperCountdown.isDone w' = Returned false w')).
Proof.
  intros Hlive T E.
  split; [now apply getTimeRemaining_live|].
  split; [now apply isDone_live|].
  split; [reflexivity|]. split; [reflexivity|].
  intros Hrun Hok.
  pose proof (Math_round_bounds (elapsedMs (timer w))) as [Hlo Hhi].
  assert (HE : E = Math_round (elapsedMs (timer w)))
    by (apply elapsedAt_paused; exact Hrun).
  rewrite <- HE in Hlo, Hhi.
  split.
  - intros k suppress Hk.
    assert (Hkq : (inject_Z 0 <= inject_Z k)%Q)
      by (rewrite <- (Zle_Qle 0 k); exact Hk).
    change (inject_Z 0) with 0%Q in Hkq.
    destruct (countdown_adjust fuel EvAddTime
                (Some (DataWillAdd (- inject_Z k)%Q)) (- inject_Z k)%Q
                suppress w Hlive Hrun Hok)
      as (w' & Hm & Hl' & Hr' & He' & Hx').
    { apply backward_crossedInert. lra. }
    exists w'. eexists. split; [|split].
    + unfold SuperCountdown.addTime, SuperCountdown.addTime_, addTime.
      rewrite (bind_returned _ _ _ _ _ (checkDisposed_live w Hlive)).
      rewrite (bind_returned _ _ _ _ _ (getElapsedMs_live w Hlive)).
      exact Hm.
    + now apply getTimeRemaining_live.
    + rewrite Hx'. fold T. rewrite (elapsedAt_paused _ _ Hr'), He'.
      assert (Hround : Math_round (elapsedMs (timer w) + - inject_Z k)
                       = (E - k)%Z).
      { apply Math_round_unique; unfold Z.sub;
          rewrite inject_Z_plus, inject_Z_opp; lra. }
      rewrite Hround. unfold Z.sub. rewrite inject_Z_plus, inject_Z_opp. ring.
  - intros ms suppress j Hms Hj.
    destruct (countdown_adjust fuel EvSetTime
                (Some (DataWillSet (T - ms)%Q)) (T - ms - inject_Z E)%Q
                suppress w Hlive Hrun Hok)
      as (w' & Hm & Hl' & Hr' & He' & Hx').
    { apply countdownOk_crossedInert; [exact Hok|]. fold E. fold T. lra. }
    assert (Hround : Math_round (elapsedMs (timer w) + (T - ms - inject_Z E))
                     = j).
    { apply Math_round_unique; lra. }
    exists w'. eexists. split; [|split; [|split]].
    + unfold SuperCountdown.setTimeRemaining, SuperCountdown.setTimeRemaining_, setTime.
      unfold bind at 1, gets at 1. fold T.
      rewrite (bind_returned _ _ _ _ _ (checkDisposed_live w Hlive)).
      rewrite (bind_returned _ _ _ _ _ (getElapsedMs_live w Hlive)).
      exact Hm.
    + now apply getTimeRemaining_live.
    + rewrite Hx'. fold T. rewrite (elapsedAt_paused _ _ Hr'), He', Hround.
      lra.
    + rewrite (isDone_live w' Hl'), Hx'. fold T.
      rewrite (elapsedAt_paused _ _ Hr'), He', Hround. f_equal.
      destruct (Qleb (T - inject_Z j) 0) eqn:Hq; [|reflexivity].
      apply Qleb_le in Hq. lra.
Qed.

End Countdown.

Lemma completedCountdown_ok : countdownOk completedCountdown.
Proof.
  unfold countdownOk.
  assert (Hcbs : map (fun cb => (cb_callback cb, cb_executeOnUpdate cb,
                                 cb_timeMs cb))
                   (callbacks (timer completedCountdown))
                 = [(SuperCountdown.CompleteInternal, false, 10000%Q)])
    by (vm_compute; reflexivity).
  assert (Ht : SuperCountdown.completeTime (ext completedCountdown) = 10000%Q)
    by (vm_compute; reflexivity).
  rewrite Ht. clear Ht.
  destruct (callbacks (timer completedCountdown)) as [|c [|c' l]];
    try discriminate.
  injection Hcbs as _ Hu Hm.
  intros cb [<-|[]] _. rewrite Hu, Hm. split; reflexivity.
Qed.

Lemma countdown_time_remaining_witness :
  disposed (timer completedCountdown) = false /\
  running (timer completedCountdown) = false /\
  remainingOf completedCountdown = Some 0%Q /\
  doneOf completedCountdown = Some true /\
  exists w' r',
    SuperCountdown.setTimeRemaining 1 5000 false completedCountdown
    = Returned tt w' /\
    SuperCountdown.getTimeRemaining w' = Returned r' w' /\
    (r' == 5000)%Q /\
    SuperCountdown.isDone w' = Returned false w'.
Proof.
  split; [reflexivity|]. split; [reflexivity|].
  split; [vm_compute; reflexivity|]. split; [vm_compute; reflexivity|].
  destruct (countdown_time_remaining 1 completedCountdown eq_refl)
    as (_ & _ & _ & _ & H).
  destruct (H eq_refl completedCountdown_ok) as [_ Hset].
  apply (Hset 5000%Q false 5000%Z); reflexivity.
Defined.

(** C4, as stated, fails.  Adding 1000 to a paused countdown with 7000
    remaining leaves 8000 remaining: a positive [ms] extends the remaining
    time.  And on a countdown of 10000.5, [setTimeRemaining(5000)] leaves
    4999.5 remaining. *)
Lemma countdown_addTime_extends_remaining :
  running (timer countdownAt3000) = false /\
  remainingOf countdownAt3000 = Some 7000%Q /\
  remainingOf (exec (SuperCountdown.addTime 1 1000 false) countdownAt3000)
  = Some 8000%Q /\
  ~ (8000 < 7000)%Q /\
  remainingOf fractionalCountdown = Some (20001 # 2) /\
  remainingOf
    (exec (SuperCountdown.setTimeRemaining 1 5000 false) fractionalCountdown)
  = Some (9999 # 2).
Proof.
  repeat split; try (vm_compute; reflexivity).
  intros H. discriminate H.
Qed.

(** ** C8: the three maps of host registrations *)

Section Maps.
Context {Act Ext : Type}.
Variable applyAction : Act -> M Act Ext unit.
Implicit Types w : World Act Ext.

Lemma nm_get_delete_eq (k : string) (m : NameMap) :
  nm_get k (nm_delete k m) = None.
Proof.
  induction m as [|[k' v] m IH]; simpl; [reflexivity|].
  destruct (String.eqb k k') eqn:E; [exact IH|]. simpl. now rewrite E.
Qed.

Lemma nm_get_delete_none (n k : string) (m : NameMap) :
  nm_get n m = None -> nm_get n (nm_delete k m) = None.
Proof.
  induction m as [|[k' v] m IH]; simpl; [reflexivity|].
  destruct (String.eqb n k') eqn:En; [discriminate|]. intros H.
  destruct (String.eqb k k'); [now apply IH|]. simpl. rewrite En. now apply IH.
Qed.

Lemma nm_get_set (n k : string) (h : nat) (m : NameMap) :
  nm_get n (nm_set k h m) <> None -> n = k \/ nm_get n m <> None.
Proof.
  induction m as [|[k' v] m IH]; simpl.
  - destruct (String.eqb n k) eqn:E; [|easy].
    apply String.eqb_eq in E. now left.
  - destruct (String.eqb k k') eqn:Ek; simpl.
    + destruct (String.eqb n k') eqn:En; [|now right].
      intros _. right. easy.
    + destruct (String.eqb n k') eqn:En; [intros _; right; easy|exact IH].
Qed.

(** After [removeCallbacks] no removed name has an entry. *)
Lemma removeCallbacks_spec (names : list string) w :
  disposed (timer w) = false ->
  wp (removeCallbacks names) w (fun _ w' =>
    forall n, In n names \/ cleared w n -> cleared w' n).
Proof.
  intros Hlive. unfold removeCallbacks.
  apply wp_bind. unfold wp at 1. rewrite (checkDisposed_live w Hlive).
  clear Hlive. revert w.
  induction names as [|k names IH]; intros w; simpl.
  - unfold wp, ret. intros n [[]|H]. exact H.
  - apply wp_bind.
    match goal with |- wp ?body _ _ =>
      assert (Hbody : wp body w (fun _ w1 =>
                cleared w1 k /\ forall n, cleared w n -> cleared w1 n))
    end.
    { unfold bind at 1, gets at 1.
      unfold wp, cleared, bind, lib_clearTimeout, lib_clearInterval,
        lib_cancelAnimationFrame, modify_timer, modify, ret.
      destruct (nm_get k (timeouts (timer w))) eqn:H1;
      destruct (nm_get k (intervals (timer w))) eqn:H2;
      destruct (nm_get k (rafs (timer w))) eqn:H3; simpl;
      (split; [repeat split; first [apply nm_get_delete_eq | assumption]|]);
      intros x (G1 & G2 & G3);
      repeat split; first [now apply nm_get_delete_none | assumption]. }
    eapply wp_conseq; [exact Hbody|].
    intros [] w1 [Hk Hkeep].
    eapply wp_conseq; [apply IH|].
    intros [] w' H n [[<-|Hin]|Hc].
    + apply H. now right.
    + apply H. now left.
    + apply H. right. now apply Hkeep.
Qed.

(** What a dispatch of a registered callback with an inert function does
    to the three maps: at most a frame request under its name. *)
Lemma createEventAndInvokeCallback_maps (cb : InternalCallback Act)
    (ty : TimerEventType) w :
  disposed (timer w) = false ->
  inert applyAction (cb_callback cb) ->
  wp (createEventAndInvokeCallback applyAction (Registered cb) (Some ty) None)
    w (fun _ w' =>
      core w' = core w /\
      timeouts (timer w') = timeouts (timer w) /\
      intervals (timer w') = intervals (timer w) /\
      (rafs (timer w') = rafs (timer w) \/
       cb_requireAnimationFrame cb = true /\
       exists h, rafs (timer w') = nm_set (cb_name cb) h (rafs (timer w)))).
Proof.
  intros Hlive Hinert. unfold wp, createEventAndInvokeCallback.
  rewrite (bind_returned _ _ _ _ _ (getElapsedMs_live w Hlive)).
  unfold bind, pushEvent, modify, modify_timer. simpl.
  destruct (cb_requireAnimationFrame cb) eqn:Hraf; simpl.
  - unfold modify. simpl. repeat split. right. split; [reflexivity|].
    eexists. reflexivity.
  - unfold modify. simpl. unfold inert in Hinert. unfold bind. simpl.
    rewrite Hinert. repeat split.
    + unfold core. simpl. now rewrite stripLast_setLast.
    + now left.
Qed.

(** [pause()] on a running timer: the once and repeating maps are empty
    afterwards, and the frame map holds what the dispatch of the
    [executeOnUpdate] callbacks requested. *)
Lemma pause_false_running w :
  disposed (timer w) = false -> running (timer w) = true ->
  updatesInert applyAction (callbacks (timer w)) ->
  wp (pause applyAction false) w (fun r w' =>
    r = true /\ timeouts (timer w') = [] /\ intervals (timer w') = [] /\
    framesOfUpdates w').
Proof.
  intros Hlive Hrun Hupd. unfold pause.
  apply wp_bind. unfold wp at 1. rewrite (checkDisposed_live w Hlive).
  apply wp_bind. unfold wp at 1, gets. rewrite Hrun. simpl.
  apply wp_bind. unfold wp at 1, modify.
  apply wp_bind. unfold wp at 1, modify_timer, modify.
  apply wp_bind. unfold wp at 1, gets.
  apply wp_bind. unfold wp at 1, pushEvent, modify.
  apply wp_bind.
  eapply wp_conseq; [apply clearTimeouts_spec|].
  intros [] w1 (Hu & Hto & Hiv & _). destruct (Hiv eq_refl) as [Hi Hr].
  pose proof (unscheduled_core _ _ Hu) as Hc1.
  assert (Hl1 : disposed (timer w1) = false)
    by (rewrite (core_disposed _ _ Hc1); exact Hlive).
  assert (Hcb1 : callbacks (timer w1) = callbacks (timer w))
    by exact (unscheduled_callbacks _ _ Hu).
  apply wp_bind. simpl. unfold executeUpdateCallbacks.
  apply wp_bind. unfold wp at 1, gets. rewrite Hcb1.
  set (Inv := fun w' : World Act Ext =>
    core w' = core w1 /\ timeouts (timer w') = [] /\
    intervals (timer w') = [] /\
    forall n, nm_get n (rafs (timer w')) <> None ->
      exists cb, In cb (callbacks (timer w)) /\ cb_name cb = n /\
        cb_executeOnUpdate cb = true /\ cb_requireAnimationFrame cb = true).
  eapply wp_conseq.
  { apply (wp_forM_inv Inv).
    - unfold Inv. repeat split; try assumption.
      intros n Hn. rewrite Hr in Hn. now elim Hn.
    - intros cb w2 Hin (Hc2 & Ht2 & Hi2 & Hr2).
      destruct (cb_executeOnUpdate cb) eqn:Hu2; simpl;
        [|unfold wp, ret; unfold Inv; repeat split; assumption].
      eapply wp_conseq.
      { apply createEventAndInvokeCallback_maps.
        - rewrite (core_disposed _ _ Hc2). exact Hl1.
        - now apply Hupd. }
      intros [] w3 (Hc3 & Ht3 & Hi3 & Hr3). unfold Inv.
      split; [congruence|]. split; [congruence|]. split; [congruence|].
      intros n Hn. destruct Hr3 as [Hr3|(Hraf & h & Hr3)]; rewrite Hr3 in Hn.
      + now apply Hr2.
      + apply nm_get_set in Hn as [->|Hn]; [|now apply Hr2].
        exists cb. repeat split; assumption. }
  intros [] w4 (Hc4 & Ht4 & Hi4 & Hr4).
  unfold wp, ret. repeat split; try assumption.
  intros n Hn. destruct (Hr4 n Hn) as (cb & Hin & Hname & Hu4 & Hraf).
  assert (Hreg : map stripLast (callbacks (timer w4))
                 = map stripLast (callbacks (timer w))).
  { rewrite (core_registry _ _ Hc4). now rewrite Hcb1. }
  apply (in_map stripLast) in Hin. rewrite <- Hreg in Hin.
  apply in_map_iff in Hin as (cb' & Heq & Hin').
  exists cb'. split; [exact Hin'|].
  split; [|split].
  - exact (eq_trans (f_equal cb_name Heq) Hname).
  - exact (eq_trans (f_equal cb_executeOnUpdate Heq) Hu4).
  - exact (eq_trans (f_equal cb_requireAnimationFrame Heq) Hraf).
Qed.

End Maps.

(** C8 (amended).  On a timer that is not disposed, [removeCallbacks]
    leaves no entry of a removed name in any of the three maps.  Pausing a
    running timer empties the map of timeouts and the map of intervals;
    the map of frame requests is emptied too, and then holds only what the
    dispatch of the [executeOnUpdate] callbacks that require an animation
    frame puts there (nothing when that dispatch is suppressed).  A name
    may have live entries in several maps at once. *)
Theorem host_registration_maps (w : World SuperTimer.Act unit) :
  disposed (timer w) = false ->
  (forall names, exists w',
     removeCallbacks names w = Returned tt w' /\
     forall n, In n names -> cleared w' n) /\
  (running (timer w) = true ->
   (exists w',
      SuperTimer.pause true w = Returned true w' /\
      timeouts (timer w') = [] /\ intervals (timer w') = [] /\
      rafs (timer w') = []) /\
   (exists w',
      SuperTimer.pause false w = Returned true w' /\
      timeouts (timer w') = [] /\ intervals (timer w') = [] /\
      framesOfUpdates w')) /\
  liveEntries frameSyncedTick "t" = 2%nat.
Proof.
  intros Hlive. split; [|split].
  - intros names.
    destruct (wp_returned _ _ _ (removeCallbacks_spec names w Hlive))
      as ([] & w' & Hm & H).
    exists w'. split; [exact Hm|]. intros n Hin. apply H. now left.
  - intros Hrun. split.
    + destruct (wp_returned _ _ _
                  (pause_true_running SuperTimer.applyAction w Hlive Hrun))
        as (r & w' & Hm & -> & _ & Ht & Hi & Hr).
      exists w'. repeat split; assumption.
    + destruct (wp_returned _ _ _
                  (pause_false_running SuperTimer.applyAction w Hlive Hrun
                     (fun cb _ _ => SuperTimer_inert _)))
        as (r & w' & Hm & -> & Ht & Hi & Hr).
      exists w'. repeat split; assumption.
  - vm_compute. reflexivity.
Qed.

Lemma host_registration_maps_witness :
  disposed (timer frameSyncedTick) = false /\
  running (timer frameSyncedTick) = true /\
  exists w',
    removeCallbacks ["t"] frameSyncedTick = Returned tt w' /\
    cleared w' "t".
Proof.
  split; [vm_compute; reflexivity|]. split; [vm_compute; reflexivity|].
  assert (Hlive : disposed (timer frameSyncedTick) = false)
    by (vm_compute; reflexivity).
  destruct (host_registration_maps frameSyncedTick Hlive) as [Hrem _].
  destruct (Hrem ["t"]) as (w' & Hm & Hc).
  exists w'. split; [exact Hm|]. apply Hc. now left.
Defined.

(** C8, as stated, fails.  When the interval of a tick that requires an
    animation frame has fired, its name has a live entry in the map of
    intervals and one in the map of frame requests.  And after [pause()]
    the name of a callback that is dispatched on update and requires an
    animation frame has a live entry in the map of frame requests. *)
Lemma name_has_two_live_entries :
  nm_get "t" (intervals (timer frameSyncedTick)) = Some 1%nat /\
  nm_get "t" (rafs (timer frameSyncedTick)) = Some 2%nat /\
  map fst (pendingRepeating (host frameSyncedTick)) = [1%nat] /\
  map fst (pendingFrame (host frameSyncedTick)) = [2%nat] /\
  liveEntries frameSyncedTick "t" = 2%nat /\
  running (timer pausedWithFrameUpdate) = false /\
  nm_get "u" (rafs (timer pausedWithFrameUpdate)) = Some 3%nat /\
  liveEntries pausedWithFrameUpdate "u" = 1%nat.
Proof. repeat split; vm_compute; reflexivity. Qed.

(** * Further properties of the engine *)

Section Clock.
Context {Act Ext : Type}.
Variable applyAction : Act -> M Act Ext unit.
Implicit Types w : World Act Ext.

(** [pause] on a running timer, with the dispatch of the
    [executeOnUpdate] callbacks unless it is suppressed. *)
Lemma pause_running (suppress : bool) w :
  disposed (timer w) = false -> running (timer w) = true ->
  (suppress = false -> updatesInert applyAction (callbacks (timer w))) ->
  wp (pause applyAction suppress) w (fun r w' =>
    r = true /\ core w' = core (pausedWorld w) /\
    tags (history (timer w'))
    = tags (history (timer w))
      ++ (EvPause, None)
         :: (if suppress then [] else updateTags (callbacks (timer w))) /\
    calls w'
    = calls w ++ (if suppress then [] else updateCalls (callbacks (timer w)))).
Proof.
  intros Hlive Hrun Hupd. unfold pause.
  apply wp_bind. unfold wp at 1. rewrite (checkDisposed_live w Hlive).
  apply wp_bind. unfold wp at 1, gets. rewrite Hrun. simpl.
  apply wp_bind. unfold wp at 1, modify.
  apply wp_bind. unfold wp at 1, modify_timer, modify.
  apply wp_bind. unfold wp at 1, gets.
  apply wp_bind. unfold wp at 1, pushEvent, modify.
  apply wp_bind.
  eapply wp_conseq; [apply clearTimeouts_spec|].
  intros [] w1 (Hu & _).
  pose proof (unscheduled_core _ _ Hu) as Hc1.
  change (core w1 = core (pausedWorld w)) in Hc1.
  assert (Hh1 : history (timer w1) = history (timer (pausedWorld w)))
    by exact (unscheduled_history _ _ Hu).
  assert (Hcs1 : calls w1 = calls w) by exact (unscheduled_calls _ _ Hu).
  assert (Hcb1 : callbacks (timer w1) = callbacks (timer w))
    by exact (unscheduled_callbacks _ _ Hu).
  assert (Hl1 : disposed (timer w1) = false)
    by (rewrite (core_disposed _ _ Hc1); exact Hlive).
  apply wp_bind.
  destruct suppress; simpl.
  - unfold wp, ret. repeat split.
    + exact Hc1.
    + rewrite Hh1. unfold pausedWorld, tags. simpl. now rewrite map_app.
    + now rewrite Hcs1, app_nil_r.
  - eapply wp_conseq.
    { apply wp_emits. apply executeUpdateCallbacks_emits; [exact Hl1|].
      rewrite Hcb1. now apply Hupd. }
    intros [] w2 (Hc2 & Ht2 & Hcs2). unfold wp, ret. repeat split.
    + now rewrite Hc2.
    + rewrite Ht2, Hh1, Hcb1. unfold pausedWorld, tags. simpl.
      rewrite map_app. simpl. now rewrite <- app_assoc.
    + now rewrite Hcs2, Hcs1, Hcb1.
Qed.

End Clock.

Section Clock2.
Context {Act Ext : Type}.
Variable applyAction : Act -> M Act Ext unit.
Implicit Types w : World Act Ext.

Lemma elapsedAt_exact (t : SuperTimerBase Act) (hostNow : Q) :
  elapsedAt t hostNow = Math_round (exactElapsed t hostNow).
Proof. unfold elapsedAt, exactElapsed. now destruct (running t). Qed.

Lemma exactElapsed_core w w' (n : Q) :
  core w' = core w -> exactElapsed (timer w') n = exactElapsed (timer w) n.
Proof.
  intros H. core_facts H. unfold exactElapsed, running.
  now rewrite E0, E2, E3.
Qed.

Lemma core_now w w' : core w' = core w -> now (host w') = now (host w).
Proof. intros H. exact (f_equal c_now H). Qed.

Lemma core_speed w w' : core w' = core w -> speed (timer w') = speed (timer w).
Proof. intros H. exact (f_equal c_speed H). Qed.

Lemma core_unpausedAt w w' :
  core w' = core w -> unpausedAt (timer w') = unpausedAt (timer w).
Proof. intros H. exact (f_equal c_unpausedAt H). Qed.

Lemma core_elapsedMs w w' :
  core w' = core w -> elapsedMs (timer w') = elapsedMs (timer w).
Proof. intros H. exact (f_equal c_elapsedMs H). Qed.

(** The exact elapsed time of a timer resumed at [hostNow]. *)
Lemma exactElapsed_resumed (t : SuperTimerBase Act) (hostNow dt : Q) :
  (exactElapsed (set_unpausedAt (Some hostNow) t) (hostNow + dt)
   == elapsedMs t
      + (if Qeq_bool hostNow 0 then 0 else dt * speed t))%Q.
Proof.
  unfold exactElapsed, running. simpl.
  destruct (Qeq_bool hostNow 0); simpl; ring.
Qed.

(** [_addTime] on a running timer: the clock is stopped, moved, and
    started again at the same host time. *)
Lemma _addTime_running_core (ms : Q) (suppress : bool) w :
  disposed (timer w) = false -> running (timer w) = true ->
  updatesInert applyAction (callbacks (timer w)) ->
  (suppress = false -> crossedInert applyAction w ms) ->
  wp (_addTime applyAction (unpause applyAction) ms suppress) w (fun _ w' =>
    core w'
    = core (with_timer
              (fun t =>
                 set_unpausedAt (Some (now (host w)))
                   (set_elapsedMs (elapsedMs t + ms)%Q t))
              (pausedWorld w))).
Proof.
  intros Hlive Hrun Hupd Hwalk. unfold _addTime.
  apply wp_bind.
  eapply wp_conseq; [apply clearTimeouts_spec|].
  intros [] wa (Hua & _).
  pose proof (unscheduled_core _ _ Hua) as Hca.
  assert (Hla : disposed (timer wa) = false)
    by (rewrite (core_disposed _ _ Hca); exact Hlive).
  assert (Hra : running (timer wa) = true)
    by (rewrite (core_running _ _ Hca); exact Hrun).
  apply wp_bind.
  eapply wp_conseq; [apply (pause_true_running applyAction wa Hla Hra)|].
  intros r wb (-> & Hub & _).
  pose proof (unscheduled_core _ _ Hub) as Hcb_.
  assert (Hlb : disposed (timer wb) = false)
    by (rewrite (core_disposed _ _ Hcb_); exact Hla).
  assert (Hrb : running (timer wb) = false)
    by (rewrite (core_running _ _ Hcb_); reflexivity).
  apply wp_bind. unfold wp at 1. rewrite (getElapsedMs_live wb Hlb).
  rewrite (elapsedAt_core _ _ Hcb_), (elapsedAt_pausedWorld wa Hra),
    (elapsedAt_core _ _ Hca).
  apply wp_bind. unfold wp at 1, modify_timer, modify.
  apply wp_bind. unfold wp at 1, gets.
  match goal with |- wp _ ?w2 _ => set (wc := w2) end.
  assert (Hcb : callbacks (timer wc) = callbacks (timer w)).
  { unfold wc. simpl. rewrite (unscheduled_callbacks _ _ Hub). simpl.
    exact (unscheduled_callbacks _ _ Hua). }
  rewrite Hcb.
  assert (Hlc : disposed (timer wc) = false) by exact Hlb.
  assert (Hrc : running (timer wc) = false) by exact Hrb.
  assert (Hcc : core wc
                = core (with_timer
                          (fun t => set_elapsedMs (elapsedMs t + ms)%Q t)
                          (pausedWorld w))).
  { assert (Hcw : core wb = core (pausedWorld w)).
    { rewrite Hcb_. core_facts Hca. unfold core, pausedWorld. simpl.
      rewrite ?E, ?E0, ?E1, ?E2, ?E3, ?E4, ?E5, ?E6, ?E7, ?E8, ?E9, ?E10,
        ?E11, ?E12.
      reflexivity. }
    core_facts Hcw. unfold wc, core. simpl.
    simpl in E, E0, E1, E2, E3, E4, E5, E6, E7, E8, E9, E10, E11, E12.
    rewrite ?E, ?E0, ?E1, ?E2, ?E3, ?E4, ?E5, ?E6, ?E7, ?E8, ?E9, ?E10,
      ?E11, ?E12.
    reflexivity. }
  apply wp_bind.
  eapply wp_conseq.
  { apply wp_emits.
    apply (walk_emits applyAction (elapsedAt (timer w) (now (host w))) ms suppress
             (sortByTimeMs (List.filter isCheckpoint (callbacks (timer w))))
             wc Hlc).
    intros Hs cb Hin. now apply (Hwalk Hs). }
  intros [] w3 (Hc3 & Ht3 & Hcs3).
  apply wp_bind.
  eapply wp_conseq.
  { apply wp_emits.
    apply (executeUpdateCallbacks_emits_core applyAction w3 wc Hc3 Hlc).
    rewrite Hcb. exact Hupd. }
  intros [] w4 (Hc4 & Ht4 & Hcs4).
  assert (Hc4c : core w4 = core wc) by now rewrite Hc4.
  apply wp_bind. unfold wp at 1, gets.
  rewrite (core_running _ _ Hc4c), Hrc. simpl.
  assert (Hupd_c : updatesInert applyAction (callbacks (timer wc)))
    by (rewrite Hcb; exact Hupd).
  eapply wp_conseq.
  { apply (unpause_paused applyAction true w4).
    - rewrite (core_disposed _ _ Hc4c). exact Hlc.
    - rewrite (core_running _ _ Hc4c). exact Hrc.
    - now apply (updatesInert_core applyAction wc w4 Hc4c). }
  intros [] w5 (Hc5 & _).
  rewrite Hc5.
  assert (Hc4w : core w4 = core (with_timer
                          (fun t => set_elapsedMs (elapsedMs t + ms)%Q t)
                          (pausedWorld w))) by now rewrite Hc4c.
  core_facts Hc4w. unfold core. simpl.
  simpl in E, E0, E1, E2, E3, E4, E5, E6, E7, E8, E9, E10, E11, E12.
  rewrite ?E, ?E1, ?E2, ?E3, ?E4, ?E5, ?E6, ?E7, ?E8, ?E9, ?E10, ?E11, ?E12.
  reflexivity.
Qed.

(** What [_addTime] does to the clock. *)
Lemma _addTime_clock (ms : Q) (suppress : bool) w :
  disposed (timer w) = false ->
  updatesInert applyAction (callbacks (timer w)) ->
  (suppress = false -> crossedInert applyAction w ms) ->
  wp (_addTime applyAction (unpause applyAction) ms suppress) w (fun _ w' =>
    disposed (timer w') = false /\
    now (host w') = now (host w) /\
    speed (timer w') = speed (timer w) /\
    running (timer w')
    = (running (timer w) && negb (Qeq_bool (now (host w)) 0)) /\
    (exactElapsed (timer w') (now (host w'))
     == exactElapsed (timer w) (now (host w)) + ms)%Q).
Proof.
  intros Hlive Hupd Hwalk.
  destruct (running (timer w)) eqn:Hrun.
  - eapply wp_conseq;
      [apply (_addTime_running_core ms suppress w Hlive Hrun Hupd Hwalk)|].
    intros [] w' Hc.
    rewrite (core_disposed _ _ Hc), (core_now _ _ Hc), (core_speed _ _ Hc),
      (core_running _ _ Hc), (exactElapsed_core _ _ _ Hc).
    simpl. repeat split; try assumption.
    unfold exactElapsed at 2. rewrite Hrun.
    unfold exactElapsed, running. simpl.
    destruct (Qeq_bool (now (host w)) 0); simpl; ring.
  - eapply wp_conseq;
      [apply (_addTime_paused applyAction (unpause applyAction) ms suppress w
                Hlive Hrun Hupd Hwalk)|].
    intros [] w' (Hc & _).
    rewrite (core_disposed _ _ Hc), (core_now _ _ Hc), (core_speed _ _ Hc),
      (core_running _ _ Hc), (exactElapsed_core _ _ _ Hc).
    simpl. repeat split; try assumption.
    unfold exactElapsed, running in *. simpl. rewrite Hrun. reflexivity.
Qed.

End Clock2.

Section Clock3.
Context {Act Ext : Type}.
Variable applyAction : Act -> M Act Ext unit.
Implicit Types w : World Act Ext.

Lemma createEventAndInvokeCallback_armed (cb : InternalCallback Act)
    (ty : TimerEventType) w :
  disposed (timer w) = false ->
  inert applyAction (cb_callback cb) ->
  keeps (fun w => (armed w, disposed (timer w)))
    (createEventAndInvokeCallback applyAction (Registered cb) (Some ty) None) w.
Proof.
  intros Hlive Hinert. unfold keeps, createEventAndInvokeCallback.
  rewrite (bind_returned _ _ _ _ _ (getElapsedMs_live w Hlive)).
  unfold inert in Hinert.
  unfold bind, pushEvent, modify, lib_requestAnimationFrame, modify_timer,
    modify, setLastExecution, executeCallback, bind, modify, modify_timer,
    modify.
  simpl. destruct (cb_requireAnimationFrame cb); simpl.
  - eexists _, _. split; reflexivity.
  - rewrite Hinert. eexists _, _. split; reflexivity.
Qed.

Lemma executeUpdateCallbacks_armed w :
  disposed (timer w) = false ->
  updatesInert applyAction (callbacks (timer w)) ->
  keeps (fun w => (armed w, disposed (timer w)))
    (executeUpdateCallbacks applyAction) w.
Proof.
  intros Hlive Hupd.
  set (V := fun w : World Act Ext => (armed w, disposed (timer w))).
  change (keeps V
            (forM_ (callbacks (timer w)) (fun callback =>
               when (cb_executeOnUpdate callback)
                 (createEventAndInvokeCallback applyAction
                    (Registered callback)
                    (Some (updateEventType callback)) None))) w).
  apply keeps_forM_. intros cb w' Hin HV. apply keeps_when. intros Hu.
  apply createEventAndInvokeCallback_armed.
  - pose proof (f_equal snd HV) as Hd. simpl in Hd. now rewrite Hd.
  - now apply Hupd.
Qed.

(** [unpause] when the host clock reads 0: [unpausedAt] is set to 0,
    which reads as paused, so nothing is (re)scheduled. *)
Lemma unpause_clock_zero_armed (b : bool) w :
  disposed (timer w) = false -> running (timer w) = false ->
  (now (host w) == 0)%Q ->
  updatesInert applyAction (callbacks (timer w)) ->
  wp (unpause applyAction b) w (fun _ w' => armed w' = armed w).
Proof.
  intros Hlive Hrun Hzero Hupd. unfold unpause.
  apply wp_bind. unfold wp at 1. rewrite (checkDisposed_live w Hlive).
  apply wp_bind. unfold wp at 1, gets. rewrite Hrun.
  apply wp_bind. unfold wp at 1, modify.
  apply wp_bind. unfold wp at 1.
  rewrite getElapsedMs_live by exact Hlive.
  apply wp_bind. unfold wp at 1, pushEvent, modify.
  apply wp_bind. unfold wp at 1, gets.
  match goal with |- wp _ ?w2 _ => set (w2_ := w2) end.
  assert (Hr2 : running (timer w2_) = false).
  { unfold w2_, running. simpl. apply Qeq_bool_iff in Hzero.
    now rewrite Hzero. }
  apply wp_bind. unfold wp at 1, startCallbacks, bind, gets.
  rewrite Hr2. simpl.
  eapply wp_conseq.
  { apply (wp_keeps _ _ _ (executeUpdateCallbacks_armed w2_ Hlive Hupd)). }
  intros [] w' HV. exact (f_equal fst HV).
Qed.

(** [setSpeedMultiplier] with a speed other than the current one. *)
Lemma setSpeedMultiplier_changed (s : Q) w :
  disposed (timer w) = false ->
  Qeq_bool s (speed (timer w)) = false ->
  updatesInert applyAction (callbacks (timer w)) ->
  wp (setSpeedMultiplier applyAction (unpause applyAction) s) w (fun _ w' =>
    speed (timer w') = s /\
    now (host w') = now (host w) /\
    unpausedAt (timer w')
    = (if running (timer w) then Some (now (host w))
       else unpausedAt (timer w)) /\
    elapsedMs (timer w') = exactElapsed (timer w) (now (host w)) /\
    tags (history (timer w'))
    = tags (history (timer w))
      ++ (if running (timer w)
          then (EvPause, None) :: updateTags (callbacks (timer w)) else [])
      ++ (EvSetSpeed, None)
         :: (if running (timer w)
             then (EvUnpause, None) :: updateTags (callbacks (timer w))
             else [])).
Proof.
  intros Hlive Hne Hupd. unfold setSpeedMultiplier.
  apply wp_bind. unfold wp at 1, gets. rewrite Hne. simpl.
  apply wp_bind.
  destruct (running (timer w)) eqn:Hrun.
  - apply wp_bind.
    eapply wp_conseq;
      [apply (pause_running applyAction false w Hlive Hrun (fun _ => Hupd))|].
    intros r w1 (-> & Hc1 & Ht1 & _). unfold wp at 1, ret.
    apply wp_bind. unfold wp at 1, modify_timer, modify.
    apply wp_bind. unfold wp at 1, gets.
    apply wp_bind. unfold wp at 1, pushEvent, modify. simpl.
    match goal with |- wp _ ?w2 _ => set (w3 := w2) end.
    assert (Hl3 : disposed (timer w3) = false).
    { unfold w3. simpl. rewrite (core_disposed _ _ Hc1). exact Hlive. }
    assert (Hr3 : running (timer w3) = false).
    { unfold w3. simpl.
      change (running (timer w1) = false).
      now rewrite (core_running _ _ Hc1). }
    assert (Hcb3 : map stripLast (callbacks (timer w3))
                   = map stripLast (callbacks (timer w))).
    { unfold w3. simpl. exact (core_registry _ _ Hc1). }
    assert (Hu3 : updatesInert applyAction (callbacks (timer w3))).
    { apply updatesInert_strip. rewrite Hcb3. now apply updatesInert_strip. }
    eapply wp_conseq; [apply (unpause_paused applyAction false w3 Hl3 Hr3 Hu3)|].
    intros [] w4 (Hc4 & Ht4 & _).
    core_facts Hc1. core_facts Hc4.
    simpl in E, E0, E1, E2, E3, E4, E5, E6, E7, E8, E9, E10, E11, E12.
    simpl in E13, E14, E15, E16, E17, E18, E19, E20, E21, E22, E23, E24,
      E25, E26.
    repeat split.
    + exact E17.
    + now rewrite E23, E9.
    + now rewrite E14, E9.
    + rewrite E16, E2. unfold exactElapsed. now rewrite Hrun.
    + rewrite Ht4.
      rewrite <- (updateTags_strip (callbacks (timer w3))), Hcb3,
        updateTags_strip.
      assert (Hh3 : tags (history (timer w3))
                    = tags (history (timer w1)) ++ [(EvSetSpeed, None)]).
      { unfold w3, tags. simpl. now rewrite map_app. }
      rewrite Hh3, Ht1. rewrite <- !app_assoc. reflexivity.
  - unfold wp at 1, ret.
    apply wp_bind. unfold wp at 1, modify_timer, modify.
    apply wp_bind. unfold wp at 1, gets.
    apply wp_bind. unfold wp at 1, pushEvent, modify. simpl.
    unfold wp, ret. simpl. repeat split.
    + unfold exactElapsed. now rewrite Hrun.
    + unfold tags. now rewrite map_app.
Qed.

End Clock3.

(** ** The clock *)

Lemma SuperTimer_updatesInert (w : World SuperTimer.Act unit) :
  updatesInert SuperTimer.applyAction (callbacks (timer w)).
Proof. intros cb _ _. apply SuperTimer_inert. Qed.

(** X1.  [pause()] on a running timer returns [true] and stops the clock
    where it stands: the running segment, at the current speed, is added
    to the accumulated total, so the exact elapsed time is the same at
    every later host time as it was at the call.  The history gains a
    [pause] event, followed by the dispatch of the [executeOnUpdate]
    callbacks unless that is suppressed.  A second [pause()] returns
    [false] and changes nothing. *)
Theorem pause_freezes_clock (suppress : bool) (w : World SuperTimer.Act unit) :
  disposed (timer w) = false -> running (timer w) = true ->
  exists w',
    SuperTimer.pause suppress w = Returned true w' /\
    running (timer w') = false /\
    (forall t,
       exactElapsed (timer w') t = exactElapsed (timer w) (now (host w)) /\
       elapsedAt (timer w') t = elapsedAt (timer w) (now (host w))) /\
    tags (history (timer w'))
    = tags (history (timer w))
      ++ (EvPause, None)
         :: (if suppress then [] else updateTags (callbacks (timer w))) /\
    SuperTimer.pause suppress w' = Returned false w'.
Proof.
  intros Hlive Hrun.
  destruct (wp_returned _ _ _
              (pause_running SuperTimer.applyAction suppress w Hlive Hrun
                 (fun _ => SuperTimer_updatesInert w)))
    as (r & w' & Hm & -> & Hc & Ht & _).
  exists w'. split; [exact Hm|].
  assert (Hr' : running (timer w') = false)
    by (rewrite (core_running _ _ Hc); reflexivity).
  assert (Hx : forall t,
             exactElapsed (timer w') t = exactElapsed (timer w) (now (host w))).
  { intros t. rewrite (exactElapsed_core _ _ t Hc).
    unfold exactElapsed at 1. rewrite (core_running _ _ Hc) in Hr'.
    rewrite Hr'. unfold exactElapsed. rewrite Hrun. reflexivity. }
  repeat split.
  - exact Hr'.
  - apply Hx.
  - now rewrite !elapsedAt_exact, Hx.
  - exact Ht.
  - apply pause_not_running; [|exact Hr'].
    rewrite (core_disposed _ _ Hc). exact Hlive.
Qed.

Lemma pause_freezes_clock_witness :
  elapsedAt (timer runningTimer) (now (host runningTimer)) = 1235%Z /\
  exists w',
    SuperTimer.pause false runningTimer = Returned true w' /\
    running (timer w') = false /\
    elapsedAt (timer w') (now (host w') + 1000) = 1235%Z.
Proof.
  split; [vm_compute; reflexivity|].
  destruct (pause_freezes_clock false runningTimer eq_refl eq_refl)
    as (w' & Hm & Hr & Hx & _).
  exists w'. split; [exact Hm|]. split; [exact Hr|].
  rewrite (proj2 (Hx _)). vm_compute. reflexivity.
Defined.

(** X2.  [unpause()] on a paused timer, called while the host clock does
    not read 0, starts the clock from the accumulated total: [dt] later
    on the host the exact elapsed time is the total plus [dt] times the
    speed.  The argument of [unpause] changes nothing: the history gains
    an [unpause] event and the dispatch of the [executeOnUpdate]
    callbacks in either case.  A second [unpause()] changes nothing. *)
Theorem unpause_starts_clock (b : bool) (w : World SuperTimer.Act unit) :
  disposed (timer w) = false -> running (timer w) = false ->
  ~ (now (host w) == 0)%Q ->
  exists w',
    SuperTimer.unpause b w = Returned tt w' /\
    running (timer w') = true /\
    unpausedAt (timer w') = Some (now (host w)) /\
    (forall dt,
       (exactElapsed (timer w') (now (host w) + dt)
        == elapsedMs (timer w) + dt * speed (timer w))%Q) /\
    elapsedAt (timer w') (now (host w')) = elapsedAt (timer w) (now (host w)) /\
    tags (history (timer w'))
    = tags (history (timer w))
      ++ (EvUnpause, None) :: updateTags (callbacks (timer w)) /\
    forall b', SuperTimer.unpause b' w' = Returned tt w'.
Proof.
  intros Hlive Hrun Hnz.
  destruct (wp_returned _ _ _
              (unpause_paused SuperTimer.applyAction b w Hlive Hrun
                 (SuperTimer_updatesInert w)))
    as ([] & w' & Hm & Hc & Ht & _).
  exists w'. split; [exact Hm|].
  assert (Hb : Qeq_bool (now (host w)) 0 = false).
  { destruct (Qeq_bool (now (host w)) 0) eqn:E; [|reflexivity].
    apply Qeq_bool_iff in E. contradiction. }
  assert (Hr' : running (timer w') = true).
  { rewrite (core_running _ _ Hc). unfold running. simpl. now rewrite Hb. }
  assert (Hx : forall dt,
             (exactElapsed (timer w') (now (host w) + dt)
              == elapsedMs (timer w) + dt * speed (timer w))%Q).
  { intros dt. rewrite (exactElapsed_core _ _ _ Hc). simpl.
    rewrite exactElapsed_resumed. now rewrite Hb. }
  repeat split.
  - exact Hr'.
  - exact (core_unpausedAt _ _ Hc).
  - exact Hx.
  - rewrite (core_now _ _ Hc). simpl. rewrite elapsedAt_exact.
    rewrite (elapsedAt_paused _ _ Hrun).
    apply Math_round_comp. rewrite (exactElapsed_core _ _ _ Hc).
    unfold exactElapsed, running. simpl. rewrite Hb. simpl. ring.
  - exact Ht.
  - intros b'. unfold SuperTimer.unpause, unpause.
    rewrite (bind_returned _ _ _ _ _
               (checkDisposed_live w' (eq_trans (core_disposed _ _ Hc) Hlive))).
    unfold bind, gets. now rewrite Hr'.
Qed.

Lemma unpause_starts_clock_witness :
  exists w',
    SuperTimer.unpause false (freshTimer true []) = Returned tt w' /\
    running (timer w') = true /\
    (exactElapsed (timer w') (5 + 250) == 250)%Q.
Proof.
  assert (Hnz : ~ (now (host (freshTimer true [])) == 0)%Q)
    by (vm_compute; discriminate).
  destruct (unpause_starts_clock false (freshTimer true []) eq_refl eq_refl Hnz)
    as (w' & Hm & Hr & _ & Hx & _).
  exists w'. split; [exact Hm|]. split; [exact Hr|].
  exact (Hx 250%Q).
Defined.

(** X3.  [unpause()] called while the host clock reads 0 stores 0 in
    [unpausedAt], which every later test [!this.unpausedAt] reads as
    paused: the call returns and records an [unpause] event (and
    dispatches the [executeOnUpdate] callbacks), but the timer is still
    paused, its elapsed time never advances, and no timeout or interval
    is given to the host. *)
Theorem unpause_at_host_time_zero (b : bool) (w : World SuperTimer.Act unit) :
  disposed (timer w) = false -> running (timer w) = false ->
  (now (host w) == 0)%Q ->
  exists w',
    SuperTimer.unpause b w = Returned tt w' /\
    running (timer w') = false /\
    (forall t, elapsedAt (timer w') t = elapsedAt (timer w) (now (host w))) /\
    pendingOnce (host w') = pendingOnce (host w) /\
    pendingRepeating (host w') = pendingRepeating (host w) /\
    tags (history (timer w'))
    = tags (history (timer w))
      ++ (EvUnpause, None) :: updateTags (callbacks (timer w)).
Proof.
  intros Hlive Hrun Hz.
  destruct (wp_returned _ _ _
              (unpause_paused SuperTimer.applyAction b w Hlive Hrun
                 (SuperTimer_updatesInert w)))
    as ([] & w' & Hm & Hc & Ht & _).
  pose proof (unpause_clock_zero_armed SuperTimer.applyAction b w Hlive Hrun Hz
                (SuperTimer_updatesInert w)) as Ha.
  unfold wp in Ha. rewrite Hm in Ha.
  exists w'. split; [exact Hm|].
  assert (Hr' : running (timer w') = false).
  { rewrite (core_running _ _ Hc). unfold running. simpl.
    apply Qeq_bool_iff in Hz. now rewrite Hz. }
  repeat split.
  - exact Hr'.
  - intros t. rewrite (elapsedAt_paused _ _ Hr'), (elapsedAt_paused _ _ Hrun).
    now rewrite (core_elapsedMs _ _ Hc).
  - exact (f_equal (fun a => fst (fst (fst a))) Ha).
  - exact (f_equal (fun a => snd (fst (fst a))) Ha).
  - exact Ht.
Qed.

Lemma unpause_at_host_time_zero_witness :
  exists w',
    SuperTimer.unpause false timerAtClockZero = Returned tt w' /\
    running (timer w') = false /\
    elapsedAt (timer w') 60000 = 0%Z /\
    tags (history (timer w')) = [(EvUnpause, None)].
Proof.
  assert (Hz : (now (host timerAtClockZero) == 0)%Q) by reflexivity.
  destruct (unpause_at_host_time_zero false timerAtClockZero eq_refl eq_refl Hz)
    as (w' & Hm & Hr & Hx & _ & _ & Ht).
  exists w'. split; [exact Hm|]. split; [exact Hr|].
  split; [exact (Hx _)|exact Ht].
Defined.

(** X4.  [setSpeedMultiplier(s)] on a timer that is not disposed: with
    the current speed it changes nothing; with another speed it stores
    [s] and records a [setSpeed] event, and on a running timer it pauses
    before and resumes after, so that the time already elapsed is
    accounted at the old speed and the reading is the same immediately
    after the call as before it. *)
Theorem setSpeedMultiplier_keeps_reading (s : Q)
    (w : World SuperTimer.Act unit) :
  disposed (timer w) = false ->
  exists w',
    SuperTimer.setSpeedMultiplier s w = Returned tt w' /\
    (Qeq_bool s (speed (timer w)) = true -> w' = w) /\
    (Qeq_bool s (speed (timer w)) = false ->
     speed (timer w') = s /\
     elapsedMs (timer w') = exactElapsed (timer w) (now (host w)) /\
     elapsedAt (timer w') (now (host w')) = elapsedAt (timer w) (now (host w)) /\
     unpausedAt (timer w')
     = (if running (timer w) then Some (now (host w))
        else unpausedAt (timer w)) /\
     tags (history (timer w'))
     = tags (history (timer w))
       ++ (if running (timer w)
           then (EvPause, None) :: updateTags (callbacks (timer w)) else [])
       ++ (EvSetSpeed, None)
          :: (if running (timer w)
              then (EvUnpause, None) :: updateTags (callbacks (timer w))
              else [])).
Proof.
  intros Hlive.
  destruct (Qeq_bool s (speed (timer w))) eqn:Hs.
  - exists w. split; [|split; [reflexivity|discriminate]].
    unfold SuperTimer.setSpeedMultiplier, setSpeedMultiplier, bind, gets.
    now rewrite Hs.
  - destruct (wp_returned _ _ _
                (setSpeedMultiplier_changed SuperTimer.applyAction s w Hlive Hs
                   (SuperTimer_updatesInert w)))
      as ([] & w' & Hm & Hsp & Hn & Hu & He & Ht).
    exists w'. split; [exact Hm|]. split; [discriminate|]. intros _.
    repeat split; try assumption.
    rewrite !elapsedAt_exact. apply Math_round_comp.
    unfold exactElapsed at 1. unfold running at 1. rewrite Hu, He, Hn.
    destruct (running (timer w)) eqn:Hrun; simpl.
    + destruct (Qeq_bool (now (host w)) 0); simpl; ring.
    + unfold running in Hrun. rewrite Hrun. reflexivity.
Qed.

Lemma setSpeedMultiplier_keeps_reading_witness :
  exists w',
    SuperTimer.setSpeedMultiplier 2 runningTimer = Returned tt w' /\
    speed (timer w') = 2%Q /\
    elapsedAt (timer w') (now (host w')) = 1235%Z /\
    tags (history (timer w'))
    = [(EvUnpause, None); (EvPause, None); (EvSetSpeed, None);
       (EvUnpause, None)].
Proof.
  destruct (setSpeedMultiplier_keeps_reading 2 runningTimer eq_refl)
    as (w' & Hm & _ & H).
  destruct (H eq_refl) as (Hs & _ & Hr & _ & Ht).
  exists w'. split; [exact Hm|]. split; [exact Hs|].
  split; [rewrite Hr; vm_compute; reflexivity|].
  rewrite Ht. vm_compute. reflexivity.
Defined.

Lemma SuperTimer_crossedInert (w : World SuperTimer.Act unit) (ms : Q) :
  crossedInert SuperTimer.applyAction w ms.
Proof. intros cb _. apply SuperTimer_inert. Qed.

(** X5.  On a timer that is not disposed, running or paused,
    [addTime(d)] moves the exact elapsed time by [d], and [setTime(m)]
    moves it by [m] minus the rounded reading, which leaves it at [m]
    plus the rounding error of the old reading: [getElapsedMs()] then
    returns [m] when [m] is a whole number, and after [addTime(d)] with
    [d] whole it returns the old reading plus [d].  The host clock and
    the speed are unchanged. *)
Theorem time_adjustment_moves_clock (suppress : bool)
    (w : World SuperTimer.Act unit) :
  disposed (timer w) = false ->
  let total := exactElapsed (timer w) (now (host w)) in
  let reading := elapsedAt (timer w) (now (host w)) in
  (forall d, exists w',
     SuperTimer.addTime d suppress w = Returned tt w' /\
     now (host w') = now (host w) /\ speed (timer w') = speed (timer w) /\
     (exactElapsed (timer w') (now (host w')) == total + d)%Q) /\
  (forall m, exists w',
     SuperTimer.setTime m suppress w = Returned tt w' /\
     now (host w') = now (host w) /\ speed (timer w') = speed (timer w) /\
     (exactElapsed (timer w') (now (host w'))
      == m + (total - inject_Z reading))%Q) /\
  (forall k : Z, exists w',
     SuperTimer.addTime (inject_Z k) suppress w = Returned tt w' /\
     getElapsedMs w' = Returned (reading + k)%Z w') /\
  (forall k : Z, exists w',
     SuperTimer.setTime (inject_Z k) suppress w = Returned tt w' /\
     getElapsedMs w' = Returned k w').
Proof.
  intros Hlive total reading.
  assert (Hadj : forall ty data ms, exists w',
    (pushEvent ty (inject_Z reading) data >>
     _addTime SuperTimer.applyAction SuperTimer.unpause ms suppress) w
    = Returned tt w' /\
    disposed (timer w') = false /\
    now (host w') = now (host w) /\ speed (timer w') = speed (timer w) /\
    (exactElapsed (timer w') (now (host w')) == total + ms)%Q).
  { intros ty data ms. unfold bind at 1, pushEvent, modify.
    match goal with |- context [_addTime _ _ _ _ ?w1] => set (w1_ := w1) end.
    destruct (wp_returned _ _ _
                (_addTime_clock SuperTimer.applyAction ms suppress w1_ Hlive
                   (SuperTimer_updatesInert w1_)
                   (fun _ => SuperTimer_crossedInert w1_ ms)))
      as ([] & w' & Hm & Hl & Hn & Hs & _ & Hx).
    exists w'. repeat split; assumption. }
  assert (Hadd : forall d, exists w',
     SuperTimer.addTime d suppress w = Returned tt w' /\
     disposed (timer w') = false /\
     now (host w') = now (host w) /\ speed (timer w') = speed (timer w) /\
     (exactElapsed (timer w') (now (host w')) == total + d)%Q).
  { intros d. unfold SuperTimer.addTime, addTime.
    rewrite (bind_returned _ _ _ _ _ (checkDisposed_live w Hlive)).
    rewrite (bind_returned _ _ _ _ _ (getElapsedMs_live w Hlive)).
    apply Hadj. }
  assert (Hset : forall m, exists w',
     SuperTimer.setTime m suppress w = Returned tt w' /\
     disposed (timer w') = false /\
     now (host w') = now (host w) /\ speed (timer w') = speed (timer w) /\
     (exactElapsed (timer w') (now (host w'))
      == m + (total - inject_Z reading))%Q).
  { intros m. unfold SuperTimer.setTime, setTime.
    rewrite (bind_returned _ _ _ _ _ (checkDisposed_live w Hlive)).
    rewrite (bind_returned _ _ _ _ _ (getElapsedMs_live w Hlive)).
    destruct (Hadj EvSetTime (Some (DataWillSet m)) (m - inject_Z reading)%Q)
      as (w' & Hm & Hl & Hn & Hs & Hx).
    exists w'. repeat split; try assumption. rewrite Hx. ring. }
  split; [|split; [|split]].
  - intros d. destruct (Hadd d) as (w' & Hm & _ & H). now exists w'.
  - intros m. destruct (Hset m) as (w' & Hm & _ & H). now exists w'.
  - intros k. destruct (Hadd (inject_Z k)) as (w' & Hm & Hl & _ & _ & Hx).
    exists w'. split; [exact Hm|].
    rewrite (getElapsedMs_live w' Hl). f_equal.
    rewrite elapsedAt_exact, (Math_round_comp _ _ Hx).
    unfold reading. rewrite elapsedAt_exact. fold total.
    rewrite Z.add_comm, <- Math_round_shift. apply Math_round_comp. ring.
  - intros k. destruct (Hset (inject_Z k)) as (w' & Hm & Hl & _ & _ & Hx).
    exists w'. split; [exact Hm|].
    rewrite (getElapsedMs_live w' Hl). f_equal.
    rewrite elapsedAt_exact, (Math_round_comp _ _ Hx).
    rewrite Math_round_shift.
    assert (H0 : Math_round (total - inject_Z reading) = 0%Z).
    { unfold reading. rewrite elapsedAt_exact. fold total.
      destruct (Math_round_bounds total) as [Hlo Hhi].
      apply Math_round_unique; change (inject_Z 0) with 0%Q; lra. }
    rewrite H0. lia.
Qed.

Lemma time_adjustment_moves_clock_witness :
  elapsedAt (timer runningTimer) (now (host runningTimer)) = 1235%Z /\
  (exists w',
     SuperTimer.addTime (inject_Z (-235)) false runningTimer = Returned tt w' /\
     getElapsedMs w' = Returned 1000%Z w') /\
  (exists w',
     SuperTimer.setTime (inject_Z 60000) true runningTimer = Returned tt w' /\
     getElapsedMs w' = Returned 60000%Z w').
Proof.
  split; [vm_compute; reflexivity|]. split.
  - destruct (time_adjustment_moves_clock false runningTimer eq_refl)
      as (_ & _ & H & _).
    destruct (H (-235)%Z) as (w' & Hm & Hg). exists w'. split; [exact Hm|].
    rewrite Hg. f_equal.
  - destruct (time_adjustment_moves_clock true runningTimer eq_refl)
      as (_ & _ & _ & H).
    exact (H 60000%Z).
Defined.

Section Registry.
Context {Act Ext : Type}.
Implicit Types w : World Act Ext.

Lemma removeName_step (n k k' : string) (acc : gmap string (gset string)) :
  match acc !! k' with
  | Some s => <[k' := s ∖ {[n]}]> acc
  | None => acc
  end !! k
  = if String.eqb k k' then (fun s => s ∖ {[n]}) <$> acc !! k else acc !! k.
Proof.
  destruct (String.eqb k k') eqn:E.
  - apply String.eqb_eq in E. subst k'.
    destruct (acc !! k) eqn:Ek; simpl.
    + now rewrite lookup_insert_eq.
    + exact Ek.
  - apply String.eqb_neq in E.
    destruct (acc !! k'); [|reflexivity].
    now rewrite lookup_insert_ne by (intros ->; now apply E).
Qed.

Lemma removeName_lookup (n : string) (names : gmap string (gset string))
    (ty : CallbackType) :
  removeName n names !! type_str ty
  = (fun s => s ∖ {[n]}) <$> names !! type_str ty.
Proof.
  unfold removeName. simpl. rewrite !removeName_step.
  now destruct ty.
Qed.

Lemma namesOf_removeName (n : string) (t t' : SuperTimerBase Act)
    (ty : CallbackType) :
  callbackIdSeeds t' = callbackIdSeeds t ->
  callbackNames t' = removeName n (callbackNames t) ->
  namesOf t' ty = namesOf t ty ∖ {[n]}.
Proof.
  intros Hs Hn. unfold namesOf. rewrite Hs, Hn, removeName_lookup.
  destruct (callbackIdSeeds t !! type_str ty) as [[|k]|]; simpl;
    try (symmetry; apply leibniz_equiv; set_solver).
  destruct (callbackNames t !! type_str ty); simpl; [reflexivity|].
  symmetry. apply leibniz_equiv. set_solver.
Qed.

Lemma removeCallbacks_unfold (names : list string) w :
  disposed (timer w) = false ->
  removeCallbacks names w = forM_ names removeStep w.
Proof.
  intros Hlive. unfold removeCallbacks.
  now rewrite (bind_returned _ _ _ _ _ (checkDisposed_live w Hlive)).
Qed.

Lemma removeStep_spec (n : string) w :
  wp (removeStep n) w (fun _ w' =>
    callbacks (timer w') = removeFirstNamed n (callbacks (timer w)) /\
    callbackNames (timer w') = removeName n (callbackNames (timer w)) /\
    callbackIdSeeds (timer w') = callbackIdSeeds (timer w) /\
    clockAndHistory w' = clockAndHistory w /\
    cleared w' n /\ (forall x, cleared w x -> cleared w' x)).
Proof.
  unfold removeStep. unfold bind at 1, gets at 1.
  unfold wp, cleared, bind, lib_clearTimeout, lib_clearInterval,
    lib_cancelAnimationFrame, modify_timer, modify, ret.
  destruct (nm_get n (timeouts (timer w))) eqn:H1;
  destruct (nm_get n (intervals (timer w))) eqn:H2;
  destruct (nm_get n (rafs (timer w))) eqn:H3; simpl;
  (split; [reflexivity|]); (split; [reflexivity|]); (split; [reflexivity|]);
  (split; [reflexivity|]);
  (split; [repeat split; first [apply nm_get_delete_eq | assumption]|]);
  intros x (G1 & G2 & G3);
  repeat split; first [now apply nm_get_delete_none | assumption].
Qed.

(** [removeCallbacks] removes, for each name in turn, the first callback
    of that name. *)
Lemma removeCallbacks_registry (names : list string) w :
  disposed (timer w) = false ->
  wp (removeCallbacks names) w (fun _ w' =>
    callbacks (timer w')
    = fold_left (fun l n => removeFirstNamed n l) names (callbacks (timer w)) /\
    (forall ty,
       namesOf (timer w') ty = namesOf (timer w) ty ∖ list_to_set names) /\
    callbackIdSeeds (timer w') = callbackIdSeeds (timer w) /\
    clockAndHistory w' = clockAndHistory w /\
    (forall n, In n names \/ cleared w n -> cleared w' n)).
Proof.
  intros Hlive. unfold wp. rewrite (removeCallbacks_unfold names w Hlive).
  clear Hlive. revert w.
  induction names as [|k names IH]; intros w; simpl.
  - unfold ret. split; [reflexivity|]. split; [|split; [|split]];
      try reflexivity.
    + intros ty. apply leibniz_equiv. set_solver.
    + intros n [[]|H]. exact H.
  - fold (wp (removeStep k >> forM_ names removeStep) w (fun _ w' =>
      callbacks (timer w')
      = fold_left (fun l n => removeFirstNamed n l) names
          (removeFirstNamed k (callbacks (timer w))) /\
      (forall ty,
         namesOf (timer w') ty
         = namesOf (timer w) ty ∖ ({[k]} ∪ list_to_set names)) /\
      callbackIdSeeds (timer w') = callbackIdSeeds (timer w) /\
      clockAndHistory w' = clockAndHistory w /\
      (forall n, (k = n \/ In n names) \/ cleared w n -> cleared w' n))).
    apply wp_bind.
    eapply wp_conseq; [apply removeStep_spec|].
    intros [] w1 (Hcb & Hn & Hs & Hk & Hc & Hkeep).
    specialize (IH w1). fold (wp (forM_ names removeStep) w1 (fun _ w' =>
      callbacks (timer w')
      = fold_left (fun l n => removeFirstNamed n l) names (callbacks (timer w1)) /\
      (forall ty,
         namesOf (timer w') ty = namesOf (timer w1) ty ∖ list_to_set names) /\
      callbackIdSeeds (timer w') = callbackIdSeeds (timer w1) /\
      clockAndHistory w' = clockAndHistory w1 /\
      (forall n, In n names \/ cleared w1 n -> cleared w' n))) in IH.
    eapply wp_conseq; [exact IH|].
    intros [] w' (Hcb' & Hn' & Hs' & Hk' & Hc').
    split; [|split; [|split; [|split]]].
    + now rewrite Hcb', Hcb.
    + intros ty. rewrite Hn', (namesOf_removeName k _ _ ty Hs Hn).
      apply leibniz_equiv. set_solver.
    + now rewrite Hs'.
    + now rewrite Hk'.
    + intros n [[<-|Hin]|Hcl]; apply Hc'.
      * now right.
      * now left.
      * right. now apply Hkeep.
Qed.

End Registry.

Section Reserved.
Context {Act Ext : Type}.
Implicit Types w : World Act Ext.

Lemma prefix_eqb (p a b : string) :
  String.prefix p a = true -> String.prefix p b = false ->
  String.eqb a b = false.
Proof.
  intros Ha Hb. destruct (String.eqb a b) eqn:E; [|reflexivity].
  apply String.eqb_eq in E. congruence.
Qed.

Lemma removeFirstNamed_reserved (pre : list (InternalCallback Act))
    (c : InternalCallback Act) (l : list (InternalCallback Act)) :
  Forall (fun x => isReserved x = true) pre -> isReserved c = false ->
  removeFirstNamed (cb_name c) (pre ++ c :: l) = pre ++ l.
Proof.
  intros Hpre Hc. induction Hpre as [|x pre Hx _ IH]; simpl.
  - now rewrite String.eqb_refl.
  - rewrite (prefix_eqb "!" (cb_name x) (cb_name c) Hx Hc). now rewrite IH.
Qed.

(** Removing the names of the callbacks that are not reserved, one after
    the other, leaves the reserved callbacks, in their order. *)
Lemma remove_unreserved (pre l : list (InternalCallback Act)) :
  Forall (fun x => isReserved x = true) pre ->
  fold_left (fun l n => removeFirstNamed n l)
    (map cb_name (List.filter (fun c => negb (isReserved c)) l)) (pre ++ l)
  = pre ++ List.filter isReserved l.
Proof.
  revert pre. induction l as [|c l IH]; intros pre Hpre; simpl.
  - reflexivity.
  - destruct (isReserved c) eqn:Hc; simpl.
    + specialize (IH (pre ++ [c])). rewrite <- !app_assoc in IH. apply IH.
      apply Forall_app. split; [exact Hpre|]. now constructor.
    + rewrite (removeFirstNamed_reserved pre c l Hpre Hc). now apply IH.
Qed.

End Reserved.

(** X6.  [removeAllCallbacks()] on a timer that is not disposed returns
    and leaves in the registry exactly the callbacks whose name begins
    with [!], in their order (so the completion handler of a countdown
    survives it).  Every other callback is removed and its name is free
    in the name set of every kind.  History and clock are untouched. *)
Theorem removeAllCallbacks_keeps_reserved {Act Ext} (w : World Act Ext) :
  disposed (timer w) = false ->
  exists w',
    removeAllCallbacks w = Returned tt w' /\
    callbacks (timer w') = List.filter isReserved (callbacks (timer w)) /\
    (forall c ty, In c (callbacks (timer w)) -> isReserved c = false ->
       cb_name c ∉ namesOf (timer w') ty) /\
    (forall ty n, String.prefix "!" n = true ->
       n ∈ namesOf (timer w') ty <-> n ∈ namesOf (timer w) ty) /\
    clockAndHistory w' = clockAndHistory w.
Proof.
  intros Hlive. unfold removeAllCallbacks.
  rewrite (bind_returned _ _ _ _ _ (checkDisposed_live w Hlive)).
  unfold bind at 1, gets at 1.
  set (names := map cb_name
                  (List.filter (fun c => negb (String.prefix "!" (cb_name c)))
                     (callbacks (timer w)))).
  destruct (wp_returned _ _ _ (removeCallbacks_registry names w Hlive))
    as ([] & w' & Hm & Hcb & Hn & _ & Hk & Hc).
  exists w'. split; [exact Hm|].
  assert (Hin : forall c, In c (callbacks (timer w)) -> isReserved c = false ->
                  In (cb_name c) names).
  { intros c Hc1 Hc2. unfold names. apply in_map. apply filter_In.
    split; [exact Hc1|]. unfold isReserved in Hc2. now rewrite Hc2. }
  split; [|split; [|split]].
  - rewrite Hcb. exact (remove_unreserved [] (callbacks (timer w)) (List.Forall_nil _)).
  - intros c ty Hc1 Hc2. rewrite Hn. specialize (Hin c Hc1 Hc2).
    apply list_elem_of_In in Hin. set_solver.
  - intros ty n Hp. rewrite Hn. split; [set_solver|].
    intros H. apply elem_of_difference. split; [exact H|].
    rewrite elem_of_list_to_set. unfold names. intros Hx.
    apply list_elem_of_In, in_map_iff in Hx. destruct Hx as (c & <- & Hx).
    apply filter_In in Hx. destruct Hx as [_ Hx]. rewrite Hp in Hx.
    discriminate.
  - exact Hk.
Qed.

Lemma removeAllCallbacks_keeps_reserved_witness :
  map cb_name (callbacks (timer countdownWithCallbacks))
  = ["!countdown-complete-internal"; "tick-1"; "half"] /\
  exists w',
    removeAllCallbacks countdownWithCallbacks = Returned tt w' /\
    map cb_name (callbacks (timer w')) = ["!countdown-complete-internal"].
Proof.
  split; [vm_compute; reflexivity|].
  destruct (removeAllCallbacks_keeps_reserved countdownWithCallbacks eq_refl)
    as (w' & Hm & Hcb & _).
  exists w'. split; [exact Hm|]. rewrite Hcb. vm_compute. reflexivity.
Defined.

Section Registering2.
Context {Act Ext : Type}.
Implicit Types w : World Act Ext.

(** A name that is free on a timer that is not disposed: the entry is
    registered, and its name joins the name set of its kind. *)
Lemma registerOne_fresh (cb : SuperTimerCallbackBase Act) w :
  disposed (timer w) = false ->
  resolvedName cb (timer w) ∉ namesOf (timer w) (type cb) ->
  exists icb w',
    registerOne cb w = Returned icb w' /\
    namesOf (timer w') (type cb)
    = namesOf (timer w) (type cb) ∪ {[resolvedName cb (timer w)]} /\
    (forall ty, ty <> type cb -> namesOf (timer w') ty = namesOf (timer w) ty) /\
    scheduled w' = scheduled w /\
    clockAndHistory w' = clockAndHistory w.
Proof.
  unfold resolvedName, namesOf, seedOf. intros Hlive Hfree.
  destruct w as [t h e a c]. simpl in *.
  unfold registerOne, bind, modify_timer, modify, gets, with_timer, throw.
  simpl.
  set (key := type_str (type cb)) in *.
  assert (Hother : forall ty, ty <> type cb -> type_str ty <> key).
  { intros ty Hne Heq. apply Hne. now apply type_str_inj. }
  destruct (callbackIdSeeds t !! key) as [[|k]|] eqn:Hseed; simpl.
  - rewrite lookup_insert_eq. simpl. rewrite lookup_insert_eq. simpl.
    rewrite bool_decide_eq_false_2 by apply not_elem_of_empty.
    rewrite getElapsedMs_live by exact Hlive. simpl.
    eexists _, _. split; [reflexivity|]. simpl.
    rewrite !lookup_insert_eq. simpl.
    split; [reflexivity|]. split; [|split; reflexivity].
    intros ty Hne.
    rewrite !lookup_insert_ne by (apply not_eq_sym; now apply Hother).
    reflexivity.
  - rewrite Hseed. simpl.
    rewrite bool_decide_eq_false_2 by exact Hfree.
    rewrite getElapsedMs_live by exact Hlive. simpl.
    eexists _, _. split; [reflexivity|]. simpl.
    rewrite !lookup_insert_eq. simpl.
    split; [reflexivity|]. split; [|split; reflexivity].
    intros ty Hne.
    rewrite !lookup_insert_ne by (apply not_eq_sym; now apply Hother).
    reflexivity.
  - rewrite lookup_insert_eq. simpl. rewrite lookup_insert_eq. simpl.
    rewrite bool_decide_eq_false_2 by apply not_elem_of_empty.
    rewrite getElapsedMs_live by exact Hlive. simpl.
    eexists _, _. split; [reflexivity|]. simpl.
    rewrite !lookup_insert_eq. simpl.
    split; [reflexivity|]. split; [|split; reflexivity].
    intros ty Hne.
    rewrite !lookup_insert_ne by (apply not_eq_sym; now apply Hother).
    reflexivity.
Qed.

End Registering2.

Section Registering3.
Context {Act Ext : Type}.
Implicit Types w : World Act Ext.

Lemma registerOne_disposed (cb : SuperTimerCallbackBase Act) w :
  disposed (timer w) = true ->
  exists e w', registerOne cb w = Thrown e w'.
Proof.
  intros Hd. unfold registerOne, bind at 1, modify_timer, modify.
  match goal with |- context [bind _ _ ?w1] => set (w1_ := w1) end.
  assert (Hd1 : disposed (timer w1_) = true).
  { unfold w1_. simpl.
    destruct (callbackIdSeeds (timer w) !! type_str (type cb)) as [[|?]|];
      exact Hd. }
  unfold bind, gets.
  destruct (bool_decide _); [unfold throw; eauto|].
  rewrite (getElapsedMs_disposed w1_ Hd1). eauto.
Qed.

Lemma registerOne_returned (cb : SuperTimerCallbackBase Act) w icb w' :
  registerOne cb w = Returned icb w' ->
  disposed (timer w) = false /\
  namesOf (timer w') (type cb)
  = namesOf (timer w) (type cb) ∪ {[resolvedName cb (timer w)]} /\
  (forall ty, ty <> type cb -> namesOf (timer w') ty = namesOf (timer w) ty) /\
  scheduled w' = scheduled w /\
  clockAndHistory w' = clockAndHistory w.
Proof.
  intros H.
  destruct (disposed (timer w)) eqn:Hd.
  { destruct (registerOne_disposed cb w Hd) as (e & w1 & H1). congruence. }
  destruct (registerOne_registers cb w icb w' H) as (Hfree & _).
  destruct (registerOne_fresh cb w Hd Hfree) as (icb1 & w1 & H1 & Hrest).
  rewrite H in H1. inversion H1; subst. now split.
Qed.

Lemma mapM_registerOne_returned (cbs : list (SuperTimerCallbackBase Act)) :
  forall w l w',
    mapM registerOne cbs w = Returned l w' ->
    scheduled w' = scheduled w /\ clockAndHistory w' = clockAndHistory w.
Proof.
  induction cbs as [|c cbs IH]; intros w l w' H; simpl in H.
  - unfold ret in H. now inversion H; subst.
  - unfold bind in H.
    destruct (registerOne c w) as [y w1|] eqn:H1; [|discriminate].
    destruct (mapM registerOne cbs w1) as [ys w2|] eqn:H2; [|discriminate].
    unfold ret in H. inversion H; subst; clear H.
    destruct (registerOne_returned c w y w1 H1) as (_ & _ & _ & Hs1 & Hk1).
    destruct (IH w1 ys w' H2) as (Hs2 & Hk2).
    split; congruence.
Qed.

Lemma mapM_app_thrown {A B} (f : A -> M Act Ext B) (pre post : list A)
    (c : A) w l w1 e w2 :
  mapM f pre w = Returned l w1 -> f c w1 = Thrown e w2 ->
  mapM f (pre ++ c :: post) w = Thrown e w2.
Proof.
  revert w l. induction pre as [|x pre IH]; intros w l Hpre Hc; simpl in *.
  - unfold ret in Hpre. inversion Hpre; subst. unfold bind. now rewrite Hc.
  - unfold bind in *.
    destruct (f x w) as [y wa|]; [|discriminate].
    destruct (mapM f pre wa) as [ys wb|] eqn:E; [|discriminate].
    unfold ret in Hpre. inversion Hpre; subst.
    now rewrite (IH wa ys E Hc).
Qed.

Lemma unscheduled_names w w' (ty : CallbackType) :
  unscheduled w' = unscheduled w ->
  namesOf (timer w') ty = namesOf (timer w) ty /\
  seedOf (timer w') ty = seedOf (timer w) ty.
Proof.
  intros H.
  pose proof (f_equal (fun v => callbackIdSeeds (u_timer v)) H) as Hs.
  pose proof (f_equal (fun v => callbackNames (u_timer v)) H) as Hn.
  simpl in Hs, Hn. unfold namesOf, seedOf. now rewrite Hs, Hn.
Qed.

End Registering3.

(** X7.  [registerCallbacks] is not atomic.  When the entries [pre] can
    be registered and the entry after them is refused for its name, the
    call throws the name-conflict error with [pre] registered all the
    same (registry, name sets and counters are as if [pre] had been
    registered alone), but it throws before it starts anything: nothing
    is added to the three maps or given to the host, even on a running
    timer. *)
Theorem registerCallbacks_partial_on_conflict {Act Ext}
    (pre post : list (SuperTimerCallbackBase Act))
    (c : SuperTimerCallbackBase Act) (w w0 : World Act Ext) :
  registerCallbacks pre w = Returned tt w0 ->
  resolvedName c (timer w0) ∈ namesOf (timer w0) (type c) ->
  exists w1,
    registerCallbacks (pre ++ c :: post) w
    = Thrown (NameConflictError (type c) (name c)) w1 /\
    callbacks (timer w1) = callbacks (timer w0) /\
    (forall ty,
       namesOf (timer w1) ty = namesOf (timer w0) ty /\
       seedOf (timer w1) ty = seedOf (timer w0) ty) /\
    scheduled w1 = scheduled w.
Proof.
  intros Hpre Hconflict.
  destruct (registerCallbacks_returned pre w w0 Hpre) as (l & w1 & Hm & Hu).
  exists w1.
  assert (Hnames : forall ty,
             namesOf (timer w1) ty = namesOf (timer w0) ty /\
             seedOf (timer w1) ty = seedOf (timer w0) ty).
  { intros ty. destruct (unscheduled_names w1 w0 ty Hu) as [H1 H2].
    split; congruence. }
  assert (Hc1 : registerOne c w1
                = Thrown (NameConflictError (type c) (name c)) w1).
  { apply registerOne_conflict.
    unfold resolvedName in *. destruct (name c); 
      [now rewrite (proj1 (Hnames _))|].
    rewrite (proj1 (Hnames _)), (proj2 (Hnames _)). exact Hconflict. }
  destruct (mapM_registerOne_spec pre w l w1 Hm) as (_ & _ & _ & Hd & _).
  destruct (mapM_registerOne_returned pre w l w1 Hm) as (Hs & _).
  assert (Hlive : disposed (timer w) = false).
  { destruct (disposed (timer w)) eqn:E; [|reflexivity].
    unfold registerCallbacks in Hpre.
    rewrite (bind_thrown _ _ _ _ _ (checkDisposed_disposed w E)) in Hpre.
    discriminate. }
  split; [|split; [|split]].
  - unfold registerCallbacks.
    rewrite (bind_returned _ _ _ _ _ (checkDisposed_live w Hlive)).
    apply bind_thrown. exact (mapM_app_thrown _ pre post c w l w1 _ w1 Hm Hc1).
  - symmetry. exact (unscheduled_callbacks _ _ Hu).
  - exact Hnames.
  - exact Hs.
Qed.

Lemma registerCallbacks_partial_on_conflict_witness :
  let c := plainCallback Checkpoint 100 1%nat (Some "a") in
  exists w1,
    registerCallbacks [c; c] startedTimer
    = Thrown (NameConflictError Checkpoint (Some "a")) w1 /\
    map cb_name (callbacks (timer w1)) = ["a"] /\
    pendingOnce (host w1) = [] /\ timeouts (timer w1) = [].
Proof.
  intros c.
  assert (H0 : registerCallbacks [c] startedTimer
               = Returned tt (exec (registerCallbacks [c]) startedTimer))
    by (vm_compute; reflexivity).
  assert (Hc : resolvedName c
                 (timer (exec (registerCallbacks [c]) startedTimer))
               ∈ namesOf (timer (exec (registerCallbacks [c]) startedTimer))
                   (type c)).
  { match goal with |- ?P =>
      apply (bool_decide_unpack P); vm_compute; exact I
    end. }
  destruct (registerCallbacks_partial_on_conflict [c] [] c startedTimer _ H0 Hc)
    as (w1 & Hm & Hcb & _ & Hs).
  exists w1. split; [exact Hm|]. split.
  - rewrite Hcb. vm_compute. reflexivity.
  - split.
    + transitivity (pendingOnce (host startedTimer));
        [exact (f_equal (fun s => pendingOnce (fst (fst (fst s)))) Hs)
        |vm_compute; reflexivity].
    + transitivity (timeouts (timer startedTimer));
        [exact (f_equal (fun s => snd (fst (fst s))) Hs)
        |vm_compute; reflexivity].
Defined.

Section Unnamed.
Context {Act Ext : Type}.
Implicit Types w : World Act Ext.

Lemma generatedName_inj (ty : CallbackType) (j k : nat) :
  generatedName ty j = generatedName ty k -> j = k.
Proof.
  unfold generatedName. intros H.
  apply (inj (String.append (type_str ty))) in H.
  apply (inj (String.append "-")) in H.
  now apply (inj pretty) in H.
Qed.

Lemma registerOne_unnamed (cb : SuperTimerCallbackBase Act) w :
  disposed (timer w) = false -> autoNamed (timer w) -> name cb = None ->
  exists icb w',
    registerOne cb w = Returned icb w' /\
    disposed (timer w') = false /\ autoNamed (timer w').
Proof.
  intros Hlive Hauto Hnone.
  assert (Hres : resolvedName cb (timer w)
                 = generatedName (type cb) (seedOf (timer w) (type cb))).
  { unfold resolvedName. now rewrite Hnone. }
  assert (Hfree : resolvedName cb (timer w) ∉ namesOf (timer w) (type cb)).
  { rewrite Hres. intros Hin. destruct (Hauto _ _ Hin) as (k & Hk & Hlt).
    apply generatedName_inj in Hk. lia. }
  destruct (registerOne_fresh cb w Hlive Hfree)
    as (icb & w' & Hm & Hn & Hother & _ & Hk).
  destruct (registerOne_registers cb w icb w' Hm)
    as (_ & _ & _ & Hseed & Hseeds & Hd & _).
  exists icb, w'. split; [exact Hm|]. split; [congruence|].
  intros ty n Hin.
  destruct (CallbackType_eqb ty (type cb)) eqn:E.
  - apply CallbackType_eqb_eq in E. subst ty. rewrite Hn in Hin. rewrite Hseed.
    apply elem_of_union in Hin. destruct Hin as [Hin|Hin].
    + destruct (Hauto _ _ Hin) as (k & Hk' & Hlt). exists k. split; [exact Hk'|lia].
    + apply elem_of_singleton in Hin. subst n. rewrite Hres.
      eexists. split; [reflexivity|lia].
  - assert (Hne : ty <> type cb).
    { intros ->. rewrite (proj2 (CallbackType_eqb_eq _ _) eq_refl) in E.
      discriminate. }
    rewrite (Hother ty Hne) in Hin. rewrite (Hseeds ty Hne). now apply Hauto.
Qed.

Lemma mapM_registerOne_unnamed (cbs : list (SuperTimerCallbackBase Act)) :
  forall w,
    disposed (timer w) = false -> autoNamed (timer w) ->
    Forall (fun cb => name cb = None) cbs ->
    exists l w',
      mapM registerOne cbs w = Returned l w' /\
      disposed (timer w') = false /\ autoNamed (timer w').
Proof.
  induction cbs as [|c cbs IH]; intros w Hlive Hauto Hall; simpl.
  - exists [], w. now split.
  - inversion Hall as [|? ? Hc Hrest]; subst.
    destruct (registerOne_unnamed c w Hlive Hauto Hc)
      as (icb & w1 & Hm1 & Hl1 & Ha1).
    destruct (IH w1 Hl1 Ha1 Hrest) as (l & w' & Hm & Hl & Ha).
    exists (icb :: l), w'. split; [|now split].
    unfold bind. now rewrite Hm1, Hm.
Qed.

End Unnamed.

Lemma registerCallbacks_unnamed {Act Ext}
    (cbs : list (SuperTimerCallbackBase Act)) (w : World Act Ext) :
  disposed (timer w) = false -> autoNamed (timer w) ->
  Forall (fun cb => name cb = None) cbs ->
  exists w',
    registerCallbacks cbs w = Returned tt w' /\
    disposed (timer w') = false /\ autoNamed (timer w') /\
    length (callbacks (timer w'))
    = (length (callbacks (timer w)) + length cbs)%nat.
Proof.
  intros Hlive Hauto Hall.
  destruct (mapM_registerOne_unnamed cbs w Hlive Hauto Hall)
    as (l & w1 & Hm & Hl1 & Ha1).
  destruct (startCallbacks_keeps l w1 Hl1) as ([] & w' & Hs & Hu).
  exists w'. split; [|split; [|split]].
  - unfold registerCallbacks.
    rewrite (bind_returned _ _ _ _ _ (checkDisposed_live w Hlive)).
    unfold bind. now rewrite Hm.
  - rewrite (unscheduled_disposed _ _ Hu). exact Hl1.
  - intros ty n Hin.
    destruct (unscheduled_names w1 w' ty Hu) as [Hn Hsd].
    rewrite Hn in Hin. rewrite Hsd. now apply Ha1.
  - rewrite (unscheduled_callbacks _ _ Hu).
    destruct (mapM_registerOne_spec cbs w l w1 Hm) as (Hcb & _).
    rewrite Hcb, length_app. f_equal.
    clear -Hm. revert w l w1 Hm.
    induction cbs as [|c cbs IH]; intros w l w1 Hm; simpl in Hm.
    + unfold ret in Hm. now inversion Hm.
    + unfold bind in Hm.
      destruct (registerOne c w) as [y wa|]; [|discriminate].
      destruct (mapM registerOne cbs wa) as [ys wb|] eqn:E; [|discriminate].
      unfold ret in Hm. inversion Hm; subst. simpl. f_equal.
      exact (IH wa ys w1 E).
Qed.

(** X8.  A program that never names its callbacks never sees the
    name-conflict error.  A timer constructed with callbacks that omit
    their name is constructed without an error, and every name in its
    name sets is a generated name [{kind}-{k}] whose [k] the counter of
    the kind has passed; registering entries that omit their name keeps
    that and always returns, and so does removing callbacks. *)
Theorem unnamed_callbacks_never_conflict {Act Ext} :
  (forall timerId hs (e : Ext) (options : SuperTimerOptions Act),
     Forall (fun cb => name cb = None) (opt_callbacks options) ->
     exists w',
       constructBase options (newObject timerId hs e) = Returned tt w' /\
       disposed (timer w') = false /\ autoNamed (timer w') /\
       length (callbacks (timer w')) = length (opt_callbacks options)) /\
  (forall (cbs : list (SuperTimerCallbackBase Act)) (w : World Act Ext),
     disposed (timer w) = false -> autoNamed (timer w) ->
     Forall (fun cb => name cb = None) cbs ->
     exists w',
       registerCallbacks cbs w = Returned tt w' /\
       disposed (timer w') = false /\ autoNamed (timer w') /\
       length (callbacks (timer w'))
       = (length (callbacks (timer w)) + length cbs)%nat) /\
  (forall (names : list string) (w : World Act Ext),
     disposed (timer w) = false -> autoNamed (timer w) ->
     exists w',
       removeCallbacks names w = Returned tt w' /\
       disposed (timer w') = false /\ autoNamed (timer w')).
Proof.
  split; [|split].
  - intros timerId hs e options Hall.
    assert (Ha0 : autoNamed (timer (newObject (Act := Act) timerId hs e))).
    { intros ty n Hin. unfold namesOf in Hin. simpl in Hin.
      rewrite lookup_empty in Hin. now apply not_elem_of_empty in Hin. }
    destruct (registerCallbacks_unnamed (opt_callbacks options)
                (newObject timerId hs e) eq_refl Ha0 Hall)
      as (w1 & Hm & Hl & Ha & Hlen).
    unfold constructBase, bind. rewrite Hm. unfold modify.
    eexists. split; [reflexivity|]. simpl.
    split; [exact Hl|]. split; [exact Ha|exact Hlen].
  - apply registerCallbacks_unnamed.
  - intros names w Hlive Hauto.
    destruct (wp_returned _ _ _ (removeCallbacks_registry names w Hlive))
      as ([] & w' & Hm & _ & Hn & Hs & Hk & _).
    exists w'. split; [exact Hm|]. split.
    + pose proof (f_equal (fun v => snd (fst (fst (fst (fst v))))) Hk) as Hd.
      simpl in Hd. congruence.
    + intros ty n Hin. rewrite Hn in Hin.
      apply elem_of_difference in Hin. destruct Hin as [Hin _].
      destruct (Hauto ty n Hin) as (k & Hk1 & Hk2). exists k.
      split; [exact Hk1|]. unfold seedOf in *. now rewrite Hs.
Qed.

Lemma unnamed_callbacks_never_conflict_witness :
  exists w',
    registerCallbacks
      [plainCallback Tick 1000 1%nat None; plainCallback Tick 500 2%nat None;
       plainCallback Checkpoint 50 3%nat None]
      (freshTimer true [])
    = Returned tt w' /\
    length (callbacks (timer w')) = 3%nat.
Proof.
  assert (Ha : autoNamed (timer (freshTimer true []))).
  { intros ty n Hin.
    assert (He : namesOf (timer (freshTimer true [])) ty = ∅)
      by (destruct ty; vm_compute; reflexivity).
    rewrite He in Hin. now apply not_elem_of_empty in Hin. }
  destruct (proj1 (proj2 unnamed_callbacks_never_conflict)
              [plainCallback Tick 1000 1%nat None;
               plainCallback Tick 500 2%nat None;
               plainCallback Checkpoint 50 3%nat None]
              (freshTimer true []) eq_refl Ha)
    as (w' & Hm & _ & _ & Hlen).
  { repeat constructor. }
  exists w'. split; [exact Hm|]. rewrite Hlen. reflexivity.
Defined.

Section Unknown.
Context {Act Ext : Type}.
Implicit Types w : World Act Ext.

Lemma removeFirstNamed_absent (n : string) (l : list (InternalCallback Act)) :
  (forall c, In c l -> cb_name c <> n) -> removeFirstNamed n l = l.
Proof.
  induction l as [|c l IH]; intros H; simpl; [reflexivity|].
  destruct (String.eqb (cb_name c) n) eqn:E.
  - apply String.eqb_eq in E. exfalso. apply (H c); [now left|exact E].
  - f_equal. apply IH. intros c' Hin. apply H. now right.
Qed.

Lemma removeStep_cleared (n : string) w :
  cleared w n ->
  wp (removeStep n) w (fun _ w' => scheduled w' = scheduled w).
Proof.
  intros (H1 & H2 & H3). unfold removeStep. unfold bind at 1, gets at 1.
  unfold wp, bind, modify_timer, modify, ret. rewrite H1, H2, H3. reflexivity.
Qed.

End Unknown.

(** X9.  [removeCallbacks] with names that are not in use (no callback
    bears them, no name set holds them, none of the three maps has an
    entry for them) returns without an error and changes nothing:
    registry, name sets, counters, the three maps, the host, the history
    and the clock are as before.  In particular [removeCallbacks([])]
    does nothing. *)
Theorem removeCallbacks_unknown_names {Act Ext} (names : list string)
    (w : World Act Ext) :
  disposed (timer w) = false ->
  (forall n, In n names ->
     (forall c, In c (callbacks (timer w)) -> cb_name c <> n) /\
     (forall ty, n ∉ namesOf (timer w) ty) /\
     cleared w n) ->
  exists w',
    removeCallbacks names w = Returned tt w' /\
    callbacks (timer w') = callbacks (timer w) /\
    (forall ty,
       namesOf (timer w') ty = namesOf (timer w) ty /\
       seedOf (timer w') ty = seedOf (timer w) ty) /\
    scheduled w' = scheduled w /\
    clockAndHistory w' = clockAndHistory w.
Proof.
  intros Hlive Hunknown.
  destruct (wp_returned _ _ _ (removeCallbacks_registry names w Hlive))
    as ([] & w' & Hm & Hcb & Hn & Hs & Hk & _).
  exists w'. split; [exact Hm|]. split; [|split; [|split]].
  - rewrite Hcb. clear -Hunknown.
    induction names as [|n names IH]; simpl; [reflexivity|].
    rewrite removeFirstNamed_absent.
    + apply IH. intros x Hx. apply Hunknown. now right.
    + apply (Hunknown n). now left.
  - intros ty. split; [|unfold seedOf; now rewrite Hs].
    rewrite Hn. apply leibniz_equiv. intros x.
    rewrite elem_of_difference, elem_of_list_to_set. split; [tauto|].
    intros Hx. split; [exact Hx|]. intros Hin.
    apply list_elem_of_In in Hin.
    exact (proj1 (proj2 (Hunknown x Hin)) ty Hx).
  - rewrite (removeCallbacks_unfold names w Hlive) in Hm.
    clear -Hm Hunknown. revert w Hm Hunknown.
    induction names as [|n names IH]; intros w Hm Hunknown; simpl in Hm.
    + unfold ret in Hm. now inversion Hm.
    + unfold bind in Hm.
      pose proof (removeStep_cleared n w
                    (proj2 (proj2 (Hunknown n (or_introl eq_refl))))) as H1.
      pose proof (removeStep_spec n w) as H2.
      unfold wp in H1, H2.
      destruct (removeStep n w) as [[] w1|]; [|contradiction].
      destruct H2 as (Hcb1 & Hn1 & Hs1 & _ & _ & Hkeep).
      rewrite <- H1. apply (IH w1 Hm).
      intros x Hx. destruct (Hunknown x (or_intror Hx)) as (Ha & Hb & Hc).
      split; [|split].
      * rewrite Hcb1, removeFirstNamed_absent; [exact Ha|].
        apply (Hunknown n). now left.
      * intros ty. rewrite (namesOf_removeName n _ _ ty Hs1 Hn1).
        intros Hin. apply elem_of_difference in Hin. now apply (Hb ty).
      * now apply Hkeep.
  - exact Hk.
Qed.

Lemma removeCallbacks_unknown_names_witness :
  exists w',
    removeCallbacks ["nobody"; "tick-9"] sampleTimer = Returned tt w' /\
    callbacks (timer w') = callbacks (timer sampleTimer) /\
    scheduled w' = scheduled sampleTimer.
Proof.
  assert (Hu : forall n, In n ["nobody"; "tick-9"] ->
     (forall c, In c (callbacks (timer sampleTimer)) -> cb_name c <> n) /\
     (forall ty, n ∉ namesOf (timer sampleTimer) ty) /\
     cleared sampleTimer n).
  { assert (Hnames : map cb_name (callbacks (timer sampleTimer))
                     = ["checkpoint-1"; "checkpoint-2"; "checkpoint-once-1";
                        "checkpoint-3"]) by (vm_compute; reflexivity).
    intros n Hn. split; [|split].
    - intros c Hc Heq. apply (in_map cb_name) in Hc. rewrite Hnames, Heq in Hc.
      destruct Hn as [<-|[<-|[]]];
        repeat (destruct Hc as [Hc|Hc]; [discriminate Hc|]); exact Hc.
    - intros ty. simpl in Hn.
      destruct Hn as [<-|[<-|[]]]; destruct ty;
        match goal with
        | |- ?x ∉ ?S =>
            apply (bool_decide_eq_false_1 (x ∈ S)); vm_compute; reflexivity
        end.
    - simpl in Hn.
      destruct Hn as [<-|[<-|[]]]; (split; [|split]); vm_compute; reflexivity. }
  assert (Hl : disposed (timer sampleTimer) = false)
    by (vm_compute; reflexivity).
  destruct (removeCallbacks_unknown_names ["nobody"; "tick-9"] sampleTimer
              Hl Hu) as (w' & Hm & Hcb & _ & Hs & _).
  exists w'. split; [exact Hm|]. split; [exact Hcb|exact Hs].
Defined.

Section Cancelling.
Context {Act Ext : Type}.
Variable applyAction : Act -> M Act Ext unit.
Implicit Types w : World Act Ext.

Lemma find_handle_remove_handle {A} (h h' : nat) (l : list (nat * A)) :
  find_handle h (remove_handle h' l)
  = if Nat.eqb h h' then None else find_handle h l.
Proof.
  induction l as [|[k a] l IH]; simpl.
  - now destruct (Nat.eqb h h').
  - destruct (Nat.eqb h' k) eqn:E1.
    + apply Nat.eqb_eq in E1. subst k. rewrite IH.
      now destruct (Nat.eqb h h').
    + simpl. destruct (Nat.eqb h k) eqn:E2.
      * apply Nat.eqb_eq in E2. subst k.
        rewrite Nat.eqb_sym in E1. now rewrite E1.
      * exact IH.
Qed.

Lemma find_handle_cancelAll {A} (h : nat) (m : NameMap) (l : list (nat * A)) :
  find_handle h (cancelAll m l)
  = if existsb (fun e => Nat.eqb h (snd e)) m then None else find_handle h l.
Proof.
  unfold cancelAll. revert l. induction m as [|e m IH]; intros l; simpl.
  - reflexivity.
  - rewrite IH, find_handle_remove_handle.
    destruct (Nat.eqb h (snd e)); simpl; [|reflexivity].
    now destruct (existsb _ m).
Qed.

(** The fields of the host and of the timer that [clearTimeouts] may
    change, one by one. *)
Lemma clearTimeout_loop (m : NameMap) w :
  wp (forM_ m (fun e => lib_clearTimeout (snd e))) w (fun _ w' =>
    timer w' = timer w /\
    pendingOnce (host w') = cancelAll m (pendingOnce (host w)) /\
    pendingRepeating (host w') = pendingRepeating (host w) /\
    pendingFrame (host w') = pendingFrame (host w)).
Proof.
  revert w. induction m as [|e m IH]; intros w; simpl.
  - unfold wp, ret. repeat split.
  - apply wp_bind. unfold wp at 1, lib_clearTimeout, modify.
    eapply wp_conseq; [apply IH|].
    intros [] w' (Ht & H1 & H2 & H3). repeat split; assumption.
Qed.

Lemma cancelFrame_loop (m : NameMap) w :
  wp (forM_ m (fun e => lib_cancelAnimationFrame (snd e))) w (fun _ w' =>
    timer w' = timer w /\
    pendingOnce (host w') = pendingOnce (host w) /\
    pendingRepeating (host w') = pendingRepeating (host w) /\
    pendingFrame (host w') = cancelAll m (pendingFrame (host w))).
Proof.
  revert w. induction m as [|e m IH]; intros w; simpl.
  - unfold wp, ret. repeat split.
  - apply wp_bind. unfold wp at 1, lib_cancelAnimationFrame, modify.
    eapply wp_conseq; [apply IH|].
    intros [] w' (Ht & H1 & H2 & H3). repeat split; assumption.
Qed.

(** What [clearTimeouts()] cancels at the host. *)
Lemma clearTimeouts_host w :
  wp (clearTimeouts false) w (fun _ w' =>
    pendingOnce (host w')
    = cancelAll (timeouts (timer w)) (pendingOnce (host w)) /\
    pendingRepeating (host w')
    = match intervals (timer w) with
      | [] => pendingRepeating (host w)
      | e :: _ => remove_handle (snd e) (pendingRepeating (host w))
      end /\
    pendingFrame (host w')
    = cancelAll (rafs (timer w)) (pendingFrame (host w))).
Proof.
  unfold clearTimeouts.
  apply wp_bind. unfold wp at 1, gets.
  apply wp_bind.
  eapply wp_conseq; [apply clearTimeout_loop|].
  intros [] w1 (Ht1 & Ho1 & Hr1 & Hf1).
  apply wp_bind. unfold wp at 1, modify_timer, modify. simpl.
  apply wp_bind. unfold wp at 1, gets. simpl. rewrite Ht1.
  apply wp_bind.
  apply (wp_conseq _ _ (fun _ w2 =>
           rafs (timer w2) = rafs (timer w) /\
           pendingOnce (host w2)
           = cancelAll (timeouts (timer w)) (pendingOnce (host w)) /\
           pendingRepeating (host w2)
           = match intervals (timer w) with
             | [] => pendingRepeating (host w)
             | e :: _ => remove_handle (snd e) (pendingRepeating (host w))
             end /\
           pendingFrame (host w2) = pendingFrame (host w))).
  { destruct (intervals (timer w)) as [|e ivs].
    - unfold wp, ret. simpl. rewrite Ht1. repeat split; assumption.
    - unfold wp, bind, lib_clearInterval, modify_timer, modify. simpl.
      rewrite Ht1, Hr1. repeat split; assumption. }
  intros [] w2 (Hrf2 & Ho2 & Hr2 & Hf2).
  apply wp_bind. unfold wp at 1, gets. rewrite Hrf2.
  apply wp_bind.
  eapply wp_conseq; [apply cancelFrame_loop|].
  intros [] w3 (Ht3 & Ho3 & Hr3 & Hf3).
  unfold wp, modify_timer, modify. simpl.
  repeat split; congruence.
Qed.

End Cancelling.

Section Leaking.
Context {Act Ext : Type}.
Variable applyAction : Act -> M Act Ext unit.
Implicit Types w : World Act Ext.

(** What [pause] leaves at the host of the intervals and timeouts of a
    running timer. *)
Lemma pause_running_host (suppress : bool) w :
  disposed (timer w) = false -> running (timer w) = true ->
  (suppress = false -> updatesInert applyAction (callbacks (timer w))) ->
  wp (pause applyAction suppress) w (fun _ w' =>
    timeouts (timer w') = [] /\ intervals (timer w') = [] /\
    pendingOnce (host w')
    = cancelAll (timeouts (timer w)) (pendingOnce (host w)) /\
    pendingRepeating (host w')
    = match intervals (timer w) with
      | [] => pendingRepeating (host w)
      | e :: _ => remove_handle (snd e) (pendingRepeating (host w))
      end).
Proof.
  intros Hlive Hrun Hupd. unfold pause.
  apply wp_bind. unfold wp at 1. rewrite (checkDisposed_live w Hlive).
  apply wp_bind. unfold wp at 1, gets. rewrite Hrun. simpl.
  apply wp_bind. unfold wp at 1, modify.
  apply wp_bind. unfold wp at 1, modify_timer, modify.
  apply wp_bind. unfold wp at 1, gets.
  apply wp_bind. unfold wp at 1, pushEvent, modify.
  match goal with |- wp _ ?w2 _ => set (w0 := w2) end.
  apply wp_bind.
  pose proof (clearTimeouts_spec false w0) as Hspec.
  pose proof (clearTimeouts_host w0) as Hhost.
  unfold wp in Hspec, Hhost. unfold wp at 1.
  destruct (clearTimeouts false w0) as [[] w1|]; [|contradiction].
  destruct Hspec as (Hu & Hto & Hiv & _). destruct (Hiv eq_refl) as [Hi _].
  destruct Hhost as (Ho & Hr & _).
  change (timeouts (timer w0)) with (timeouts (timer w)) in Ho.
  change (pendingOnce (host w0)) with (pendingOnce (host w)) in Ho.
  change (intervals (timer w0)) with (intervals (timer w)) in Hr.
  change (pendingRepeating (host w0)) with (pendingRepeating (host w)) in Hr.
  assert (Hl1 : disposed (timer w1) = false).
  { rewrite (unscheduled_disposed _ _ Hu). exact Hlive. }
  assert (Hcb1 : callbacks (timer w1) = callbacks (timer w))
    by exact (unscheduled_callbacks _ _ Hu).
  apply wp_bind.
  destruct suppress; simpl.
  - unfold wp, ret. repeat split; assumption.
  - eapply wp_conseq.
    { apply (wp_keeps _ _ _
               (executeUpdateCallbacks_armed applyAction w1 Hl1
                  ltac:(rewrite Hcb1; now apply Hupd))). }
    intros [] w2 HV. unfold wp, ret.
    pose proof (f_equal fst HV) as Ha. simpl in Ha. unfold armed in Ha.
    inversion Ha as [[H1 H2 H3 H4]].
    repeat split; congruence.
Qed.

(** An interval of a callback with an inert function fires, whether the
    timer is running or not. *)
Lemma hostFireInterval_dispatches (h : nat) (due period : Q)
    (cb : InternalCallback Act) w :
  disposed (timer w) = false ->
  find_handle h (pendingRepeating (host w)) = Some (due, period, TickInterval cb) ->
  (due <= now (host w))%Q ->
  inert applyAction (cb_callback cb) ->
  exists w',
    hostFireInterval applyAction h w = Some (Returned tt w') /\
    core w' = core w /\
    tags (history (timer w'))
    = tags (history (timer w)) ++ [(EvTick, Some (cb_name cb))] /\
    calls w'
    = calls w ++ (if cb_requireAnimationFrame cb then [] else [cb_callback cb]).
Proof.
  intros Hlive Hfind Hdue Hinert. unfold hostFireInterval.
  rewrite Hfind. apply Qleb_le in Hdue. rewrite Hdue. simpl.
  match goal with |- context [createEventAndInvokeCallback _ _ _ _ ?w1] =>
    set (w1_ := w1) end.
  destruct (createEventAndInvokeCallback_emits applyAction cb EvTick w1_
              Hlive Hinert) as (w' & Hm & Hc & Ht & Hcs).
  exists w'. split; [now rewrite Hm|]. repeat split; assumption.
Qed.

End Leaking.

(** X10.  [pause()] on a running timer empties the maps of timeouts and
    intervals and cancels every timeout of the map at the host, but of
    the intervals it cancels only the first entry of the map: the loop
    over [this.intervals] clears the map inside its body.  Every other
    interval stays armed at the host, and when it comes due it is
    dispatched on the paused timer: a [tick] event is recorded and the
    function is called. *)
Theorem pause_cancels_first_interval_only (suppress : bool)
    (w : World SuperTimer.Act unit) :
  disposed (timer w) = false -> running (timer w) = true ->
  exists w',
    SuperTimer.pause suppress w = Returned true w' /\
    running (timer w') = false /\
    timeouts (timer w') = [] /\ intervals (timer w') = [] /\
    (forall h,
       find_handle h (pendingOnce (host w'))
       = if existsb (fun e => Nat.eqb h (snd e)) (timeouts (timer w))
         then None else find_handle h (pendingOnce (host w))) /\
    (forall h,
       find_handle h (pendingRepeating (host w'))
       = match intervals (timer w) with
         | [] => find_handle h (pendingRepeating (host w))
         | e :: _ =>
             if Nat.eqb h (snd e) then None
             else find_handle h (pendingRepeating (host w))
         end) /\
    (forall h due period cb dt,
       find_handle h (pendingRepeating (host w'))
       = Some (due, period, TickInterval cb) ->
       (due <= now (host w') + dt)%Q ->
       exists w'',
         SuperTimer.hostFireInterval h (hostAdvance dt w')
         = Some (Returned tt w'') /\
         running (timer w'') = false /\
         tags (history (timer w''))
         = tags (history (timer w')) ++ [(EvTick, Some (cb_name cb))] /\
         calls w''
         = calls w'
           ++ (if cb_requireAnimationFrame cb then [] else [cb_callback cb])).
Proof.
  intros Hlive Hrun.
  pose proof (pause_running SuperTimer.applyAction suppress w Hlive Hrun
                (fun _ => SuperTimer_updatesInert w)) as H1.
  pose proof (pause_running_host SuperTimer.applyAction suppress w Hlive Hrun
                (fun _ => SuperTimer_updatesInert w)) as H2.
  unfold wp in H1, H2. unfold SuperTimer.pause.
  destruct (pause SuperTimer.applyAction suppress w) as [r w'|]; [|contradiction].
  destruct H1 as (-> & Hc & _). destruct H2 as (Hto & Hiv & Ho & Hr).
  exists w'. split; [reflexivity|].
  assert (Hr' : running (timer w') = false)
    by (rewrite (core_running _ _ Hc); reflexivity).
  assert (Hl' : disposed (timer w') = false)
    by (rewrite (core_disposed _ _ Hc); exact Hlive).
  split; [exact Hr'|]. split; [exact Hto|]. split; [exact Hiv|].
  split; [|split].
  - intros h. rewrite Ho. apply find_handle_cancelAll.
  - intros h. rewrite Hr. destruct (intervals (timer w)); [reflexivity|].
    apply find_handle_remove_handle.
  - intros h due period cb dt Hfind Hdue.
    destruct (hostFireInterval_dispatches SuperTimer.applyAction h due period
                cb (hostAdvance dt w') Hl' Hfind Hdue (SuperTimer_inert _))
      as (w'' & Hm & Hc'' & Ht & Hcs).
    exists w''. split; [exact Hm|]. split; [|split; assumption].
    rewrite (core_running _ _ Hc''). exact Hr'.
Qed.

Lemma pause_cancels_first_interval_only_witness :
  map fst (pendingRepeating (host twoTicksRunning)) = [1%nat; 2%nat] /\
  exists w',
    SuperTimer.pause false twoTicksRunning = Returned true w' /\
    running (timer w') = false /\ intervals (timer w') = [] /\
    map fst (pendingRepeating (host w')) = [2%nat] /\
    tags (history (timer
            (execHost (SuperTimer.hostFireInterval 2) (hostAdvance 700 w'))))
    = [(EvUnpause, None); (EvPause, None); (EvTick, Some "second")].
Proof.
  split; [vm_compute; reflexivity|].
  assert (Hl : disposed (timer twoTicksRunning) = false)
    by (vm_compute; reflexivity).
  assert (Hr : running (timer twoTicksRunning) = true)
    by (vm_compute; reflexivity).
  destruct (pause_cancels_first_interval_only false twoTicksRunning Hl Hr)
    as (w' & Hm & Hr' & _ & Hiv & _ & _ & _).
  exists w'. split; [exact Hm|]. split; [exact Hr'|]. split; [exact Hiv|].
  assert (Hw : w' = exec (SuperTimer.pause false) twoTicksRunning)
    by (unfold exec; now rewrite Hm).
  rewrite Hw. split; vm_compute; reflexivity.
Defined.

Section Disposing.
Context {Act Ext : Type}.
Variable applyAction : Act -> M Act Ext unit.
Implicit Types w : World Act Ext.

(** An interval that comes due on a disposed timer throws from inside
    the host's callback. *)
Lemma hostFireInterval_disposed (h : nat) (due period : Q)
    (task : RepeatTask Act) w :
  disposed (timer w) = true ->
  find_handle h (pendingRepeating (host w)) = Some (due, period, task) ->
  (due <= now (host w))%Q ->
  exists w',
    hostFireInterval applyAction h w
    = Some (Thrown (DisposedError (timer_name (timer w))) w').
Proof.
  intros Hd Hfind Hdue. unfold hostFireInterval.
  rewrite Hfind. apply Qleb_le in Hdue. rewrite Hdue.
  destruct task as [cb]. simpl. unfold createEventAndInvokeCallback.
  match goal with |- context [bind getElapsedMs _ ?w1] => set (w1_ := w1) end.
  exists w1_.
  now rewrite (bind_thrown _ _ _ _ _ (getElapsedMs_disposed w1_ Hd)).
Qed.

End Disposing.

(** X11.  [dispose()] never throws, also on a timer that is disposed
    already.  It marks the timer disposed, empties the three maps and
    cancels at the host every timeout and frame request of the maps and
    the first interval; it records no event and does not stop the clock
    ([unpausedAt], [elapsedMs] and the history are untouched).  After it
    [getElapsedMs] throws the disposed error, and so does every interval
    the host still holds when it comes due. *)
Theorem dispose_cancels_and_disables {Act Ext}
    (applyAction : Act -> M Act Ext unit) (w : World Act Ext) :
  exists w',
    dispose w = Returned tt w' /\
    disposed (timer w') = true /\
    timeouts (timer w') = [] /\ intervals (timer w') = [] /\
    rafs (timer w') = [] /\
    history (timer w') = history (timer w) /\
    unpausedAt (timer w') = unpausedAt (timer w) /\
    elapsedMs (timer w') = elapsedMs (timer w) /\
    (forall h,
       find_handle h (pendingOnce (host w'))
       = if existsb (fun e => Nat.eqb h (snd e)) (timeouts (timer w))
         then None else find_handle h (pendingOnce (host w))) /\
    (forall h,
       find_handle h (pendingFrame (host w'))
       = if existsb (fun e => Nat.eqb h (snd e)) (rafs (timer w))
         then None else find_handle h (pendingFrame (host w))) /\
    (forall h,
       find_handle h (pendingRepeating (host w'))
       = match intervals (timer w) with
         | [] => find_handle h (pendingRepeating (host w))
         | e :: _ =>
             if Nat.eqb h (snd e) then None
             else find_handle h (pendingRepeating (host w))
         end) /\
    getElapsedMs w' = Thrown (DisposedError (timer_name (timer w))) w' /\
    (exists w'', dispose w' = Returned tt w'') /\
    (forall h due period task dt,
       find_handle h (pendingRepeating (host w')) = Some (due, period, task) ->
       (due <= now (host w') + dt)%Q ->
       exists w'',
         hostFireInterval applyAction h (hostAdvance dt w')
         = Some (Thrown (DisposedError (timer_name (timer w))) w'')).
Proof.
  pose proof (clearTimeouts_spec false w) as Hspec.
  pose proof (clearTimeouts_host w) as Hhost.
  unfold wp in Hspec, Hhost. unfold dispose, bind.
  destruct (clearTimeouts false w) as [[] w1|]; [|contradiction].
  destruct Hspec as (Hu & Hto & Hiv & _). destruct (Hiv eq_refl) as [Hi Hrf].
  destruct Hhost as (Ho & Hr & Hf).
  unfold modify_timer, modify. eexists. split; [reflexivity|]. simpl.
  assert (Hname : timer_name (timer w1) = timer_name (timer w))
    by exact (f_equal (fun v => timer_name (u_timer v)) Hu).
  split; [reflexivity|]. split; [exact Hto|]. split; [exact Hi|].
  split; [exact Hrf|].
  split; [exact (unscheduled_history _ _ Hu)|].
  split; [exact (f_equal (fun v => unpausedAt (u_timer v)) Hu)|].
  split; [exact (f_equal (fun v => elapsedMs (u_timer v)) Hu)|].
  split; [intros h; rewrite Ho; apply find_handle_cancelAll|].
  split; [intros h; rewrite Hf; apply find_handle_cancelAll|].
  split.
  { intros h. rewrite Hr. destruct (intervals (timer w)); [reflexivity|].
    apply find_handle_remove_handle. }
  split.
  { rewrite getElapsedMs_disposed by reflexivity. simpl. now rewrite Hname. }
  split.
  { match goal with |- context [clearTimeouts false ?w2] =>
      pose proof (clearTimeouts_spec false w2) as H2;
      unfold wp in H2;
      destruct (clearTimeouts false w2) as [[] w3|]; [|contradiction]
    end.
    eexists. reflexivity. }
  intros h due period task dt Hfind Hdue.
  match goal with |- context [hostAdvance dt ?w2] =>
    destruct (hostFireInterval_disposed applyAction h due period task
                (hostAdvance dt w2) eq_refl Hfind Hdue) as (w'' & Hm)
  end.
  exists w''. rewrite Hm. simpl. now rewrite Hname.
Qed.

Section Once.
Context {Act Ext : Type}.
Variable applyAction : Act -> M Act Ext unit.
Implicit Types w : World Act Ext.

(** [_addTime] keeps the registry, up to [lastExecutionMs]. *)
Lemma _addTime_registry (ms : Q) (suppress : bool) w :
  disposed (timer w) = false ->
  updatesInert applyAction (callbacks (timer w)) ->
  (suppress = false -> crossedInert applyAction w ms) ->
  wp (_addTime applyAction (unpause applyAction) ms suppress) w (fun _ w' =>
    map stripLast (callbacks (timer w'))
    = map stripLast (callbacks (timer w))).
Proof.
  intros Hlive Hupd Hwalk.
  destruct (running (timer w)) eqn:Hrun.
  - eapply wp_conseq;
      [apply (_addTime_running_core applyAction ms suppress w Hlive Hrun
                Hupd Hwalk)|].
    intros [] w' Hc. exact (core_registry _ _ Hc).
  - eapply wp_conseq;
      [apply (_addTime_paused applyAction (unpause applyAction) ms suppress w
                Hlive Hrun Hupd Hwalk)|].
    intros [] w' (Hc & _). exact (core_registry _ _ Hc).
Qed.

Lemma dispatchTags_names (ty : InternalCallback Act -> TimerEventType)
    (l : list (InternalCallback Act)) (n : string) :
  In (Some n) (map snd (dispatchTags ty l)) ->
  exists c, In c l /\ cb_name c = n.
Proof.
  unfold dispatchTags. rewrite map_map. simpl. intros H.
  apply in_map_iff in H. destruct H as (c & Hc & Hin).
  exists c. split; [exact Hin|]. now inversion Hc.
Qed.

End Once.

(** X12.  [addTime] and [setTime] never dispatch a [checkpoint-once]
    callback for having crossed its target, and never remove one: the
    walk over the crossed targets takes the callbacks of kind
    [checkpoint] only.  The registry is as before (up to
    [lastExecutionMs]), and no event the call appends names a
    [checkpoint-once] callback that is not flagged [executeOnUpdate]
    (and whose name no other callback bears). *)
Theorem addTime_skips_checkpoint_once (w : World SuperTimer.Act unit) :
  disposed (timer w) = false ->
  let skipped (w' : World SuperTimer.Act unit) :=
    map stripLast (callbacks (timer w'))
    = map stripLast (callbacks (timer w)) /\
    exists appended,
      tags (history (timer w')) = tags (history (timer w)) ++ appended /\
      forall c,
        In c (callbacks (timer w)) -> cb_type c = CheckpointOnce ->
        cb_executeOnUpdate c = false ->
        (forall c', In c' (callbacks (timer w)) ->
           cb_name c' = cb_name c -> c' = c) ->
        ~ In (Some (cb_name c)) (map snd appended) in
  (forall d, exists w',
     SuperTimer.addTime d false w = Returned tt w' /\ skipped w') /\
  (forall m, exists w',
     SuperTimer.setTime m false w = Returned tt w' /\ skipped w').
Proof.
  intros Hlive skipped.
  assert (Hadj : forall ty data ms,
    snd (eventTag {| ev_date := wall (host w);
                     ev_elapsedMs :=
                       inject_Z (elapsedAt (timer w) (now (host w)));
                     ev_event := ty; ev_data := data |}) = None ->
    exists w',
      (pushEvent ty (inject_Z (elapsedAt (timer w) (now (host w)))) data >>
       _addTime SuperTimer.applyAction SuperTimer.unpause ms false) w
      = Returned tt w' /\ skipped w').
  { intros ty data ms Hdata. unfold bind at 1, pushEvent, modify.
    match goal with |- context [_addTime _ _ _ _ ?w1] => set (w1_ := w1) end.
    pose proof (_addTime_base SuperTimer.applyAction ms false w1_ Hlive
                  (SuperTimer_updatesInert w1_)
                  (fun _ => SuperTimer_crossedInert w1_ ms)) as H1.
    pose proof (_addTime_registry SuperTimer.applyAction ms false w1_ Hlive
                  (SuperTimer_updatesInert w1_)
                  (fun _ => SuperTimer_crossedInert w1_ ms)) as H2.
    unfold wp in H1, H2. unfold SuperTimer.unpause.
    destruct (_addTime SuperTimer.applyAction (unpause SuperTimer.applyAction)
                ms false w1_) as [[] w'|]; [|contradiction].
    destruct H1 as (_ & Ht & _).
    exists w'. split; [reflexivity|]. split; [exact H2|].
    exists ((ty, None)
            :: (if running (timer w) then [(EvPause, None)] else [])
            ++ dispatchTags (fun _ => EvCheckpoint) (crossedCallbacks w ms)
            ++ updateTags (callbacks (timer w))
            ++ (if running (timer w)
                then (EvUnpause, None) :: updateTags (callbacks (timer w))
                else [])).
    split.
    { rewrite Ht. unfold w1_, tags. simpl. rewrite map_app. simpl.
      unfold eventTag at 2. simpl in Hdata. simpl. rewrite Hdata.
      now rewrite <- app_assoc. }
    intros c Hin Hty Hupd Huniq Hmem.
    assert (Hfrom : forall c', In c' (callbacks (timer w)) ->
                      cb_name c' = cb_name c ->
                      cb_type c' = Checkpoint \/ cb_executeOnUpdate c' = true ->
                      False).
    { intros c' Hin' Hn' Hc'. rewrite (Huniq c' Hin' Hn') in Hc'.
      destruct Hc' as [Hc'|Hc']; congruence. }
    simpl in Hmem.
    destruct Hmem as [Hmem|Hmem]; [discriminate|].
    rewrite !map_app in Hmem.
    assert (Hupdl : In (Some (cb_name c))
                      (map snd (updateTags (callbacks (timer w)))) -> False).
    { intros H. apply dispatchTags_names in H. destruct H as (c' & Hc' & Hn').
      apply filter_In in Hc'. destruct Hc' as [Hc1 Hc2].
      apply (Hfrom c' Hc1 Hn'). now right. }
    apply in_app_or in Hmem. destruct Hmem as [Hmem|Hmem].
    { destruct (running (timer w)); simpl in Hmem;
        [destruct Hmem as [Hmem|[]]; discriminate|destruct Hmem]. }
    apply in_app_or in Hmem. destruct Hmem as [Hmem|Hmem].
    { simpl in Hmem. apply dispatchTags_names in Hmem.
      destruct Hmem as (c' & Hc' & Hn').
      apply (crossedCallbacks_spec w ms) in Hc'.
      destruct Hc' as (Hc1 & Hc2 & _).
      apply (Hfrom c' Hc1 Hn'). now left. }
    apply in_app_or in Hmem. destruct Hmem as [Hmem|Hmem];
      [now apply Hupdl|].
    destruct (running (timer w)); simpl in Hmem; [|destruct Hmem].
    destruct Hmem as [Hmem|Hmem]; [discriminate|now apply Hupdl]. }
  split.
  - intros d. unfold SuperTimer.addTime, addTime.
    rewrite (bind_returned _ _ _ _ _ (checkDisposed_live w Hlive)).
    rewrite (bind_returned _ _ _ _ _ (getElapsedMs_live w Hlive)).
    now apply Hadj.
  - intros m. unfold SuperTimer.setTime, setTime.
    rewrite (bind_returned _ _ _ _ _ (checkDisposed_live w Hlive)).
    rewrite (bind_returned _ _ _ _ _ (getElapsedMs_live w Hlive)).
    now apply Hadj.
Qed.

Lemma addTime_skips_checkpoint_once_witness :
  map (fun c => (cb_name c, cb_type c, cb_timeMs c))
    (callbacks (timer sampleTimer))
  = [("checkpoint-1", Checkpoint, 300%Q); ("checkpoint-2", Checkpoint, 200%Q);
     ("checkpoint-once-1", CheckpointOnce, 250%Q);
     ("checkpoint-3", Checkpoint, 5000%Q)] /\
  exists w',
    SuperTimer.addTime 1000 false sampleTimer = Returned tt w' /\
    map cb_name (callbacks (timer w'))
    = ["checkpoint-1"; "checkpoint-2"; "checkpoint-once-1"; "checkpoint-3"] /\
    tags (history (timer w'))
    = [(EvAddTime, None); (EvCheckpoint, Some "checkpoint-2");
       (EvCheckpoint, Some "checkpoint-1")].
Proof.
  split; [vm_compute; reflexivity|].
  assert (Hl : disposed (timer sampleTimer) = false)
    by (vm_compute; reflexivity).
  destruct (proj1 (addTime_skips_checkpoint_once sampleTimer Hl) 1000%Q)
    as (w' & Hm & _).
  exists w'. split; [exact Hm|].
  assert (Hw : w' = exec (SuperTimer.addTime 1000 false) sampleTimer)
    by (unfold exec; now rewrite Hm).
  rewrite Hw. split; vm_compute; reflexivity.
Defined.

Section Scheduling.
Context {Act Ext : Type}.
Variable applyAction : Act -> M Act Ext unit.
Implicit Types w : World Act Ext.

Lemma nm_get_set_eq (k : string) (v : nat) (m : NameMap) :
  nm_get k (nm_set k v m) = Some v.
Proof.
  induction m as [|[k' v'] m IH]; simpl.
  - now rewrite String.eqb_refl.
  - destruct (String.eqb k k') eqn:E; simpl; rewrite E; [reflexivity|exact IH].
Qed.

Lemma find_handle_app_fresh {A} (h : nat) (a : A) (l : list (nat * A)) :
  find_handle h l = None -> find_handle h (l ++ [(h, a)]) = Some a.
Proof.
  induction l as [|[k b] l IH]; simpl.
  - now rewrite Nat.eqb_refl.
  - destruct (Nat.eqb h k); [discriminate|exact IH].
Qed.




End Scheduling.



Section Completion.
Implicit Types w : World SuperCountdown.Act SuperCountdown.Fields.

Lemma countdownOk_core w w' :
  core w' = core w -> countdownOk w -> countdownOk w'.
Proof.
  intros Hc Hok cb Hin Ha.
  assert (He : ext w' = ext w) by exact (f_equal c_ext Hc).
  apply (in_map stripLast) in Hin. rewrite (core_registry _ _ Hc) in Hin.
  apply in_map_iff in Hin. destruct Hin as (cb0 & Hs & Hin0).
  assert (H1 : cb_callback cb0 = cb_callback cb)
    by exact (f_equal cb_callback Hs).
  assert (H2 : cb_executeOnUpdate cb0 = cb_executeOnUpdate cb)
    by exact (f_equal cb_executeOnUpdate Hs).
  assert (H3 : cb_timeMs cb0 = cb_timeMs cb) by exact (f_equal cb_timeMs Hs).
  destruct (Hok cb0 Hin0 (eq_trans H1 Ha)) as [Hf Ht].
  rewrite He, <- H2, <- H3. now split.
Qed.

Lemma afterOnce_filter (l acc : list SuperCountdown.CompleteCallback) :
  afterOnce l acc
  = List.filter
      (fun c =>
         negb (existsb
                 (fun d => SuperCountdown.cc_once d
                           && Nat.eqb (SuperCountdown.cc_id c)
                                (SuperCountdown.cc_id d)) l))
      acc.
Proof.
  unfold afterOnce. revert acc. induction l as [|d l IH]; intros acc; simpl.
  - induction acc as [|c acc IHa]; simpl; [reflexivity|]. now rewrite <- IHa.
  - rewrite IH. destruct (SuperCountdown.cc_once d) eqn:Hd; simpl.
    + unfold SuperCountdown.deleteCompleteCallback.
      induction acc as [|c acc IHa]; simpl; [reflexivity|].
      destruct (Nat.eqb (SuperCountdown.cc_id c) (SuperCountdown.cc_id d));
        simpl; [exact IHa|].
      destruct (existsb _ l); simpl; [exact IHa|]. now rewrite IHa.
    + reflexivity.
Qed.

Lemma cc_id_inj (l : list SuperCountdown.CompleteCallback) c d :
  NoDup (map SuperCountdown.cc_id l) -> In c l -> In d l ->
  SuperCountdown.cc_id c = SuperCountdown.cc_id d -> c = d.
Proof.
  induction l as [|x l IH]; simpl; intros Hnd Hc Hd Heq; [destruct Hc|].
  apply NoDup_cons in Hnd as [Hnotin Hnd].
  destruct Hc as [->|Hc], Hd as [->|Hd]; try reflexivity.
  - exfalso. apply Hnotin. rewrite Heq. apply list_elem_of_In.
    now apply in_map.
  - exfalso. apply Hnotin. rewrite <- Heq. apply list_elem_of_In.
    now apply in_map.
  - now apply IH.
Qed.

Lemma afterOnce_self (l : list SuperCountdown.CompleteCallback) :
  NoDup (map SuperCountdown.cc_id l) ->
  afterOnce l l
  = List.filter (fun c => negb (SuperCountdown.cc_once c)) l.
Proof.
  intros Hnd. rewrite afterOnce_filter. apply filter_ext_in.
  intros c Hc. f_equal.
  destruct (SuperCountdown.cc_once c) eqn:Ho.
  - apply existsb_exists. exists c. split; [exact Hc|].
    now rewrite Ho, Nat.eqb_refl.
  - destruct (existsb _ l) eqn:E; [|reflexivity].
    apply existsb_exists in E. destruct E as (d & Hd & Hb).
    apply andb_true_iff in Hb. destruct Hb as [Hod Hid].
    apply Nat.eqb_eq in Hid.
    rewrite (cc_id_inj l c d Hnd Hc Hd Hid) in Ho. congruence.
Qed.

End Completion.

Section Completion2.
Implicit Types w : World SuperCountdown.Act SuperCountdown.Fields.

(** The loop of the completion handler over the snapshot of the
    completion callbacks. *)
Lemma complete_loop (l : list SuperCountdown.CompleteCallback) w :
  wp (forM_ l (fun completeCallback =>
        modify (with_calls (fun l =>
          l ++ [SuperCountdown.UserFn
                  (SuperCountdown.cc_callback completeCallback)])) >>
        when (SuperCountdown.cc_once completeCallback)
          (modify (with_ext (fun e =>
             {| SuperCountdown.completeTime := SuperCountdown.completeTime e;
                SuperCountdown.completeCallbacks :=
                  SuperCountdown.deleteCompleteCallback
                    (SuperCountdown.cc_id completeCallback)
                    (SuperCountdown.completeCallbacks e) |})))))
    w (fun _ w' =>
      timer w' = timer w /\ host w' = host w /\
      calls w'
      = calls w
        ++ map (fun c => SuperCountdown.UserFn (SuperCountdown.cc_callback c))
             l /\
      SuperCountdown.completeTime (ext w')
      = SuperCountdown.completeTime (ext w) /\
      SuperCountdown.completeCallbacks (ext w')
      = afterOnce l (SuperCountdown.completeCallbacks (ext w))).
Proof.
  match goal with |- wp (forM_ _ ?f) _ _ => set (body := f) end.
  revert w. induction l as [|c l IH]; intros w.
  - unfold wp, ret. simpl. repeat split. now rewrite app_nil_r.
  - cbn [forM_ map]. apply wp_bind. unfold wp at 1.
    set (w0 := with_calls (fun l0 =>
                 l0 ++ [SuperCountdown.UserFn (SuperCountdown.cc_callback c)])
                 w).
    assert (Hb : body c w
                 = Returned tt
                     (if SuperCountdown.cc_once c
                      then with_ext (fun e =>
                             {| SuperCountdown.completeTime :=
                                  SuperCountdown.completeTime e;
                                SuperCountdown.completeCallbacks :=
                                  SuperCountdown.deleteCompleteCallback
                                    (SuperCountdown.cc_id c)
                                    (SuperCountdown.completeCallbacks e) |})
                             w0
                      else w0)).
    { unfold body, bind, modify, when, ret.
      now destruct (SuperCountdown.cc_once c). }
    rewrite Hb. eapply wp_conseq; [apply IH|].
    intros [] w' (Ht & Hh & Hcs & Hct & Hcc).
    unfold afterOnce. cbn [fold_left]. fold (afterOnce l).
    destruct (SuperCountdown.cc_once c); simpl in Ht, Hh, Hcs, Hct, Hcc.
    + split; [exact Ht|]. split; [exact Hh|].
      split; [rewrite Hcs; now rewrite <- app_assoc|].
      split; [exact Hct|exact Hcc].
    + split; [exact Ht|]. split; [exact Hh|].
      split; [rewrite Hcs; now rewrite <- app_assoc|].
      split; [exact Hct|exact Hcc].
Qed.

End Completion2.

(** X14.  The completion handler of a countdown (the function the
    constructor registers as [!countdown-complete-internal]), on a
    countdown that is not disposed and whose total is a whole number
    [T]: it pauses the countdown if it runs, sets the elapsed time so
    that [getElapsedMs()] returns [T] and [isDone()] is true, and then
    calls every completion callback once, in the order of registration,
    deleting from the set those registered to run once.  It returns for
    every amount of nesting allowed to it. *)
Theorem countdown_completion_handler (fuel : nat) (T : Z)
    (w : World SuperCountdown.Act SuperCountdown.Fields) :
  disposed (timer w) = false -> countdownOk w ->
  (SuperCountdown.completeTime (ext w) == inject_Z T)%Q ->
  NoDup (map SuperCountdown.cc_id (SuperCountdown.completeCallbacks (ext w))) ->
  exists w',
    SuperCountdown.applyAction (S fuel) SuperCountdown.CompleteInternal w
    = Returned tt w' /\
    running (timer w') = false /\
    getElapsedMs w' = Returned T w' /\
    SuperCountdown.isDone w' = Returned true w' /\
    SuperCountdown.completeCallbacks (ext w')
    = List.filter (fun c => negb (SuperCountdown.cc_once c))
        (SuperCountdown.completeCallbacks (ext w)) /\
    calls w'
    = calls w
      ++ (if running (timer w) then updateCalls (callbacks (timer w)) else [])
      ++ updateCalls (callbacks (timer w))
      ++ map (fun c => SuperCountdown.UserFn (SuperCountdown.cc_callback c))
           (SuperCountdown.completeCallbacks (ext w)) /\
    tags (history (timer w'))
    = tags (history (timer w))
      ++ (if running (timer w)
          then (EvPause, None) :: updateTags (callbacks (timer w)) else [])
      ++ (EvSetTime, None) :: updateTags (callbacks (timer w)).
Proof.
  intros Hlive Hok HT Hnd.
  set (app := SuperCountdown.applyAction fuel).
  (* the pause *)
  assert (Hpause : exists r w1,
    pause app false w = Returned r w1 /\
    disposed (timer w1) = false /\ running (timer w1) = false /\
    countdownOk w1 /\ ext w1 = ext w /\
    map stripLast (callbacks (timer w1)) = map stripLast (callbacks (timer w)) /\
    calls w1
    = calls w
      ++ (if running (timer w) then updateCalls (callbacks (timer w)) else []) /\
    tags (history (timer w1))
    = tags (history (timer w))
      ++ (if running (timer w)
          then (EvPause, None) :: updateTags (callbacks (timer w)) else [])).
  { destruct (running (timer w)) eqn:Hrun.
    - destruct (wp_returned _ _ _
                  (pause_running app false w Hlive Hrun
                     (fun _ => countdownOk_updatesInert fuel w Hok)))
        as (r & w1 & Hm & _ & Hc & Ht & Hcs).
      exists r, w1. split; [exact Hm|].
      assert (Hcw : core w1 = core (pausedWorld w)) by exact Hc.
      split; [rewrite (core_disposed _ _ Hc); exact Hlive|].
      split; [rewrite (core_running _ _ Hc); reflexivity|].
      split.
      { apply (countdownOk_core (pausedWorld w) w1 Hcw). exact Hok. }
      split; [exact (f_equal c_ext Hc)|].
      split; [exact (core_registry _ _ Hc)|]. now split.
    - exists false, w. split; [now apply pause_not_running|].
      rewrite !app_nil_r.
      split; [exact Hlive|]. split; [exact Hrun|]. split; [exact Hok|].
      repeat split. }
  destruct Hpause as (r & w1 & Hm1 & Hl1 & Hr1 & Hok1 & He1 & Hreg1 & Hcs1 & Ht1).
  (* the adjustment *)
  set (E1 := elapsedAt (timer w1) (now (host w1))).
  set (total := SuperCountdown.completeTime (ext w1)).
  assert (Hset : exists w2,
    SuperCountdown.setTimeRemaining_ app 0 true w1 = Returned tt w2 /\
    core w2
    = core (with_timer
              (fun t => set_elapsedMs
                          (elapsedMs t + (total - 0 - inject_Z E1))%Q t) w1) /\
    tags (history (timer w2))
    = tags (history (timer w1))
      ++ (EvSetTime, None) :: updateTags (callbacks (timer w1)) /\
    calls w2 = calls w1 ++ updateCalls (callbacks (timer w1))).
  { unfold SuperCountdown.setTimeRemaining_. unfold bind at 1, gets at 1.
    fold total. unfold setTime.
    rewrite (bind_returned _ _ _ _ _ (checkDisposed_live w1 Hl1)).
    rewrite (bind_returned _ _ _ _ _ (getElapsedMs_live w1 Hl1)). fold E1.
    unfold bind at 1, pushEvent, modify.
    match goal with |- context [_addTime _ _ _ _ ?w0] => set (w1' := w0) end.
    destruct (wp_returned _ _ _
                (_addTime_paused app (SuperCountdown.unpause_ app)
                   (total - 0 - inject_Z E1)%Q true w1' Hl1 Hr1
                   (countdownOk_updatesInert fuel w1 Hok1)
                   (fun H => ltac:(discriminate H))))
      as ([] & w2 & Hm2 & Hc2 & Ht2 & Hcs2).
    exists w2. split; [exact Hm2|]. split; [exact Hc2|]. split.
    - rewrite Ht2. simpl. unfold w1', tags. simpl. rewrite map_app. simpl.
      now rewrite <- app_assoc.
    - rewrite Hcs2. reflexivity. }
  destruct Hset as (w2 & Hm2 & Hc2 & Ht2 & Hcs2).
  (* the completion callbacks *)
  pose proof (complete_loop (SuperCountdown.completeCallbacks (ext w2)) w2)
    as Hloop.
  unfold wp in Hloop.
  match type of Hloop with
  | match ?m w2 with _ => _ end =>
      destruct (m w2) as [[] w3|] eqn:Hm3; [|contradiction]
  end.
  destruct Hloop as (Htm3 & Hh3 & Hcs3 & Hct3 & Hcc3).
  exists w3.
  assert (He2 : ext w2 = ext w1) by exact (f_equal c_ext Hc2).
  assert (Hl2 : disposed (timer w2) = false)
    by (rewrite (core_disposed _ _ Hc2); exact Hl1).
  assert (Hr2 : running (timer w2) = false)
    by (rewrite (core_running _ _ Hc2); exact Hr1).
  assert (Hel2 : elapsedMs (timer w2)
                 = (elapsedMs (timer w1) + (total - 0 - inject_Z E1))%Q)
    by exact (core_elapsedMs _ _ Hc2).
  assert (Hread : elapsedAt (timer w3) (now (host w3)) = T).
  { rewrite Htm3, Hh3, (elapsedAt_paused _ _ Hr2), Hel2.
    assert (Hx : (elapsedMs (timer w1) + (total - 0 - inject_Z E1)
                  == inject_Z T + (elapsedMs (timer w1) - inject_Z E1))%Q).
    { unfold total. rewrite He1, HT. ring. }
    rewrite (Math_round_comp _ _ Hx), Math_round_shift.
    assert (H0 : Math_round (elapsedMs (timer w1) - inject_Z E1) = 0%Z).
    { unfold E1. rewrite (elapsedAt_paused _ _ Hr1).
      destruct (Math_round_bounds (elapsedMs (timer w1))) as [Hlo Hhi].
      apply Math_round_unique; change (inject_Z 0) with 0%Q; lra. }
    rewrite H0. lia. }
  assert (Hl3 : disposed (timer w3) = false) by (rewrite Htm3; exact Hl2).
  split.
  { change (SuperCountdown.applyAction (S fuel) SuperCountdown.CompleteInternal)
      with (pause app false >>
            SuperCountdown.setTimeRemaining_ app 0 true >>
            let* completeCallbacksSnapshot :=
              gets (fun w => SuperCountdown.completeCallbacks (ext w)) in
            forM_ completeCallbacksSnapshot (fun completeCallback =>
              modify (with_calls (fun l =>
                l ++ [SuperCountdown.UserFn
                        (SuperCountdown.cc_callback completeCallback)])) >>
              when (SuperCountdown.cc_once completeCallback)
                (modify (with_ext (fun e =>
                   {| SuperCountdown.completeTime :=
                        SuperCountdown.completeTime e;
                      SuperCountdown.completeCallbacks :=
                        SuperCountdown.deleteCompleteCallback
                          (SuperCountdown.cc_id completeCallback)
                          (SuperCountdown.completeCallbacks e) |}))))).
    rewrite (bind_returned _ _ _ _ _ Hm1).
    rewrite (bind_returned _ _ _ _ _ Hm2).
    unfold bind at 1, gets at 1. exact Hm3. }
  split; [rewrite Htm3; exact Hr2|].
  split; [rewrite (getElapsedMs_live w3 Hl3); now rewrite Hread|].
  split.
  { rewrite (isDone_live w3 Hl3), Hread. f_equal. apply Qleb_le.
    rewrite Hct3, He2, He1, HT. lra. }
  split.
  { rewrite Hcc3, He2, He1. now apply afterOnce_self. }
  split.
  - rewrite Hcs3, Hcs2, Hcs1, He2, He1.
    rewrite <- (updateCalls_strip (callbacks (timer w1))), Hreg1,
      updateCalls_strip.
    now rewrite <- !app_assoc.
  - rewrite Htm3, Ht2, Ht1.
    rewrite <- (updateTags_strip (callbacks (timer w1))), Hreg1,
      updateTags_strip.
    now rewrite <- !app_assoc.
Qed.

Lemma countdownDue_ok : countdownOk countdownDue.
Proof.
  unfold countdownOk.
  assert (Hcbs : map (fun cb => (cb_callback cb, cb_executeOnUpdate cb,
                                 cb_timeMs cb))
                   (callbacks (timer countdownDue))
                 = [(SuperCountdown.CompleteInternal, false, 10000%Q)])
    by (vm_compute; reflexivity).
  assert (Ht : SuperCountdown.completeTime (ext countdownDue) = 10000%Q)
    by (vm_compute; reflexivity).
  rewrite Ht. clear Ht.
  destruct (callbacks (timer countdownDue)) as [|c [|c' l]];
    try discriminate.
  injection Hcbs as _ Hu Hm.
  intros cb [<-|[]] _. rewrite Hu, Hm. split; reflexivity.
Qed.

Lemma countdown_completion_handler_witness :
  exists w',
    SuperCountdown.applyAction 1 SuperCountdown.CompleteInternal countdownDue
    = Returned tt w' /\
    running (timer countdownDue) = true /\
    running (timer w') = false /\
    getElapsedMs w' = Returned 10000%Z w' /\
    SuperCountdown.isDone w' = Returned true w' /\
    map (fun c => (SuperCountdown.cc_callback c, SuperCountdown.cc_once c))
      (SuperCountdown.completeCallbacks (ext countdownDue))
    = [(42%nat, false); (43%nat, true)] /\
    map (fun c => (SuperCountdown.cc_callback c, SuperCountdown.cc_once c))
      (SuperCountdown.completeCallbacks (ext w'))
    = [(42%nat, false)] /\
    calls w'
    = calls countdownDue
      ++ [SuperCountdown.UserFn 42; SuperCountdown.UserFn 43].
Proof.
  assert (Hlive : disposed (timer countdownDue) = false)
    by (vm_compute; reflexivity).
  assert (HT : (SuperCountdown.completeTime (ext countdownDue)
                == inject_Z 10000)%Q) by (vm_compute; reflexivity).
  assert (Hnd : NoDup (map SuperCountdown.cc_id
                         (SuperCountdown.completeCallbacks (ext countdownDue)))).
  { match goal with |- ?P => apply (bool_decide_unpack P) end.
    vm_compute. exact I. }
  destruct (countdown_completion_handler 0 10000 countdownDue Hlive
              countdownDue_ok HT Hnd)
    as (w' & Hm & Hr & Hg & Hd & Hcc & Hcs & _).
  exists w'.
  split; [exact Hm|]. split; [vm_compute; reflexivity|].
  split; [exact Hr|]. split; [exact Hg|]. split; [exact Hd|].
  split; [vm_compute; reflexivity|].
  split.
  - rewrite Hcc. vm_compute. reflexivity.
  - rewrite Hcs. vm_compute. reflexivity.
Defined.

Section FrameLoop.
Implicit Types w : World SuperTimer.Act unit.

Lemma remove_handle_fresh {A} (h : nat) (l : list (nat * A)) :
  find_handle h l = None -> remove_handle h l = l.
Proof.
  induction l as [|[k a] l IH]; simpl; [reflexivity|].
  destruct (Nat.eqb h k); [discriminate|]. intros H. now rewrite IH.
Qed.

Lemma remove_handle_app {A} (h : nat) (l1 l2 : list (nat * A)) :
  remove_handle h (l1 ++ l2) = remove_handle h l1 ++ remove_handle h l2.
Proof.
  induction l1 as [|[k a] l1 IH]; simpl; [reflexivity|].
  destruct (Nat.eqb h k); [exact IH|]. simpl. now rewrite IH.
Qed.

Lemma find_handle_app {A} (h : nat) (l1 l2 : list (nat * A)) :
  find_handle h (l1 ++ l2)
  = match find_handle h l1 with
    | Some a => Some a
    | None => find_handle h l2
    end.
Proof.
  induction l1 as [|[k a] l1 IH]; simpl; [reflexivity|].
  now destruct (Nat.eqb h k).
Qed.

(** One frame of the loop on a running timer. *)
Lemma handleRafCallback_frame (cb : InternalCallback SuperTimer.Act)
    (h : nat) w :
  disposed (timer w) = false -> running (timer w) = true ->
  find_handle h (pendingFrame (host w)) = Some (LoopFrame cb) ->
  exists w',
    SuperTimer.hostFireFrame h w = Some (Returned tt w') /\
    core w' = core w /\
    history (timer w')
    = history (timer w)
      ++ [{| ev_date := wall (host w);
             ev_elapsedMs := inject_Z (elapsedAt (timer w) (now (host w)));
             ev_event := EvTick;
             ev_data := Some (DataName (cb_name cb)) |}] /\
    calls w' = calls w ++ [cb_callback cb] /\
    pendingFrame (host w')
    = remove_handle h (pendingFrame (host w))
      ++ [(nextHandle (host w), LoopFrame cb)] /\
    nextHandle (host w') = S (nextHandle (host w)) /\
    rafs (timer w')
    = nm_set (cb_name cb) (nextHandle (host w)) (rafs (timer w)) /\
    pendingOnce (host w') = pendingOnce (host w) /\
    pendingRepeating (host w') = pendingRepeating (host w) /\
    timeouts (timer w') = timeouts (timer w) /\
    intervals (timer w') = intervals (timer w).
Proof.
  intros Hlive Hrun Hfind.
  unfold SuperTimer.hostFireFrame, hostFireFrame. rewrite Hfind.
  unfold runFrame, handleRafCallback.
  match goal with |- context [bind getElapsedMs _ ?w1] => set (w0 := w1) end.
  assert (Hl0 : disposed (timer w0) = false) by exact Hlive.
  rewrite (bind_returned _ _ _ _ _ (getElapsedMs_live w0 Hl0)).
  unfold bind at 1, gets at 1.
  change (running (timer w0)) with (running (timer w)). rewrite Hrun.
  unfold when, bind, setLastExecution, pushEvent, executeCallback,
    lib_requestAnimationFrame, modify_timer, modify. simpl.
  eexists. split; [reflexivity|]. simpl.
  split; [unfold core; simpl; now rewrite stripLast_setLast|].
  repeat split.
Qed.

Lemma core_hostAdvance (dt : Q) w w' :
  core w' = core w -> core (hostAdvance dt w') = core (hostAdvance dt w).
Proof.
  intros H. unfold core in *. simpl.
  injection H as H1 H2 H3 H4 H5 H6 H7 H8 H9 H10 H11 H12 H13 H14.
  now rewrite H1, H2, H3, H4, H5, H6, H7, H8, H9, H10, H11, H12, H13, H14.
Qed.

Lemma core_advanceAll (dts : list Q) w w' :
  core w' = core w -> core (advanceAll dts w') = core (advanceAll dts w).
Proof.
  revert w w'. induction dts as [|d dts IH]; intros w w' H; [exact H|].
  unfold advanceAll. cbn [fold_left]. apply IH. now apply core_hostAdvance.
Qed.

Lemma elapsedAt_core_at (t : Q) w w' :
  core w' = core w -> elapsedAt (timer w') t = elapsedAt (timer w) t.
Proof.
  intros H. unfold elapsedAt, running.
  now rewrite (core_unpausedAt _ _ H), (core_elapsedMs _ _ H),
    (core_speed _ _ H).
Qed.

(** The loop over any number of frames. *)
Lemma runFrames_loop (cb : InternalCallback SuperTimer.Act) (dts : list Q) :
  forall (h : nat) w,
  disposed (timer w) = false -> running (timer w) = true ->
  nm_get (cb_name cb) (rafs (timer w)) = Some h ->
  find_handle h (pendingFrame (host w)) = Some (LoopFrame cb) ->
  framesFresh w ->
  exists w' h',
    runFrames dts (cb_name cb) w = Some (Returned tt w') /\
    disposed (timer w') = false /\ running (timer w') = true /\
    framesFresh w' /\
    core w' = core (advanceAll dts w) /\
    map eventReading (history (timer w'))
    = map eventReading (history (timer w))
      ++ map (fun t => (EvTick, Some (cb_name cb),
                        inject_Z (elapsedAt (timer w) t)))
           (frameTimes (now (host w)) dts) /\
    calls w' = calls w ++ repeat (cb_callback cb) (length dts) /\
    nm_get (cb_name cb) (rafs (timer w')) = Some h' /\
    find_handle h' (pendingFrame (host w')) = Some (LoopFrame cb) /\
    remove_handle h' (pendingFrame (host w'))
    = remove_handle h (pendingFrame (host w)) /\
    pendingOnce (host w') = pendingOnce (host w) /\
    pendingRepeating (host w') = pendingRepeating (host w) /\
    timeouts (timer w') = timeouts (timer w) /\
    intervals (timer w') = intervals (timer w).
Proof.
  induction dts as [|dt dts IH]; intros h w Hlive Hrun Hraf Hfind Hfresh.
  - exists w, h. simpl. rewrite !app_nil_r.
    split; [reflexivity|]. split; [exact Hlive|]. split; [exact Hrun|].
    split; [exact Hfresh|]. repeat split; assumption.
  - set (w1 := hostAdvance dt w).
    destruct (handleRafCallback_frame cb h w1 Hlive Hrun Hfind)
      as (w2 & Hm & Hc & Hh & Hcs & Hpf & Hnext & Hrafs & Hpo & Hpr & Hto
          & Hiv).
    assert (Hn : find_handle (nextHandle (host w)) (pendingFrame (host w))
                 = None) by exact (Hfresh _ (Nat.le_refl _)).
    assert (Hl2 : disposed (timer w2) = false)
      by (rewrite (core_disposed _ _ Hc); exact Hlive).
    assert (Hr2 : running (timer w2) = true)
      by (rewrite (core_running _ _ Hc); exact Hrun).
    assert (Hraf2 : nm_get (cb_name cb) (rafs (timer w2))
                    = Some (nextHandle (host w)))
      by (rewrite Hrafs; apply nm_get_set_eq).
    assert (Hrem : find_handle (nextHandle (host w))
                     (remove_handle h (pendingFrame (host w))) = None).
    { rewrite find_handle_remove_handle.
      now destruct (Nat.eqb (nextHandle (host w)) h). }
    assert (Hfind2 : find_handle (nextHandle (host w))
                       (pendingFrame (host w2)) = Some (LoopFrame cb)).
    { rewrite Hpf. now apply find_handle_app_fresh. }
    assert (Hfresh2 : framesFresh w2).
    { intros k Hk. rewrite Hnext in Hk. rewrite Hpf, find_handle_app.
      change (pendingFrame (host w1)) with (pendingFrame (host w)).
      change (nextHandle (host w1)) with (nextHandle (host w)) in Hk |- *.
      rewrite find_handle_remove_handle.
      assert (Hk' : (nextHandle (host w) <= k)%nat) by lia.
      rewrite (Hfresh k Hk').
      destruct (Nat.eqb k h); simpl;
        destruct (Nat.eqb k (nextHandle (host w))) eqn:E; try reflexivity;
        apply Nat.eqb_eq in E; lia. }
    destruct (IH (nextHandle (host w)) w2 Hl2 Hr2 Hraf2 Hfind2 Hfresh2)
      as (w' & h' & Hm' & Hl' & Hr' & Hf' & Hc' & Hh' & Hcs' & Hraf' & Hfind'
          & Hrem' & Hpo' & Hpr' & Hto' & Hiv').
    exists w', h'.
    split; [|split; [exact Hl'|split; [exact Hr'|split; [exact Hf'|]]]].
    { cbn [runFrames]. fold w1.
      change (nm_get (cb_name cb) (rafs (timer w1)))
        with (nm_get (cb_name cb) (rafs (timer w))).
      rewrite Hraf, Hm. exact Hm'. }
    split.
    { rewrite Hc'. exact (core_advanceAll dts w1 w2 Hc). }
    split.
    { rewrite Hh', Hh, map_app, <- app_assoc. f_equal.
      cbn [frameTimes map]. f_equal.
      assert (Hnow : now (host w2) = (now (host w) + dt)%Q)
        by exact (core_now _ _ Hc).
      rewrite Hnow. apply map_ext. intros t.
      now rewrite (elapsedAt_core_at t _ _ Hc). }
    split.
    { rewrite Hcs', Hcs. cbn [length repeat]. now rewrite <- app_assoc. }
    split; [exact Hraf'|]. split; [exact Hfind'|].
    split.
    { rewrite Hrem', Hpf, remove_handle_app. simpl.
      rewrite Nat.eqb_refl, app_nil_r. now apply remove_handle_fresh. }
    split; [now rewrite Hpo', Hpo|]. split; [now rewrite Hpr', Hpr|].
    split; [now rewrite Hto', Hto|]. now rewrite Hiv', Hiv.
Qed.

End FrameLoop.

Section FrameCancel.
Context {Act Ext : Type}.
Variable applyAction : Act -> M Act Ext unit.
Implicit Types w : World Act Ext.

Lemma nm_get_existsb (n : string) (h : nat) (m : NameMap) :
  nm_get n m = Some h -> existsb (fun e => Nat.eqb h (snd e)) m = true.
Proof.
  induction m as [|[k v] m IH]; simpl; [discriminate|].
  destruct (String.eqb n k).
  - intros [= ->]. now rewrite Nat.eqb_refl.
  - intros H. rewrite (IH H). apply orb_true_r.
Qed.

Lemma clearTimeouts_nextHandle w :
  wp (clearTimeouts false) w (fun _ w' =>
    nextHandle (host w') = nextHandle (host w)).
Proof.
  apply (wp_keeps (fun w => nextHandle (host w))).
  unfold clearTimeouts.
  apply keeps_bind; [apply keeps_gets|]. intros ts w1 H1.
  apply keeps_bind.
  { apply keeps_forM_. intros e w2 _ _. now apply keeps_modify. }
  intros [] w2 H2.
  apply keeps_bind; [now apply keeps_modify|]. intros [] w3 H3.
  apply keeps_when. intros _.
  apply keeps_bind; [apply keeps_gets|]. intros ivs w4 H4.
  apply keeps_bind.
  { destruct ivs as [|e ivs]; [apply keeps_ret|].
    apply keeps_bind; [now apply keeps_modify|]. intros [] w5 H5.
    now apply keeps_modify. }
  intros [] w5 H5.
  apply keeps_bind; [apply keeps_gets|]. intros rs w6 H6.
  apply keeps_bind.
  { apply keeps_forM_. intros e w7 _ _. now apply keeps_modify. }
  intros [] w7 H7. now apply keeps_modify.
Qed.

(** A dispatch leaves cancelled what is cancelled: the handle it may give
    out is a new one. *)
Lemma createEventAndInvokeCallback_cancelled (cb : InternalCallback Act)
    (ty : TimerEventType) (h : nat) w :
  inert applyAction (cb_callback cb) ->
  disposed (timer w) = false ->
  find_handle h (pendingFrame (host w)) = None ->
  (h < nextHandle (host w))%nat ->
  wp (createEventAndInvokeCallback applyAction (Registered cb) (Some ty) None)
    w (fun _ w' =>
      disposed (timer w') = false /\
      find_handle h (pendingFrame (host w')) = None /\
      (h < nextHandle (host w'))%nat).
Proof.
  intros Hinert Hlive Hnone Hlt. unfold wp, createEventAndInvokeCallback.
  rewrite (bind_returned _ _ _ _ _ (getElapsedMs_live w Hlive)).
  unfold inert in Hinert.
  unfold bind, pushEvent, modify, lib_requestAnimationFrame, modify_timer,
    modify, setLastExecution, executeCallback, bind, modify, modify_timer,
    modify.
  simpl. destruct (cb_requireAnimationFrame cb); simpl.
  - split; [exact Hlive|]. split; [|lia].
    rewrite find_handle_app, Hnone. simpl.
    destruct (Nat.eqb h (nextHandle (host w))) eqn:E; [|reflexivity].
    apply Nat.eqb_eq in E. lia.
  - rewrite Hinert. simpl. split; [exact Hlive|]. split; assumption.
Qed.

(** [pause()] cancels every frame request of the map of requests. *)
Lemma pause_cancels_frames (suppress : bool) (n : string) (h : nat) w :
  disposed (timer w) = false -> running (timer w) = true ->
  updatesInert applyAction (callbacks (timer w)) ->
  nm_get n (rafs (timer w)) = Some h ->
  (h < nextHandle (host w))%nat ->
  wp (pause applyAction suppress) w (fun _ w' =>
    find_handle h (pendingFrame (host w')) = None).
Proof.
  intros Hlive Hrun Hupd Hraf Hlt. unfold pause.
  apply wp_bind. unfold wp at 1. rewrite (checkDisposed_live w Hlive).
  apply wp_bind. unfold wp at 1, gets. rewrite Hrun. simpl.
  apply wp_bind. unfold wp at 1, modify.
  apply wp_bind. unfold wp at 1, modify_timer, modify.
  apply wp_bind. unfold wp at 1, gets.
  apply wp_bind. unfold wp at 1, pushEvent, modify.
  match goal with |- wp _ ?w2 _ => set (w0 := w2) end.
  apply wp_bind.
  pose proof (clearTimeouts_spec false w0) as Hspec.
  pose proof (clearTimeouts_host w0) as Hhost.
  pose proof (clearTimeouts_nextHandle w0) as Hnext.
  unfold wp in Hspec, Hhost, Hnext. unfold wp at 1.
  destruct (clearTimeouts false w0) as [[] w1|]; [|contradiction].
  destruct Hspec as (Hu & _). destruct Hhost as (_ & _ & Hf).
  change (rafs (timer w0)) with (rafs (timer w)) in Hf.
  change (pendingFrame (host w0)) with (pendingFrame (host w)) in Hf.
  change (nextHandle (host w0)) with (nextHandle (host w)) in Hnext.
  assert (Hl1 : disposed (timer w1) = false).
  { rewrite (unscheduled_disposed _ _ Hu). exact Hlive. }
  assert (Hcb1 : callbacks (timer w1) = callbacks (timer w))
    by exact (unscheduled_callbacks _ _ Hu).
  assert (Hnone : find_handle h (pendingFrame (host w1)) = None).
  { rewrite Hf, find_handle_cancelAll. now rewrite (nm_get_existsb n h _ Hraf). }
  apply wp_bind.
  destruct suppress; simpl.
  - unfold wp, ret. exact Hnone.
  - unfold executeUpdateCallbacks. 
    eapply wp_conseq.
    { apply wp_bind. unfold wp at 1, gets.
      apply (wp_forM_inv (fun w' =>
               disposed (timer w') = false /\
               find_handle h (pendingFrame (host w')) = None /\
               (h < nextHandle (host w'))%nat)).
      - split; [exact Hl1|]. split; [exact Hnone|]. now rewrite Hnext.
      - intros cb w' Hin (Hl' & Hn' & Hlt').
        destruct (cb_executeOnUpdate cb) eqn:Hu'; simpl.
        + apply createEventAndInvokeCallback_cancelled; try assumption.
          apply Hupd; [|exact Hu']. now rewrite <- Hcb1.
        + unfold wp, ret. now split. }
    intros [] w2 (_ & Hn2 & _). unfold wp, ret. exact Hn2.
Qed.

End FrameCancel.

(** X15.  The frame loop on a running [SuperTimer].  For a callback with
    [timeMs] 0 and [requireAnimationFrame], [handleTickResetCallback]
    sets no interval and records nothing: it asks the host for one frame
    and stores the request under the callback's name.  From then on every
    frame the host delivers records one [tick] event whose [elapsedMs] is
    the reading at that frame, calls the function once and asks for
    exactly one further frame, so that after any number of frames one
    request of the loop is pending, stored under the same name, and every
    other request, timeout and interval of the host is as before; the
    clock is as if only time had passed.  [pause()] cancels the pending
    request, so that the loop ends: the frame is never delivered. *)
Theorem frame_loop_runs_until_pause
    (cb : InternalCallback SuperTimer.Act) (dts : list Q) (suppress : bool)
    (w : World SuperTimer.Act unit) :
  disposed (timer w) = false -> running (timer w) = true ->
  (cb_timeMs cb == 0)%Q -> cb_requireAnimationFrame cb = true ->
  framesFresh w ->
  exists w0,
    handleTickResetCallback cb w = Returned tt w0 /\
    pendingRepeating (host w0) = pendingRepeating (host w) /\
    history (timer w0) = history (timer w) /\ calls w0 = calls w /\
    exists w1 h,
      runFrames dts (cb_name cb) w0 = Some (Returned tt w1) /\
      core w1 = core (advanceAll dts w) /\
      map eventReading (history (timer w1))
      = map eventReading (history (timer w))
        ++ map (fun t => (EvTick, Some (cb_name cb),
                          inject_Z (elapsedAt (timer w) t)))
             (frameTimes (now (host w)) dts) /\
      calls w1 = calls w ++ repeat (cb_callback cb) (length dts) /\
      nm_get (cb_name cb) (rafs (timer w1)) = Some h /\
      find_handle h (pendingFrame (host w1)) = Some (LoopFrame cb) /\
      remove_handle h (pendingFrame (host w1)) = pendingFrame (host w) /\
      pendingOnce (host w1) = pendingOnce (host w) /\
      pendingRepeating (host w1) = pendingRepeating (host w) /\
      exists r w2,
        SuperTimer.pause suppress w1 = Returned r w2 /\
        SuperTimer.hostFireFrame h w2 = None.
Proof.
  intros Hlive Hrun Hzero Hraf Hfresh.
  assert (Hn : find_handle (nextHandle (host w)) (pendingFrame (host w))
               = None) by exact (Hfresh _ (Nat.le_refl _)).
  set (h0 := nextHandle (host w)).
  set (w0 := with_timer (fun t =>
               set_rafs (nm_set (cb_name cb) h0 (rafs t)) t)
               (with_host (fun hs =>
                  set_nextHandle (S h0)
                    (set_pendingFrame
                       (pendingFrame hs ++ [(h0, LoopFrame cb)]) hs)) w)).
  assert (Hm0 : handleTickResetCallback cb w = Returned tt w0).
  { unfold handleTickResetCallback.
    apply Qeq_bool_iff in Hzero. rewrite Hzero, Hraf. reflexivity. }
  exists w0. split; [exact Hm0|]. split; [reflexivity|].
  split; [reflexivity|]. split; [reflexivity|].
  assert (Hc0 : core w0 = core w) by reflexivity.
  assert (Hfresh0 : framesFresh w0).
  { intros k Hk. unfold w0 in Hk |- *. simpl in Hk |- *.
    rewrite find_handle_app.
    assert (Hk' : (nextHandle (host w) <= k)%nat) by (fold h0; lia).
    rewrite (Hfresh k Hk'). simpl.
    destruct (Nat.eqb k h0) eqn:E; [|reflexivity].
    apply Nat.eqb_eq in E. lia. }
  assert (Hfind0 : find_handle h0 (pendingFrame (host w0))
                   = Some (LoopFrame cb)).
  { unfold w0. simpl. now apply find_handle_app_fresh. }
  assert (Hraf0 : nm_get (cb_name cb) (rafs (timer w0)) = Some h0).
  { unfold w0. simpl. apply nm_get_set_eq. }
  destruct (runFrames_loop cb dts h0 w0 Hlive Hrun Hraf0 Hfind0 Hfresh0)
    as (w1 & h & Hm1 & Hl1 & Hr1 & Hf1 & Hc1 & Hh1 & Hcs1 & Hraf1 & Hfind1
        & Hrem1 & Hpo1 & Hpr1 & _ & _).
  exists w1, h. split; [exact Hm1|].
  split.
  { rewrite Hc1. now apply core_advanceAll. }
  split; [exact Hh1|]. split; [exact Hcs1|]. split; [exact Hraf1|].
  split; [exact Hfind1|].
  split.
  { rewrite Hrem1. unfold w0. simpl. rewrite remove_handle_app. simpl.
    rewrite Nat.eqb_refl, app_nil_r. now apply remove_handle_fresh. }
  split; [exact Hpo1|]. split; [exact Hpr1|].
  assert (Hlt : (h < nextHandle (host w1))%nat).
  { destruct (Nat.lt_ge_cases h (nextHandle (host w1))) as [H|H];
      [exact H|].
    rewrite (Hf1 h H) in Hfind1. discriminate. }
  destruct (wp_returned _ _ _
              (pause_cancels_frames SuperTimer.applyAction suppress
                 (cb_name cb) h w1 Hl1 Hr1 (SuperTimer_updatesInert w1)
                 Hraf1 Hlt))
    as (r & w2 & Hm2 & Hnone).
  exists r, w2. split; [exact Hm2|].
  unfold SuperTimer.hostFireFrame, hostFireFrame. now rewrite Hnone.
Qed.

Lemma frame_loop_runs_until_pause_witness :
  exists w0 w1 h r w2,
    handleTickResetCallback perFrame runningAt300 = Returned tt w0 /\
    runFrames [16; 16; 18]%Q "frame" w0 = Some (Returned tt w1) /\
    map eventReading (history (timer w1))
    = map eventReading (history (timer runningAt300))
      ++ [(EvTick, Some "frame", 316%Q); (EvTick, Some "frame", 332%Q);
          (EvTick, Some "frame", 350%Q)] /\
    calls w1 = calls runningAt300 ++ [7%nat; 7%nat; 7%nat] /\
    find_handle h (pendingFrame (host w1)) = Some (LoopFrame perFrame) /\
    SuperTimer.pause false w1 = Returned r w2 /\
    SuperTimer.hostFireFrame h w2 = None.
Proof.
  assert (Hlive : disposed (timer runningAt300) = false)
    by (vm_compute; reflexivity).
  assert (Hrun : running (timer runningAt300) = true)
    by (vm_compute; reflexivity).
  assert (Hzero : (cb_timeMs perFrame == 0)%Q) by (vm_compute; reflexivity).
  assert (Hraf : cb_requireAnimationFrame perFrame = true)
    by (vm_compute; reflexivity).
  assert (Hfresh : framesFresh runningAt300).
  { intros k _.
    assert (Hp : pendingFrame (host runningAt300) = [])
      by (vm_compute; reflexivity).
    now rewrite Hp. }
  destruct (frame_loop_runs_until_pause perFrame [16; 16; 18]%Q false
              runningAt300 Hlive Hrun Hzero Hraf Hfresh)
    as (w0 & Hm0 & _ & _ & _ & w1 & h & Hm1 & _ & Hh & Hcs & _ & Hfind & _ & _
        & _ & r & w2 & Hm2 & Hnone).
  exists w0, w1, h, r, w2.
  split; [exact Hm0|]. split; [exact Hm1|].
  split; [rewrite Hh; vm_compute; reflexivity|].
  split; [rewrite Hcs; vm_compute; reflexivity|].
  split; [exact Hfind|]. split; [exact Hm2|exact Hnone].
Defined.
